(** * Tour feedback analyzer: ingestion, column inference and aggregation

    A shallow embedding of [utils.py], [feedback_processor.py], the loading
    step and the chunk loop of [app.py] and the figures and tables computed
    in [report_generator.py], followed by the properties of the
    specification that were checked against it and by further properties of
    the code.

    Conventions of the embedding.
    - A Python [str] is a [string]; one [ascii] stands for one character.
    - A function that can raise is a computation in the monad [M S]: it
      takes the mutable state [S] it works on (the uploaded file, or the
      history of requests sent to the model) and returns an [outcome]
      together with the new state.  [try_except] is Python's
      [try: ... except ...:].
    - Functions of pandas, json, csv, ast, re and of the Gemini client are
      not part of the repository: they are fields of the records [Library]
      and [Capability], and every theorem holds for all their behaviours
      unless it names the behaviour it needs.
    - Streamlit display calls ([st.warning], [st.error], ...), [print] and
      [time.sleep] have no effect on any value and are left out; only
      [display_sample_data], which does nothing else, keeps what it shows. *)

From stdpp Require Import base list strings gmap fin_maps sorting.
From Stdlib Require Import Ascii Arith Lia.

Local Open Scope string_scope.
Local Open Scope nat_scope.
Local Open Scope list_scope.

(** ** Python strings *)

Module PyStr.

(** The double quote and the line feed, which a literal cannot hold. *)
Definition dquote : string := String (ascii_of_nat 34) EmptyString.
Definition nl : string := String (ascii_of_nat 10) EmptyString.

(** [c.isspace()] for one character: TAB, LF, VT, FF, CR, the separators
    FS, GS, RS, US, the space, NEL and the no-break space. *)
Definition is_space (c : ascii) : bool :=
  let n := nat_of_ascii c in
  ((9 <=? n) && (n <=? 13)) || ((28 <=? n) && (n <=? 32))
  || (n =? 133) || (n =? 160).

(** [s.isspace()]: at least one character and all of them white space. *)
Fixpoint all_space (s : string) : bool :=
  match s with
  | EmptyString => true
  | String c s' => is_space c && all_space s'
  end.

Definition isspace (s : string) : bool :=
  match s with
  | EmptyString => false
  | _ => all_space s
  end.

Fixpoint lstrip (s : string) : string :=
  match s with
  | EmptyString => EmptyString
  | String c s' => if is_space c then lstrip s' else s
  end.

Fixpoint rstrip (s : string) : string :=
  match s with
  | EmptyString => EmptyString
  | String c s' =>
      match rstrip s' with
      | EmptyString => if is_space c then EmptyString else String c EmptyString
      | r => String c r
      end
  end.

(** [s.strip()] *)
Definition strip (s : string) : string := rstrip (lstrip s).

(** Truth value of a string: non-empty. *)
Definition truthy (s : string) : bool :=
  match s with EmptyString => false | _ => true end.

(** [s.split('\n')]: always at least one piece. *)
Fixpoint split_nl (s : string) : list string :=
  match s with
  | EmptyString => [EmptyString]
  | String c s' =>
      if (nat_of_ascii c =? 10) then EmptyString :: split_nl s'
      else match split_nl s' with
           | h :: t => String c h :: t
           | [] => [String c EmptyString]
           end
  end.

(** [ch in s] for a one-character needle. *)
Fixpoint contains (ch : ascii) (s : string) : bool :=
  match s with
  | EmptyString => false
  | String c s' => (nat_of_ascii c =? nat_of_ascii ch) || contains ch s'
  end.

Definition comma : ascii := ascii_of_nat 44.

Definition lower_char (c : ascii) : ascii :=
  let n := nat_of_ascii c in
  if (65 <=? n) && (n <=? 90) then ascii_of_nat (n + 32) else c.

(** [s.lower()] *)
Fixpoint lower (s : string) : string :=
  match s with
  | EmptyString => EmptyString
  | String c s' => String (lower_char c) (lower s')
  end.

(** [s.replace('_', ' ')] *)
Fixpoint replace_underscore (s : string) : string :=
  match s with
  | EmptyString => EmptyString
  | String c s' =>
      String (if nat_of_ascii c =? 95 then ascii_of_nat 32 else c)
             (replace_underscore s')
  end.

(** [s[:n]] and [s[n:]] *)
Fixpoint take (n : nat) (s : string) : string :=
  match n, s with
  | S n', String c s' => String c (take n' s')
  | _, _ => EmptyString
  end.

Fixpoint drop (n : nat) (s : string) : string :=
  match n, s with
  | S n', String _ s' => drop n' s'
  | _, _ => s
  end.

Definition mem (s : string) (l : list string) : bool :=
  existsb (String.eqb s) l.

(** [s.split(ch)] for a one-character separator: always at least one
    piece. *)
Fixpoint split_on (ch : ascii) (s : string) : list string :=
  match s with
  | EmptyString => [EmptyString]
  | String c s' =>
      if (nat_of_ascii c =? nat_of_ascii ch) then EmptyString :: split_on ch s'
      else match split_on ch s' with
           | h :: t => String c h :: t
           | [] => [String c EmptyString]
           end
  end.

Definition dot : ascii := ascii_of_nat 46.

(** A cased character, for the ASCII letters. *)
Definition is_cased (c : ascii) : bool :=
  let n := nat_of_ascii c in
  ((65 <=? n) && (n <=? 90)) || ((97 <=? n) && (n <=? 122)).

Definition upper_char (c : ascii) : ascii :=
  let n := nat_of_ascii c in
  if (97 <=? n) && (n <=? 122) then ascii_of_nat (n - 32) else c.

(** [s.title()]: a cased character is put in upper case when the one before
    it is not cased, and in lower case otherwise. *)
Fixpoint title_from (previous_is_cased : bool) (s : string) : string :=
  match s with
  | EmptyString => EmptyString
  | String c s' =>
      String (if previous_is_cased then lower_char c else upper_char c)
             (title_from (is_cased c) s')
  end.

Definition title (s : string) : string := title_from false s.


End PyStr.

(** ** Exceptions and stateful computations *)

Module Py.

Inductive exc_kind :=
| JSONDecodeError | ValueError | KeyError | AttributeError | TypeError
| ZeroDivisionError | OtherError.

(** An exception: its class and [str(e)]. *)
Record exc := Exc { exc_class : exc_kind; exc_msg : string }.

Inductive outcome (A : Type) :=
| Ok (a : A)
| Raise (e : exc).
Arguments Ok {A} a.
Arguments Raise {A} e.

Definition is_ok {A} (o : outcome A) : bool :=
  match o with Ok _ => true | Raise _ => false end.

(** The value of a normal outcome seen through [f]. *)
Definition outcome_map {A B} (f : A -> B) (o : outcome A) : outcome B :=
  match o with Ok a => Ok (f a) | Raise e => Raise e end.

Definition is_JSONDecodeError (e : exc) : bool :=
  match exc_class e with JSONDecodeError => true | _ => false end.

(** A computation over a mutable state [S]; the state survives a raise. *)
Definition M (S A : Type) : Type := S -> outcome A * S.

Definition ret {S A} (a : A) : M S A := fun s => (Ok a, s).

Definition bind {S A B} (m : M S A) (k : A -> M S B) : M S B :=
  fun s => match m s with
           | (Ok a, s') => k a s'
           | (Raise e, s') => (Raise e, s')
           end.

Definition raise {S A} (e : exc) : M S A := fun s => (Raise e, s).

(** [try: m  except Exception as e: h e] *)
Definition try_except {S A} (m : M S A) (h : exc -> M S A) : M S A :=
  fun s => match m s with
           | (Ok a, s') => (Ok a, s')
           | (Raise e, s') => h e s'
           end.

(** [try: m  except C as e: h e] for one exception class. *)
Definition try_except_if {S A} (catches : exc -> bool)
    (m : M S A) (h : exc -> M S A) : M S A :=
  fun s => match m s with
           | (Ok a, s') => (Ok a, s')
           | (Raise e, s') => if catches e then h e s' else (Raise e, s')
           end.

(** The outcome of a call that does not touch the state. *)
Definition lift {S A} (o : outcome A) : M S A := fun s => (o, s).

(** [for x in l: body x acc], the accumulator standing for the variables
    the body assigns. *)
Fixpoint for_each {S A B} (l : list A) (body : A -> B -> M S B) (acc : B)
    : M S B :=
  match l with
  | [] => ret acc
  | x :: l' => bind (body x acc) (for_each l' body)
  end.

End Py.

Import Py.

Declare Scope py_scope.
Delimit Scope py_scope with py.
Notation "'do' x <- m ; k" := (Py.bind m (fun x => k))
  (at level 10, x pattern, m at level 100, k at level 200) : py_scope.
Local Open Scope py_scope.

(** ** Regular expressions

    The part of the syntax of Python's [re] that the patterns of the
    repository use, under [re.DOTALL], and the backtracking search of [re]
    for it. *)

Module Re.

Inductive regex :=
| Lit (s : string)             (* the characters of [s], one after the other *)
| LazyDots                     (* [.*?] *)
| GreedyDots                   (* [.*] *)
| Group (n : nat) (r : regex)  (* [(r)], the group number [n] *)
| Seq (r1 r2 : regex)          (* [r1] followed by [r2] *)
| Alt (r1 r2 : regex).         (* [r1|r2] *)

(** The groups that took part in a match, each with the text it matched. *)
Definition groups := list (nat * string).

(** [s] without its prefix [p], when it has this prefix. *)
Fixpoint strip_prefix (p s : string) : option string :=
  match p, s with
  | EmptyString, _ => Some s
  | String a p', String b s' =>
      if (nat_of_ascii a =? nat_of_ascii b) then strip_prefix p' s' else None
  | String _ _, EmptyString => None
  end.

(** The text between two positions, each given by the text that is left
    from it on. *)
Definition consumed (s s' : string) : string :=
  PyStr.take (String.length s - String.length s') s.

(** [matches r s g k]: the first way, in the order in which [re] tries
    them, to match [r] at the start of [s] such that what follows is
    accepted by [k].  An alternation tries its left side first, [.*?] tries
    the shortest text first and [.*] the longest. *)
Fixpoint matches {R} (r : regex) (s : string) (g : groups)
    (k : string -> groups -> option R) : option R :=
  match r with
  | Lit p =>
      match strip_prefix p s with
      | Some s' => k s' g
      | None => None
      end
  | LazyDots =>
      (fix shortest (s : string) : option R :=
         match k s g with
         | Some x => Some x
         | None =>
             match s with
             | String _ s' => shortest s'
             | EmptyString => None
             end
         end) s
  | GreedyDots =>
      (fix longest (s : string) : option R :=
         match s with
         | String _ s' =>
             match longest s' with
             | Some x => Some x
             | None => k s g
             end
         | EmptyString => k s g
         end) s
  | Group n r => matches r s g (fun s' g' => k s' ((n, consumed s s') :: g'))
  | Seq r1 r2 => matches r1 s g (fun s' g' => matches r2 s' g' k)
  | Alt r1 r2 =>
      match matches r1 s g k with
      | Some x => Some x
      | None => matches r2 s g k
      end
  end.

(** [re.search(r, s, re.DOTALL)]: the match at the leftmost position that
    has one. *)
Fixpoint search (r : regex) (s : string) : option groups :=
  match matches r s [] (fun _ g => Some g) with
  | Some g => Some g
  | None =>
      match s with
      | String _ s' => search r s'
      | EmptyString => None
      end
  end.

(** [m.group(n)]: [None] for a group that took no part in the match. *)
Definition group (n : nat) (m : groups) : option string :=
  snd <$> List.find (fun p => fst p =? n) m.

End Re.

(** [a or b] on values that are [None] or a string. *)
Definition py_or (a b : option string) : option string :=
  match a with
  | Some s => if PyStr.truthy s then a else b
  | None => b
  end.

(** ** Data model *)

Module Frame.

(** A column label.  Labels read from a header or from the keys of a JSON
    object are strings; the labels pandas makes up when it is given none
    are the integers 0, 1, ... *)
Inductive label :=
| LStr (s : string)
| LInt (n : Z).

Definition label_eqb (a b : label) : bool :=
  match a, b with
  | LStr s, LStr t => String.eqb s t
  | LInt n, LInt m => Z.eqb n m
  | _, _ => false
  end.

(** The dtype of a column; only [object] is ever tested. *)
Inductive dtype := DObject | DInt64 | DFloat64 | DBool.

Definition is_object (d : dtype) : bool :=
  match d with DObject => true | _ => false end.

(** The value of one cell. *)
Inductive cell :=
| CStr (s : string)          (* a str *)
| CNone                      (* None *)
| CNaN                       (* the missing-value float *)
| CList (l : list string)    (* a list of str *)
| COther (repr : string).    (* any other object, given by its str() *)

(** [pd.isna] on a cell, which [dropna] uses. *)
Definition is_null (c : cell) : bool :=
  match c with CNone | CNaN => true | _ => false end.

(** Python's rendering of a list of str, as [str] gives it for the
    key-point lists; the quoting of the items is not needed by any
    property and the items are rendered bare. *)
Fixpoint join_items (l : list string) : string :=
  match l with
  | [] => ""
  | [x] => x
  | x :: l' => x +:+ ", " +:+ join_items l'
  end.

(** [str(v)] *)
Definition str (c : cell) : string :=
  match c with
  | CStr s => s
  | CNone => "None"
  | CNaN => "nan"
  | CList l => "[" +:+ join_items l +:+ "]"
  | COther r => r
  end.

Record column := Column {
  col_name : label;
  col_dtype : dtype;
  col_values : list cell }.

(** A DataFrame: the length of its index and its columns in order.  The
    labels of the frames handled here are pairwise distinct, and the index
    is the default one, so that a row is known by its position. *)
Record DataFrame := MkFrame {
  nrows : nat;
  columns : list column }.

(** [pd.DataFrame()] *)
Definition empty_frame : DataFrame := MkFrame 0 [].

(** [df.empty]: some axis has length 0. *)
Definition empty (df : DataFrame) : bool :=
  (nrows df =? 0) || (length (columns df) =? 0).

(** [pd.DataFrame({'feedback': lines})] for a list of str. *)
Definition feedback_frame (lines : list string) : DataFrame :=
  MkFrame (length lines) [Column (LStr "feedback") DObject (CStr <$> lines)].

Definition labels (df : DataFrame) : list label := col_name <$> columns df.

Definition has_column (name : string) (df : DataFrame) : bool :=
  existsb (fun c => label_eqb (col_name c) (LStr name)) (columns df).

(** [df[name]], for a label that occurs. *)
Definition find_column (l : label) (df : DataFrame) : option column :=
  List.find (fun c => label_eqb (col_name c) l) (columns df).

(** The value of a column at a row position; a short column reads as
    missing. *)
Definition cell_at (c : column) (i : nat) : cell :=
  default CNaN (col_values c !! i).

(** [df[name] = values]: an existing column of that name is replaced where
    it stands, otherwise the column is appended. *)
Fixpoint assign (cols : list column) (c : column) : list column :=
  match cols with
  | [] => [c]
  | c0 :: cols' =>
      if label_eqb (col_name c0) (col_name c) then c :: cols'
      else c0 :: assign cols' c
  end.

Definition set_column (name : string) (vals : list cell) (df : DataFrame)
    : DataFrame :=
  MkFrame (nrows df) (assign (columns df) (Column (LStr name) DObject vals)).

(** [df.at[idx, name] = v] *)
Definition set_at (idx : nat) (name : string) (v : cell) (df : DataFrame)
    : DataFrame :=
  MkFrame (nrows df)
    ((fun c => if label_eqb (col_name c) (LStr name)
               then Column (col_name c) (col_dtype c)
                      (<[idx := v]> (col_values c))
               else c) <$> columns df).

(** [df.iloc[start:stop]] *)
Definition iloc (start stop : nat) (df : DataFrame) : DataFrame :=
  MkFrame (Nat.min stop (nrows df) - Nat.min start (nrows df))
    ((fun c => Column (col_name c) (col_dtype c)
                 (take (stop - start) (drop start (col_values c))))
     <$> columns df).

(** The values of a column over [n] rows, missing ones filled in. *)
Definition padded (n : nat) (c : column) : list cell :=
  cell_at c <$> seq 0 n.

(** [pd.concat([a, b])]: the rows of [a], then those of [b], over the
    columns of [a] followed by the columns only [b] has. *)
Definition concat (a b : DataFrame) : DataFrame :=
  MkFrame (nrows a + nrows b)
    (((fun c => Column (col_name c) (col_dtype c)
                  (padded (nrows a) c ++
                   match find_column (col_name c) b with
                   | Some c' => padded (nrows b) c'
                   | None => replicate (nrows b) CNaN
                   end)) <$> columns a)
     ++ ((fun c' => Column (col_name c') (col_dtype c')
                      (replicate (nrows a) CNaN ++ padded (nrows b) c'))
         <$> List.filter
               (fun c' => negb (existsb (fun c => label_eqb (col_name c) (col_name c'))
                                        (columns a)))
               (columns b))).

End Frame.

Import Frame.

(** A value produced by [json.loads] or [ast.literal_eval]. *)
#[local] Unset Elimination Schemes.
Inductive pyobj :=
| PStr (s : string)
| PScalar (repr : string)   (* None, a bool, a number, or another literal
                               that is neither list nor dict, by its str() *)
| PList (l : list pyobj)
| PDict (d : list (string * pyobj)).
#[local] Set Elimination Schemes.

Definition is_str (v : pyobj) : bool :=
  match v with PStr _ => true | _ => false end.

Definition is_list (v : pyobj) : bool :=
  match v with PList _ => true | _ => false end.

(** [str(v)] for a value that is neither list nor dict. *)
Definition py_str (v : pyobj) : string :=
  match v with
  | PStr s => s
  | PScalar r => r
  | PList _ | PDict _ => ""
  end.

(** [d[key]] for a key that occurs. *)
Fixpoint dict_get {V} (d : list (string * V)) (key : string) : option V :=
  match d with
  | [] => None
  | (k, v) :: d' => if String.eqb k key then Some v else dict_get d' key
  end.

(** [max(l, key=f, default=None)]: the first element where [f] is largest. *)
Definition py_max_by {A} (f : A -> nat) (l : list A) : option A :=
  match l with
  | [] => None
  | x :: l' => Some (fold_left (fun best y => if f best <? f y then y else best) l' x)
  end.

(** ** utils.py *)

Module Utils.

(** The uploaded file: its bytes and the position of the file pointer. *)
Record file := File { data : string; pos : nat }.

Definition fresh (bytes : string) : file := File bytes 0.

(** [uploaded_file.read(n)], [uploaded_file.read()], [uploaded_file.seek(0)] *)
Definition read (n : nat) : M file string :=
  fun f => (Ok (PyStr.take n (PyStr.drop (pos f) (data f))),
            File (data f) (Nat.min (pos f + n) (String.length (data f)))).

Definition read_all : M file string :=
  fun f => (Ok (PyStr.drop (pos f) (data f)),
            File (data f) (Nat.max (pos f) (String.length (data f)))).

Definition seek0 : M file unit :=
  fun f => (Ok tt, File (data f) 0).

(** The keyword arguments [pd.read_csv] is called with. *)
Inductive bad_lines := ErrorBadLinesFalse | OnBadLinesSkip | BadLinesDefault.

Record Library := {
  (** [bytes.decode('utf-8', errors='replace')] *)
  decode : string -> string;
  (** [csv.Sniffer().sniff(sample).delimiter] *)
  sniff : string -> outcome string;
  (** [pd.read_csv] on the unread bytes of the file, with the delimiter
      and the bad-line policy; the number is how many bytes it consumed. *)
  read_csv : option string -> bad_lines -> string -> outcome DataFrame * nat;
  (** [json.loads] and [ast.literal_eval] *)
  json_loads : string -> outcome pyobj;
  literal_eval : string -> outcome pyobj;
  (** [pd.DataFrame(l)] for a list [l] *)
  pd_DataFrame : list pyobj -> outcome DataFrame }.

Section WithLibrary.

Variable lib : Library.

Definition pd_read_csv (delimiter : option string) (mode : bad_lines)
    : M file DataFrame :=
  fun f =>
    let '(o, n) := read_csv lib delimiter mode (PyStr.drop (pos f) (data f)) in
    (o, File (data f) (Nat.min (pos f + n) (String.length (data f)))).

Definition parse_csv : M file (DataFrame * string) :=
  try_except
    (do bytes <- read 1024;
     let sample := decode lib bytes in
     do _ <- seek0;
     do delimiter <- try_except (lift (sniff lib sample)) (fun _ => ret ",");
     do df <- try_except (pd_read_csv (Some delimiter) ErrorBadLinesFalse)
                (fun _ =>
                   try_except (pd_read_csv (Some delimiter) OnBadLinesSkip)
                     (fun _ => do _ <- seek0; pd_read_csv None BadLinesDefault));
     let df := if empty df
               then feedback_frame
                      ["CSV parsing resulted in no data - please check file format"]
               else df in
     ret (df, "csv"))
    (fun _ =>
       ret (feedback_frame ["Error in CSV parsing - this is a placeholder entry"],
            "csv with parsing error")).

Definition feedback_related_keys : list string :=
  ["feedback"; "reviews"; "comments"; "responses"; "data"].

(** [[k for k in content if isinstance(content[k], list)]], each key
    with the list it maps to. *)
Fixpoint list_items (d : list (string * pyobj)) : list (string * list pyobj) :=
  match d with
  | [] => []
  | (k, PList l) :: d' => (k, l) :: list_items d'
  | _ :: d' => list_items d'
  end.

(** The structural dispatch of [parse_json] on a dictionary. *)
Definition frame_of_dict (d : list (string * pyobj)) : M file DataFrame :=
  if existsb (fun kv => is_list kv.2) d then
    let list_keys := list_items d in
    match list_keys with
    | _ :: _ =>
        match List.find (fun key => PyStr.mem key (fst <$> list_keys))
                        feedback_related_keys with
        | Some key =>
            lift (pd_DataFrame lib (default [] (dict_get list_keys key)))
        | None =>
            match py_max_by (fun kl => length kl.2) list_keys with
            | Some (max_list_key, l) =>
                if PyStr.truthy max_list_key && (0 <? length l)
                then lift (pd_DataFrame lib l)
                else lift (pd_DataFrame lib [PDict d])
            | None => lift (pd_DataFrame lib [PDict d])
            end
        end
    | [] => lift (pd_DataFrame lib [PDict d])
    end
  else lift (pd_DataFrame lib [PDict d]).

(** The structural dispatch of [parse_json] on the parsed value. *)
Definition frame_of_content (content : pyobj) : M file DataFrame :=
  match content with
  | PList l =>
      if forallb is_str l then ret (feedback_frame (py_str <$> l))
      else lift (pd_DataFrame lib l)
  | PDict d => frame_of_dict d
  | _ => ret (feedback_frame [py_str content])
  end.

Definition parse_json : M file (DataFrame * string) :=
  try_except
    (do bytes <- read_all;
     let content_str := decode lib bytes in
     do _ <- seek0;
     (* [inl]: the parsed content; [inr]: the value of a [return] taken
        inside the handlers *)
     do loaded <-
       try_except_if is_JSONDecodeError
         (do c <- lift (json_loads lib content_str); ret (inl c))
         (fun _ =>
            try_except
              (do c <- lift (literal_eval lib content_str); ret (inl c))
              (fun _ =>
                 try_except
                   (let lines := PyStr.split_nl (PyStr.strip content_str) in
                    ret (inr (feedback_frame lines, "json-like text")))
                   (fun _ =>
                      ret (inr (feedback_frame
                                  ["Invalid JSON format - please check file structure"],
                                "invalid json")))));
     match loaded with
     | inr early => ret early
     | inl content =>
         do df <- frame_of_content content;
         let df := if empty df
                   then feedback_frame
                          ["JSON parsing resulted in no usable data - please check format"]
                   else df in
         ret (df, "json")
     end)
    (fun _ =>
       ret (feedback_frame ["Error in JSON parsing - this is a placeholder entry"],
            "json with parsing error")).

(** [[line.strip() for line in content.strip().split('\n') if line.strip()]] *)
Definition nonblank_lines (content : string) : list string :=
  PyStr.strip <$>
    List.filter (fun line => PyStr.truthy (PyStr.strip line))
                (PyStr.split_nl (PyStr.strip content)).

(** [any(',' in line for line in lines[:10]) and len(lines) > 1] *)
Definition looks_like_csv (lines : list string) : bool :=
  existsb (PyStr.contains PyStr.comma) (take 10 lines) && (1 <? length lines).

Definition parse_txt : M file (DataFrame * string) :=
  try_except
    (do bytes <- read_all;
     let content := decode lib bytes in
     let lines := nonblank_lines content in
     let lines := match lines with
                  | [] => ["No content found in file"]
                  | _ => lines
                  end in
     do reparsed <-
       (if looks_like_csv lines then
          do _ <- seek0;
          try_except
            (do df <- pd_read_csv None BadLinesDefault;
             ret (inr (df, "csv-like text")))
            (fun _ =>
               do _ <- seek0;
               do bytes <- read_all;
               let content := decode lib bytes in
               ret (inl (nonblank_lines content)))
        else ret (inl lines));
     match reparsed with
     | inr early => ret early
     | inl lines =>
         let df := feedback_frame lines in
         let df := if negb (has_column "feedback" df) || empty df
                   then feedback_frame
                          ["Sample feedback entry - please replace with actual data"]
                   else df in
         ret (df, "text")
     end)
    (fun _ =>
       ret (feedback_frame ["Error in file parsing - this is a placeholder entry"],
            "text with parsing error")).

Definition parse_file (file_extension : string) : M file (DataFrame * string) :=
  try_except
    (let file_extension := PyStr.lower file_extension in
     if String.eqb file_extension "csv" then parse_csv
     else if String.eqb file_extension "json" then parse_json
     else if String.eqb file_extension "txt" then parse_txt
     else parse_txt)
    (fun _ =>
       ret (feedback_frame ["Error parsing file - please check format and try again"],
            "parsing error")).

End WithLibrary.

(** *** display_sample_data *)

(** [str(df[col].dtype)] *)
Definition dtype_name (d : dtype) : string :=
  match d with
  | DObject => "object"
  | DInt64 => "int64"
  | DFloat64 => "float64"
  | DBool => "bool"
  end.

(** [(1 - non_null / len(df)) * 100 if len(df) > 0 else 0]: a float that is
    only formatted, given by its operands, or the integer 0. *)
Inductive null_percent :=
| NullPercent (non_null len : nat)
| NullPercentZero.

(** One entry of [column_info]; the count is the pair that
    [f"{non_null}/{len(df)}"] formats. *)
Record column_entry := ColumnEntry {
  ci_column : label;
  ci_type : string;
  ci_non_null_count : nat * nat;
  ci_null_percent : null_percent;
  ci_sample_value : string }.

(** What the function puts on the page, one item per Streamlit call. *)
Inductive shown :=
| WriteFormat (feedback_format : string)     (* [st.write(f"Data format: ...")] *)
| WriteText (text : string)                  (* [st.write(text)] *)
| ShowFrame (df : DataFrame)                 (* [st.dataframe(df)] *)
| ShowTable (rows : list column_entry).       (* [st.table(pd.DataFrame(rows))] *)

Definition show (item : shown) : M (list shown) unit :=
  fun page => (Ok tt, page ++ [item]).

(** [df[col].count()] *)
Definition count (n : nat) (c : column) : nat :=
  length (List.filter (fun v => negb (is_null v)) (padded n c)).

(** [df[col].iloc[0]], which is out of bounds on a column without rows. *)
Definition iloc0 (n : nat) (c : column) : M (list shown) cell :=
  if n =? 0
  then raise (Exc OtherError "single positional indexer is out-of-bounds")
  else ret (cell_at c 0).

(** The body of [for col in df.columns]. *)
Definition describe_column (df : DataFrame) (col : label)
    (column_info : list column_entry) : M (list shown) (list column_entry) :=
  match find_column col df with
  | None => raise (Exc KeyError "column")
  | Some c =>
      let dtype := dtype_name (col_dtype c) in
      let non_null := count (nrows df) c in
      let null_percent := if 0 <? nrows df
                          then NullPercent non_null (nrows df)
                          else NullPercentZero in
      do sample_val <- (if negb (nrows df =? 0)
                        then do v <- iloc0 (nrows df) c; ret (str v)
                        else ret "");
      let sample_val := if 50 <? String.length sample_val
                        then PyStr.take 47 sample_val +:+ "..."
                        else sample_val in
      ret (column_info
           ++ [ColumnEntry col dtype (non_null, nrows df) null_percent sample_val])
  end.

Definition display_sample_data (df : DataFrame) (feedback_format : string)
    : M (list shown) unit :=
  do _ <- show (WriteFormat feedback_format);
  let num_rows := Nat.min 10 (nrows df) in
  do _ <- show (ShowFrame (iloc 0 num_rows df));
  do _ <- show (WriteText "Column Information:");
  do column_info <- for_each (labels df) (describe_column df) [];
  show (ShowTable column_info).

End Utils.

(** ** feedback_processor.py *)

Module FeedbackProcessor.

(** The three prompts sent to the model, each given by the values that
    its template interpolates. *)
Inductive prompt :=
| AnalyzePrompt (feedback_text : string)
| SummaryPrompt (sample_size : nat) (category : string)
                (sample_feedbacks : list string)
| SuggestionPrompt (sample_size : nat) (category : string)
                   (sample_feedbacks : list string).

(** The requests sent to the model so far, oldest first. *)
Definition history := list prompt.

(** The JSON object asked of the model for one feedback: each of the three
    entries may be missing; [sentiment] and [category] are any strings and
    [key_points] any list of strings.  An answer whose JSON has another
    shape is outside the model. *)
Record analysis := Analysis {
  a_sentiment : option string;
  a_category : option string;
  a_key_points : option (list string) }.

(** The text-understanding service and the parsing of its answers. *)
Record Capability := {
  (** [genai.GenerativeModel('gemini-pro')] *)
  model_init : outcome unit;
  (** [model.generate_content(prompt).text]; the answer may depend on
      what was asked before. *)
  generate_content : history -> prompt -> outcome string;
  (** [re.search] of the JSON object in the answer and [json.loads] of it *)
  parse_analysis : string -> outcome analysis;
  (** [re.search] of the JSON array in the answer and [json.loads] of it *)
  parse_suggestions : string -> outcome pyobj }.

Record results := Results {
  sentiment_distribution : gmap string nat;
  category_distribution : gmap string nat;
  category_summaries : gmap string string;
  improvement_suggestions : gmap string pyobj;
  processed_data : DataFrame }.

(** [counter[k] += 1] on a [Counter] *)
Definition incr (k : string) (counter : gmap string nat) : gmap string nat :=
  <[k := default 0 (counter !! k) + 1]> counter.

(** [d[k].append(v)]; [None] stands for the [KeyError]. *)
Fixpoint dict_append (d : list (string * list string)) (k v : string)
    : option (list (string * list string)) :=
  match d with
  | [] => None
  | (k', l) :: d' =>
      if String.eqb k' k then Some ((k', l ++ [v]) :: d')
      else cons (k', l) <$> dict_append d' k v
  end.

Definition potential_columns : list string :=
  ["feedback"; "review"; "comment"; "text"; "description";
   "response"; "comments"; "reviews"; "message"; "content"].

(** The first loop over [df.columns]: the first label whose lower case is
    in the vocabulary.  [col.lower()] exists for a string label only. *)
Fixpoint find_named (cols : list column) : outcome (option label) :=
  match cols with
  | [] => Ok None
  | c :: cols' =>
      match col_name c with
      | LStr s =>
          if PyStr.mem (PyStr.lower s) potential_columns
          then Ok (Some (col_name c))
          else find_named cols'
      | LInt _ =>
          Raise (Exc AttributeError "'int' object has no attribute 'lower'")
      end
  end.

(** [df[col].dropna().iloc[0] if not df[col].dropna().empty else ""] *)
Definition sample_of (c : column) : cell :=
  match List.filter (fun v => negb (is_null v)) (col_values c) with
  | v :: _ => v
  | [] => CStr ""
  end.

(** The test of the second loop. *)
Definition text_like (c : column) : bool :=
  is_object (col_dtype c) &&
  match sample_of c with
  | CStr sample => 10 <? String.length sample
  | _ => false
  end.

Definition default_analysis : analysis :=
  Analysis (Some "neutral") (Some "other")
           (Some ["Could not extract key points"]).

Definition empty_category_data : list (string * list string) :=
  [("accommodation", []); ("transportation", []); ("food_dining", []);
   ("activities_guides", []); ("booking_process", []);
   ("value_for_money", []); ("other", [])].

(** The variables the row loop assigns. *)
Record locals := Locals {
  l_processed_df : DataFrame;
  l_sentiment_distribution : gmap string nat;
  l_category_distribution : gmap string nat;
  l_category_data : list (string * list string) }.

Section WithCapability.

Variable cap : Capability.

Definition get_gemini_model : M history unit :=
  try_except (lift (model_init cap))
    (fun e => raise (Exc OtherError
                       ("Error initializing Gemini model: " +:+ exc_msg e))).

(** One request to the model. *)
Definition ask (p : prompt) : M history string :=
  fun h => (generate_content cap h p, h ++ [p]).

Definition process_single_feedback (feedback_text : string)
    : M history analysis :=
  try_except
    (do response_text <- ask (AnalyzePrompt feedback_text);
     lift (parse_analysis cap response_text))
    (fun _ => ret default_analysis).

Definition generate_category_summaries
    (category_data : list (string * list string))
    : M history (gmap string string) :=
  for_each category_data
    (fun '(category, feedbacks) summaries =>
       match feedbacks with
       | [] => ret summaries
       | _ =>
           let sample_size := Nat.min 20 (length feedbacks) in
           let sample_feedbacks := take sample_size feedbacks in
           try_except
             (do text <- ask (SummaryPrompt sample_size
                                (PyStr.replace_underscore category)
                                sample_feedbacks);
              ret (<[category := PyStr.strip text]> summaries))
             (fun e =>
                ret (<[category := "Could not generate summary for "
                                   +:+ category +:+ ": " +:+ exc_msg e]>
                       summaries))
       end)
    ∅.

(** The suggestion substituted when the model or the parsing fails. *)
Definition fallback_suggestions (category : string) : pyobj :=
  PList [PDict [("title", PStr "Improve based on feedback");
                ("explanation",
                 PStr ("Review customer feedback for "
                       +:+ PyStr.replace_underscore category
                       +:+ " to identify specific improvement areas."))]].

Definition generate_improvement_suggestions
    (category_data : list (string * list string))
    : M history (gmap string pyobj) :=
  for_each category_data
    (fun '(category, feedbacks) suggestions =>
       match feedbacks with
       | [] => ret suggestions
       | _ =>
           let sample_size := Nat.min 20 (length feedbacks) in
           let sample_feedbacks := take sample_size feedbacks in
           try_except
             (do response_text <- ask (SuggestionPrompt sample_size
                                         (PyStr.replace_underscore category)
                                         sample_feedbacks);
              do result <- lift (parse_suggestions cap response_text);
              ret (<[category := result]> suggestions))
             (fun _ =>
                ret (<[category := fallback_suggestions category]> suggestions))
       end)
    ∅.

(** Lines 214-243 of [process_feedback]: the column holding the feedback. *)
Definition infer_feedback_column (df : DataFrame) : M history label :=
  do feedback_column <- lift (find_named (columns df));
  let feedback_column :=
    match feedback_column with
    | Some col => Some col
    | None => col_name <$> List.find text_like (columns df)
    end in
  let feedback_column :=
    match feedback_column with
    | Some col => Some col
    | None => col_name <$> head (columns df)
    end in
  match feedback_column with
  | Some col => ret col
  | None => raise (Exc ValueError
                     "Could not identify a suitable feedback column in the data")
  end.

(** [row[feedback_column]] for the row at position [idx]. *)
Definition row_value (df : DataFrame) (feedback_column : label) (idx : nat)
    : M history cell :=
  match find_column feedback_column df with
  | Some c => ret (cell_at c idx)
  | None => raise (Exc KeyError "feedback column")
  end.

(** The body of the loop over [df.iterrows()]. *)
Definition process_row (df : DataFrame) (feedback_column : label)
    (idx : nat) (st : locals) : M history locals :=
  do value <- row_value df feedback_column idx;
  let feedback_text := str value in
  if negb (PyStr.truthy feedback_text) || PyStr.isspace feedback_text
  then ret st
  else
    do analysis_result <- process_single_feedback feedback_text;
    let sentiment := default "neutral" (a_sentiment analysis_result) in
    let category := default "other" (a_category analysis_result) in
    let key_points := default [] (a_key_points analysis_result) in
    let processed_df :=
      set_at idx "key_points" (CList key_points)
        (set_at idx "category" (CStr category)
           (set_at idx "sentiment" (CStr sentiment) (l_processed_df st))) in
    let sentiment_distribution := incr sentiment (l_sentiment_distribution st) in
    let category_distribution := incr category (l_category_distribution st) in
    match dict_append (l_category_data st) category feedback_text with
    | Some category_data =>
        ret (Locals processed_df sentiment_distribution
                    category_distribution category_data)
    | None => raise (Exc KeyError category)
    end.

(** Lines 203-287 of [process_feedback]: the model, the feedback column,
    the three new columns and the loop over the rows. *)
Definition process_rows (df : DataFrame) : M history locals :=
  do _ <- get_gemini_model;
  do feedback_column <- infer_feedback_column df;
  let processed_df :=
    set_column "key_points" (replicate (nrows df) (CList []))
      (set_column "category" (replicate (nrows df) (CStr "other"))
         (set_column "sentiment" (replicate (nrows df) (CStr "neutral")) df)) in
  for_each (seq 0 (nrows df)) (process_row df feedback_column)
    (Locals processed_df ∅ ∅ empty_category_data).

Definition process_feedback (df : DataFrame)
    (include_sentiment include_categorization
     include_summaries include_suggestions : bool)
    (feedback_format : string) : M history results :=
  do st <- process_rows df;
  do summaries <- (if include_summaries
                   then generate_category_summaries (l_category_data st)
                   else ret ∅);
  do suggestions <- (if include_suggestions
                     then generate_improvement_suggestions (l_category_data st)
                     else ret ∅);
  ret (Results (l_sentiment_distribution st) (l_category_distribution st)
               summaries suggestions (l_processed_df st)).

End WithCapability.

(** *** The JSON text in an answer of the model *)

(** The pattern of line 55, [```json\n(.*?)\n```|```(.*?)```|({.*})], and
    that of line 168, which has [(\[.*\])] for its third alternative. *)
Definition json_pattern (opening closing : string) : Re.regex :=
  Re.Alt (Re.Seq (Re.Lit ("```json" +:+ PyStr.nl))
            (Re.Seq (Re.Group 1 Re.LazyDots) (Re.Lit (PyStr.nl +:+ "```"))))
    (Re.Alt (Re.Seq (Re.Lit "```") (Re.Seq (Re.Group 2 Re.LazyDots) (Re.Lit "```")))
       (Re.Group 3 (Re.Seq (Re.Lit opening) (Re.Seq Re.GreedyDots (Re.Lit closing))))).

Definition json_object_pattern : Re.regex := json_pattern "{" "}".
Definition json_array_pattern : Re.regex := json_pattern "[" "]".

(** Lines 55-61 and 168-174: the value handed to [json.loads], which is
    [None] when the group that matched is empty. *)
Definition json_argument (pattern : Re.regex) (response_text : string)
    : option string :=
  match Re.search pattern response_text with
  | Some json_match =>
      py_or (py_or (Re.group 1 json_match) (Re.group 2 json_match))
            (Re.group 3 json_match)
  | None => Some response_text
  end.

(** [json.loads(json_str)], which accepts a string only. *)
Definition loads_argument (json_loads : string -> outcome pyobj)
    (json_str : option string) : outcome pyobj :=
  match json_str with
  | Some s => json_loads s
  | None => Raise (Exc TypeError
                     "the JSON object must be str, bytes or bytearray, not NoneType")
  end.

(** The [result] of lines 55-61 and of lines 168-174. *)
Definition parse_response (pattern : Re.regex)
    (json_loads : string -> outcome pyobj) (response_text : string)
    : outcome pyobj :=
  loads_argument json_loads (json_argument pattern response_text).

End FeedbackProcessor.

(** ** report_generator.py: what generate_pdf_report computes

    The charts and the PDF are made by matplotlib and reportlab; the parts
    of [generate_pdf_report] embedded here are the computations of the
    repository itself: the figures of the executive summary, the rows of the
    two tables, and the sections of summaries and of suggestions.  A dict is
    the list of its items in the order in which Python iterates over them;
    its keys are pairwise distinct. *)

Module ReportGenerator.

(** [d.get(k, 0)] and [sum(d.values())] on a counter. *)
Definition get (d : list (string * nat)) (k : string) : nat :=
  default 0 (dict_get d k).

Definition sum_values (d : list (string * nat)) : nat := sum_list (snd <$> d).

(** [count / total * 100]: a float that is only formatted, given by its
    operands, or the integer 0 of a guarded expression. *)
Inductive percentage :=
| Percent (count total : nat)
| PercentZero.

(** [count / total_feedback * 100] *)
Definition percent (count total_feedback : nat) : outcome percentage :=
  if total_feedback =? 0
  then Raise (Exc ZeroDivisionError "division by zero")
  else Ok (Percent count total_feedback).

(** [(count / total_feedback * 100) if total_feedback > 0 else 0] *)
Definition guarded_percent (count total_feedback : nat) : percentage :=
  if 0 <? total_feedback then Percent count total_feedback else PercentZero.

(** [category.replace('_', ' ').title()] *)
Definition format_label (category : string) : string :=
  PyStr.title (PyStr.replace_underscore category).

(** The values that the text of the executive summary interpolates. *)
Record summary := Summary {
  total_feedback : nat;
  positive_pct : percentage;
  negative_pct : percentage;
  top_category : string;
  top_category_title : string;
  top_category_count : nat }.

(** Lines 199-209. *)
Definition executive_summary
    (sentiment_distribution category_distribution : list (string * nat))
    : summary :=
  let total_feedback := sum_values sentiment_distribution in
  let positive_pct :=
    guarded_percent (get sentiment_distribution "positive") total_feedback in
  let negative_pct :=
    guarded_percent (get sentiment_distribution "negative") total_feedback in
  let top_category :=
    match category_distribution with
    | [] => "None"
    | _ => match py_max_by snd category_distribution with
           | Some item => item.1
           | None => "None"
           end
    end in
  Summary total_feedback positive_pct negative_pct top_category
    (format_label top_category) (get category_distribution top_category).

(** A cell of a table: a text, a count, or [f"{p:.1f}%"]. *)
Inductive table_cell :=
| TText (s : string)
| TCount (n : nat)
| TPercent (p : percentage).

(** Lines 238-244: the rows of the sentiment table. *)
Definition sentiment_data (sentiment_distribution : list (string * nat))
    : outcome (list (list table_cell)) :=
  let total_feedback := sum_values sentiment_distribution in
  let positive_pct :=
    guarded_percent (get sentiment_distribution "positive") total_feedback in
  let negative_pct :=
    guarded_percent (get sentiment_distribution "negative") total_feedback in
  match percent (get sentiment_distribution "neutral") total_feedback with
  | Raise e => Raise e
  | Ok neutral_pct =>
      Ok [[TText "Sentiment"; TText "Count"; TText "Percentage"];
          [TText "Positive"; TCount (get sentiment_distribution "positive");
           TPercent positive_pct];
          [TText "Neutral"; TCount (get sentiment_distribution "neutral");
           TPercent neutral_pct];
          [TText "Negative"; TCount (get sentiment_distribution "negative");
           TPercent negative_pct];
          [TText "Total"; TCount total_feedback; TText "100.0%"]]
  end.

(** [sorted]: a stable sort.  [before y x] says that [y] has to come before
    [x], which stood before it; an item goes in front of the first one that
    does not have to come before it. *)
Fixpoint insert_sorted {A} (before : A -> A -> bool) (x : A) (l : list A)
    : list A :=
  match l with
  | [] => [x]
  | y :: l' => if before y x then y :: insert_sorted before x l' else x :: l
  end.

Definition sorted {A} (before : A -> A -> bool) (l : list A) : list A :=
  foldr (insert_sorted before) [] l.

(** [sorted(d.items(), key=lambda x: x[1], reverse=True)] *)
Definition by_count_descending (d : list (string * nat)) : list (string * nat) :=
  sorted (fun y x => x.2 <? y.2) d.

(** [sorted(d.items())]: the keys of a dict differ, so that the items are
    ordered by their keys. *)
Definition by_key {V} (d : list (string * V)) : list (string * V) :=
  sorted (fun y x => String.ltb y.1 x.1) d.

(** Lines 282-289: the rows of the category table. *)
Definition category_data (category_distribution : list (string * nat))
    (total_feedback : nat) : list (list table_cell) :=
  [TText "Category"; TText "Count"; TText "Percentage"]
  :: ((fun item => [TText (format_label item.1); TCount item.2;
                    TPercent (guarded_percent item.2 total_feedback)])
      <$> by_count_descending category_distribution).

(** Lines 315-326: the headings and the texts of the summary sections;
    [None] stands for the paragraph [No category summaries available.] *)
Definition summary_sections (category_summaries : list (string * string))
    : option (list (string * string)) :=
  match category_summaries with
  | [] => None
  | _ =>
      Some ((fun item => (format_label item.1, item.2))
            <$> List.filter (fun item => PyStr.truthy item.2)
                            (by_key category_summaries))
  end.







End ReportGenerator.

(** ** app.py: the chunk loop *)

Module App.

Import FeedbackProcessor.

(** The variables the chunk loop assigns: [results] ([None] while it is
    still the empty dict), [processed_df] and [error_messages] (the chunk
    number and [str(chunk_error)] of each message). *)
Record state := State {
  results_so_far : option results;
  processed_df : DataFrame;
  error_messages : list (nat * string) }.

(** [for k, v in chunk.items(): acc[k] = acc.get(k, 0) + v] *)
Definition add_counts (acc chunk : gmap string nat) : gmap string nat :=
  map_fold (fun k v acc => <[k := default 0 (acc !! k) + v]> acc) acc chunk.

(** Lines 126-135: the counters are summed key by key, the two
    dictionaries are updated with the entries of the chunk. *)
Definition accumulate (acc chunk_results : results) : results :=
  Results
    (add_counts (sentiment_distribution acc) (sentiment_distribution chunk_results))
    (add_counts (category_distribution acc) (category_distribution chunk_results))
    (category_summaries chunk_results ∪ category_summaries acc)
    (improvement_suggestions chunk_results ∪ improvement_suggestions acc)
    (processed_data acc).

Section WithCapability.

Variable cap : Capability.
Variables include_sentiment include_categorization
          include_summaries include_suggestions : bool.
Variable feedback_format : string.

(** Lines 103-145: the rows [start_idx] to [end_idx] are processed and
    the result is accumulated; [first] is the test [i == 0] and
    [number] is [i + 1]. *)
Definition process_range (df : DataFrame) (first : bool) (number : nat)
    (start_idx end_idx : nat) (st : state) : M history state :=
  let chunk := iloc start_idx end_idx df in
  try_except
    (do chunk_results <-
       process_feedback cap chunk include_sentiment include_categorization
         include_summaries include_suggestions feedback_format;
     if first then
       ret (State (Some chunk_results) (processed_data chunk_results)
                  (error_messages st))
     else
       ret (State ((fun acc => accumulate acc chunk_results) <$> results_so_far st)
                  (concat (processed_df st) (processed_data chunk_results))
                  (error_messages st)))
    (fun chunk_error =>
       ret (State (results_so_far st) (processed_df st)
                  (error_messages st ++ [(number, exc_msg chunk_error)]))).

(** The same accumulation over any list of row ranges, the first range
    being the chunk [i == 0]. *)
Fixpoint process_ranges (df : DataFrame) (first : bool) (number : nat)
    (ranges : list (nat * nat)) (st : state) : M history state :=
  match ranges with
  | [] => ret st
  | (start_idx, end_idx) :: ranges' =>
      do st' <- process_range df first number start_idx end_idx st;
      process_ranges df false (S number) ranges' st'
  end.

(** The body of [for i in range(total_chunks)]. *)
Definition process_chunk (df : DataFrame) (chunk_size : nat)
    (i : nat) (st : state) : M history state :=
  let start_idx := i * chunk_size in
  let end_idx := Nat.min (start_idx + chunk_size) (nrows df) in
  process_range df (i =? 0) (i + 1) start_idx end_idx st.

(** Lines 91-151: the analysis of the whole dataset, chunk by chunk.
    The result holds [results] with [results['processed_data']] set to
    the concatenated frame. *)
Definition analyze (df : DataFrame) : M history state :=
  let total_chunks := Nat.min 10 (nrows df) in
  do chunk_size <-
    (if total_chunks =? 0
     then raise (Exc ZeroDivisionError "integer division or modulo by zero")
     else ret (Nat.max 1 (nrows df / total_chunks)));
  do st <- for_each (seq 0 total_chunks) (process_chunk df chunk_size)
             (State None empty_frame []);
  ret (State ((fun r => Results (sentiment_distribution r)
                          (category_distribution r) (category_summaries r)
                          (improvement_suggestions r) (processed_df st))
              <$> results_so_far st)
             (processed_df st) (error_messages st)).

(** The row ranges [(start_idx, end_idx)] of the chunks of a dataset of
    [n > 0] rows. *)
Definition chunk_ranges (n : nat) : list (nat * nat) :=
  let total_chunks := Nat.min 10 n in
  let chunk_size := Nat.max 1 (n / total_chunks) in
  (fun i => (i * chunk_size, Nat.min (i * chunk_size + chunk_size) n))
    <$> seq 0 total_chunks.

End WithCapability.

(** *** Loading the uploaded file *)

(** Line 37: [uploaded_file.name.split('.')[-1].lower()] *)
Definition file_extension (name : string) : string :=
  PyStr.lower (List.last (PyStr.split_on PyStr.dot name) "").

(** Lines 37-48: the dataset and the format that the page goes on with.
    [parse_file] returns a frame, never [None]. *)
Definition load (lib : Utils.Library) (name : string)
    : M Utils.file (DataFrame * string) :=
  let file_extension := file_extension name in
  do parsed <- Utils.parse_file lib file_extension;
  let '(df, feedback_format) := parsed in
  if empty df
  then ret (feedback_frame
              ["Sample feedback entry for demonstration - please upload valid data"],
            "empty file")
  else ret (df, feedback_format).

(** Line 196, [generate_pdf_report(results)], as far as the first statement
    that reads [results], [total_feedback = sum(results
    ['sentiment_distribution'].values())]; the statements before it set up
    the document and do not depend on [results]. *)
Definition report_total (st : state) : outcome nat :=
  match results_so_far st with
  | None => Raise (Exc KeyError "'sentiment_distribution'")
  | Some r =>
      Ok (ReportGenerator.sum_values (map_to_list (sentiment_distribution r)))
  end.

End App.

(** ** Concrete inputs used in the examples below *)

Module Examples.

Import Utils FeedbackProcessor.

(** A library whose [read_csv] always returns the given frame, whose
    [json.loads] always returns the given value and whose [pd.DataFrame]
    returns [frame_of_list]; decoding leaves ASCII bytes as they are. *)
Definition library_with (csv_frame : DataFrame) (json_value : pyobj)
    (frame_of_list : DataFrame) : Library :=
  {| decode := fun bytes => bytes;
     sniff := fun _ => Ok ",";
     read_csv := fun _ _ rest => (Ok csv_frame, String.length rest);
     json_loads := fun _ => Ok json_value;
     literal_eval := fun _ => Ok json_value;
     pd_DataFrame := fun _ => Ok frame_of_list |}.

(** The seven bytes ["a,\nb"] (with the quotes): one quoted field that
    spans two lines.  pandas reads it as a header naming one column, with
    no data row. *)
Definition quoted_bytes : string :=
  PyStr.dquote +:+ "a," +:+ PyStr.nl +:+ "b" +:+ PyStr.dquote.

Definition header_only : DataFrame :=
  MkFrame 0 [Column (LStr ("a," +:+ PyStr.nl +:+ "b")) DObject []].



(** The JSON object [{"reviews": ["x","y"], "other": ["z"]}] and the frame
    [pd.DataFrame(["x","y"])]: one column, labelled with the integer 0. *)
Definition reviews_json : pyobj :=
  PDict [("reviews", PList [PStr "x"; PStr "y"]); ("other", PList [PStr "z"])].

Definition unnamed_frame : DataFrame :=
  MkFrame 2 [Column (LInt 0) DObject [CStr "x"; CStr "y"]].

(** The text of that JSON object. *)
Definition quoted (s : string) : string := PyStr.dquote +:+ s +:+ PyStr.dquote.

Definition reviews_bytes : string :=
  "{" +:+ quoted "reviews" +:+ ": [" +:+ quoted "x" +:+ ", " +:+ quoted "y" +:+ "], "
  +:+ quoted "other" +:+ ": [" +:+ quoted "z" +:+ "]}".

(** A model that answers every request, every feedback being analysed as
    positive and of category [other]. *)
Definition always_positive : Capability :=
  {| model_init := Ok tt;
     generate_content := fun _ _ => Ok "ok";
     parse_analysis := fun _ => Ok (Analysis (Some "positive") (Some "other") (Some []));
     parse_suggestions := fun _ => Ok (PList []) |}.




(** A deterministic model: it echoes the feedback, which is analysed as
    positive when it reads [fine] and as negative otherwise. *)
Definition echo : Capability :=
  {| model_init := Ok tt;
     generate_content := fun _ p =>
       match p with
       | AnalyzePrompt feedback_text => Ok feedback_text
       | _ => Ok "ok"
       end;
     parse_analysis := fun text =>
       Ok (Analysis (Some (if String.eqb text "fine" then "positive" else "negative"))
             (Some "other") (Some []));
     parse_suggestions := fun _ => Ok (PList []) |}.

Definition eleven_rows : DataFrame :=
  feedback_frame ["r0"; "r1"; "r2"; "r3"; "r4"; "r5"; "r6"; "r7"; "r8"; "r9"; "r10"].

(** Two columns, neither named after the vocabulary: in the first row the
    long text is in [b], in the second row it is in [a]. *)
Definition two_rows : DataFrame :=
  MkFrame 2 [Column (LStr "a") DObject [CStr "short"; CStr "a rather long remark"];
             Column (LStr "b") DObject [CStr "this one is long too"; CStr "fine"]].

(** A dataset that already has a column named [sentiment]. *)
Definition with_sentiment : DataFrame :=
  MkFrame 1 [Column (LStr "feedback") DObject [CStr "great trip"];
             Column (LStr "sentiment") DObject [CStr "as rated by the guest"]].

Definition one_row : DataFrame := feedback_frame ["great trip"].

(** Three rows, of which the second is white space and the third empty. *)
Definition with_blank_rows : DataFrame := feedback_frame ["great trip"; "   "; ""].



(** The JSON text [["x", "y"]] and the list it holds. *)
Definition strings_bytes : string :=
  "[" +:+ quoted "x" +:+ ", " +:+ quoted "y" +:+ "]".

Definition strings_json : pyobj := PList [PStr "x"; PStr "y"].

(** A library for content that is neither JSON nor a Python literal, and
    such content: three lines, of which the second is empty. *)
Definition rejecting : Library :=
  {| decode := fun bytes => bytes;
     sniff := fun _ => Ok ",";
     read_csv := fun _ _ rest => (Ok empty_frame, String.length rest);
     json_loads := fun _ => Raise (Exc JSONDecodeError "Expecting value");
     literal_eval := fun _ => Raise (Exc OtherError "invalid syntax");
     pd_DataFrame := fun _ => Ok empty_frame |}.

Definition three_lines_bytes : string :=
  "good" +:+ PyStr.nl +:+ PyStr.nl +:+ "bad ".

(** A model that echoes the feedback; the feedback [rain] is put in a
    category of the model's own making, [weather], every other one in
    [other]. *)
Definition weather : Capability :=
  {| model_init := Ok tt;
     generate_content := fun _ p =>
       match p with
       | AnalyzePrompt feedback_text => Ok feedback_text
       | _ => Ok "ok"
       end;
     parse_analysis := fun text =>
       Ok (Analysis (Some "positive")
             (Some (if String.eqb text "rain" then "weather" else "other"))
             (Some []));
     parse_suggestions := fun _ => Ok (PList []) |}.


Definition rain_first : DataFrame := feedback_frame ["rain"; "fine"].

(** A column of ratings next to a feedback column with a missing value. *)
Definition with_missing : DataFrame :=
  MkFrame 2 [Column (LStr "rating") DInt64 [COther "5"; COther "3"];
             Column (LStr "feedback") DObject [CStr "great trip"; CNaN]].

(** Three categories, two of them with the same count. *)
Definition three_categories : list (string * nat) :=
  [("food_dining", 1); ("other", 3); ("accommodation", 3)].

End Examples.

(** ** Notions used to state the properties *)

Import Utils FeedbackProcessor.

(** [returns m P]: whenever [m] returns normally, its value satisfies [P]. *)
Definition returns {S A} (m : M S A) (P : A -> Prop) : Prop :=
  forall s a s', m s = (Ok a, s') -> P a.



(** The value of the column [name] at the row [i], if there is one. *)
Definition get_cell (df : DataFrame) (name : string) (i : nat) : option cell :=
  c ← find_column (LStr name) df; col_values c !! i.

(** The test of [process_feedback] for a feedback to skip. *)
Definition is_blank (feedback_text : string) : bool :=
  negb (PyStr.truthy feedback_text) || PyStr.isspace feedback_text.

(** The feedback text of each row of a column, and those that are analysed. *)
Definition feedback_texts (c : column) (idxs : list nat) : list string :=
  (fun i => str (cell_at c i)) <$> idxs.

Definition analysed_texts (c : column) (idxs : list nat) : list string :=
  List.filter (fun t => negb (is_blank t)) (feedback_texts c idxs).

(** The request for a feedback fails: the model raises, or no analysis can
    be parsed from its answer. *)
Definition call_fails (cap : Capability) (h : history) (feedback_text : string)
    : bool :=
  match generate_content cap h (AnalyzePrompt feedback_text) with
  | Ok response_text => negb (is_ok (parse_analysis cap response_text))
  | Raise _ => true
  end.

(** What [process_single_feedback] returns for a feedback, given the
    requests made before. *)
Definition analysis_at (cap : Capability) (h : history) (feedback_text : string)
    : analysis :=
  match generate_content cap h (AnalyzePrompt feedback_text) with
  | Ok response_text =>
      match parse_analysis cap response_text with
      | Ok a => a
      | Raise _ => default_analysis
      end
  | Raise _ => default_analysis
  end.

Definition sentiment_of (a : analysis) : string := default "neutral" (a_sentiment a).
Definition category_of (a : analysis) : string := default "other" (a_category a).
Definition key_points_of (a : analysis) : list string := default [] (a_key_points a).

(** The analyses of a sequence of feedbacks requested one after the other. *)
Fixpoint analyses (cap : Capability) (h : history) (texts : list string)
    : list (string * analysis) :=
  match texts with
  | [] => []
  | t :: texts' =>
      (t, analysis_at cap h t) :: analyses cap (h ++ [AnalyzePrompt t]) texts'
  end.

(** A counter after counting each key of a list once. *)
Definition tally (keys : list string) (counter : gmap string nat)
    : gmap string nat :=
  fold_left (fun m k => incr k m) keys counter.

(** The feedbacks of a category among analysed ones, in order. *)
Definition texts_of_category (k : string) (ans : list (string * analysis))
    : list string :=
  fst <$> List.filter (fun p => String.eqb (category_of p.2) k) ans.

Definition known_categories : list string := fst <$> empty_category_data.

(** The model answers the same to the same request, whatever came before. *)
Definition deterministic (cap : Capability) : Prop :=
  forall h h' p, generate_content cap h p = generate_content cap h' p.

(** The prompts of the summary and of the suggestions of one bucket. *)
Definition summary_prompt (entry : string * list string) : prompt :=
  SummaryPrompt (Nat.min 20 (length entry.2))
    (PyStr.replace_underscore entry.1) (take 20 entry.2).

Definition suggestion_prompt (entry : string * list string) : prompt :=
  SuggestionPrompt (Nat.min 20 (length entry.2))
    (PyStr.replace_underscore entry.1) (take 20 entry.2).

Definition nonempty_buckets (category_data : list (string * list string))
    : list (string * list string) :=
  List.filter (fun entry => 0 <? length entry.2) category_data.

(** The entry of the summary map for a bucket, given the requests made
    before. *)
Definition summary_entry (cap : Capability) (h : history)
    (entry : string * list string) : string :=
  match generate_content cap h (summary_prompt entry) with
  | Ok text => PyStr.strip text
  | Raise e => "Could not generate summary for " +:+ entry.1 +:+ ": " +:+ exc_msg e
  end.

Definition suggestion_entry (cap : Capability) (h : history)
    (entry : string * list string) : pyobj :=
  match generate_content cap h (suggestion_prompt entry) with
  | Ok response_text =>
      match parse_suggestions cap response_text with
      | Ok result => result
      | Raise _ => fallback_suggestions entry.1
      end
  | Raise _ => fallback_suggestions entry.1
  end.

(** The column chosen by lines 214-243 of [process_feedback], which touch
    neither the model nor the history. *)
Definition inferred_column (df : DataFrame) : outcome label :=
  match find_named (columns df) with
  | Raise e => Raise e
  | Ok (Some col) => Ok col
  | Ok None =>
      match List.find text_like (columns df) with
      | Some c => Ok (col_name c)
      | None =>
          match columns df with
          | c :: _ => Ok (col_name c)
          | [] => Raise (Exc ValueError
                           "Could not identify a suitable feedback column in the data")
          end
      end
  end.

(** The name of a column is in the vocabulary, whatever its case. *)
Definition vocabulary_name (c : column) : Prop :=
  exists s, col_name c = LStr s /\ PyStr.lower s ∈ potential_columns.

(** A column is string-typed and its first non-null value is a string of
    more than ten characters. *)
Definition long_text_column (c : column) : Prop :=
  col_dtype c = DObject /\
  exists pre s post,
    col_values c = pre ++ CStr s :: post
    /\ Forall (fun v => is_null v = true) pre
    /\ 10 < String.length s.

Definition string_labels (df : DataFrame) : Prop :=
  Forall (fun c => exists s, col_name c = LStr s) (columns df).

(** The three columns the engine adds. *)
Definition sentiment_column (values : list cell) : column :=
  Column (LStr "sentiment") DObject values.
Definition category_column (values : list cell) : column :=
  Column (LStr "category") DObject values.
Definition key_points_column (values : list cell) : column :=
  Column (LStr "key_points") DObject values.

(** [annotated orig df]: the columns of [df] are those of [orig], followed
    by the three added ones, each with a value for every row. *)
Definition annotated (orig df : DataFrame) : Prop :=
  nrows df = nrows orig /\
  exists s c k,
    columns df = columns orig
                 ++ [sentiment_column s; category_column c; key_points_column k]
    /\ length s = nrows orig /\ length c = nrows orig /\ length k = nrows orig.

(** None of the three names is taken by a column of the dataset. *)
Definition names_free (df : DataFrame) : Prop :=
  has_column "sentiment" df = false
  /\ has_column "category" df = false
  /\ has_column "key_points" df = false.

(** [contiguous start ranges stop]: the ranges follow one another from
    [start] to [stop] without gap or overlap. *)
Fixpoint contiguous (start : nat) (ranges : list (nat * nat)) (stop : nat) : Prop :=
  match ranges with
  | [] => start = stop
  | (a, b) :: ranges' => a = start /\ a <= b /\ contiguous b ranges' stop
  end.

(** The sentiments and the categories of the analysed rows [a] to [b - 1]
    of a column, for a model whose answers do not depend on the history. *)
Definition sentiments_between (cap : Capability) (c : column) (a b : nat)
    : list string :=
  (fun t => sentiment_of (analysis_at cap [] t)) <$> analysed_texts c (seq a (b - a)).

Definition categories_between (cap : Capability) (c : column) (a b : nat)
    : list string :=
  (fun t => category_of (analysis_at cap [] t)) <$> analysed_texts c (seq a (b - a)).

(** ** Notions used to state the further properties *)

(** The placeholder substituted for a frame without rows or columns. *)
Definition or_placeholder (message : string) (df : DataFrame) : DataFrame :=
  if empty df then feedback_frame [message] else df.

(** What [parse_json] returns for the frame made of the loaded content, or
    for the exception raised in making it. *)
Definition json_labelled (made : outcome DataFrame) : DataFrame * string :=
  match made with
  | Ok df =>
      (or_placeholder "JSON parsing resulted in no usable data - please check format" df,
       "json")
  | Raise _ =>
      (feedback_frame ["Error in JSON parsing - this is a placeholder entry"],
       "json with parsing error")
  end.

Definition json_result (lib : Library) (content : pyobj) (bytes : string)
    : DataFrame * string :=
  json_labelled (fst (frame_of_content lib content (fresh bytes))).

(** A string that is empty or starts with a character that is no white
    space. *)
Definition starts_clean (s : string) : Prop :=
  match s with
  | EmptyString => True
  | String c _ => PyStr.is_space c = false
  end.

(** A line as [parse_txt] keeps it: not empty, and without white space at
    either end. *)
Definition clean_line (line : string) : Prop :=
  line <> "" /\ PyStr.strip line = line.

(** The entry of the table for a column. *)
Definition entry_of (df : DataFrame) (c : column) : column_entry :=
  let sample_val := if nrows df =? 0 then "" else str (cell_at c 0) in
  ColumnEntry (col_name c) (dtype_name (col_dtype c))
    (count (nrows df) c, nrows df)
    (if 0 <? nrows df then NullPercent (count (nrows df) c) (nrows df)
     else NullPercentZero)
    (if 50 <? String.length sample_val
     then PyStr.take 47 sample_val +:+ "..." else sample_val).

(** The number of rows that the chunks of a dataset of [n] rows cover. *)
Definition covered_rows (n : nat) : nat :=
  if n <=? 10 then n else n - n mod 10.

Definition backquote : ascii := ascii_of_nat 96.

(** The two patterns of the repository, each with its opening and its
    closing character. *)
Definition json_patterns : list (Re.regex * ascii * ascii) :=
  [(json_object_pattern, ascii_of_nat 123, ascii_of_nat 125);
   (json_array_pattern, ascii_of_nat 91, ascii_of_nat 93)].

(** The three labels that the table has a row for. *)
Definition table_labels : list string := ["positive"; "neutral"; "negative"].

(** The counts of the three rows together. *)
Definition rows_total (d : list (string * nat)) : nat :=
  ReportGenerator.get d "positive" + ReportGenerator.get d "neutral"
  + ReportGenerator.get d "negative".

(** The items whose label has no row. *)
Definition without_row (d : list (string * nat)) : list (string * nat) :=
  List.filter (fun item => negb (PyStr.mem item.1 table_labels)) d.

(** [x] is not after [y], by code points. *)
Definition key_le (x y : string) : Prop := String.ltb y x = false.



(** * Properties *)

(** ** Facts about computations and lists *)

Section MonadFacts.
Context {S A B : Type}.

Lemma try_except_total (m : M S A) (h : exc -> A) (s : S) :
  exists a s', try_except m (fun e => ret (h e)) s = (Ok a, s').
Proof.
  unfold try_except, ret. destruct (m s) as [[a|e] s']; eauto.
Qed.

Lemma for_each_app (l1 l2 : list A) (body : A -> B -> M S B) (acc : B) (s : S) :
  for_each (l1 ++ l2) body acc s =
  bind (for_each l1 body acc) (for_each l2 body) s.
Proof.
  revert acc s. induction l1 as [|x l1 IH]; intros acc s; simpl.
  - unfold bind, ret. reflexivity.
  - unfold bind in *. destruct (body x acc s) as [[acc'|e] s']; [apply IH | reflexivity].
Qed.
End MonadFacts.

Lemma for_each_invariant {S A B} (P : B -> Prop) (l : list A)
    (body : A -> B -> M S B) :
  (forall x acc s acc' s', x ∈ l -> body x acc s = (Ok acc', s') -> P acc -> P acc') ->
  forall acc s acc' s', for_each l body acc s = (Ok acc', s') -> P acc -> P acc'.
Proof.
  induction l as [|x l IH]; intros Hbody acc s acc' s' H Hacc.
  - inversion H; subst. exact Hacc.
  - cbn [for_each] in H. unfold bind in H.
    destruct (body x acc s) as [[acc1|e] s1] eqn:E; [|discriminate H].
    eapply IH; [|exact H|].
    + intros y a t a' t' Hy. apply Hbody. apply elem_of_cons. right; exact Hy.
    + eapply Hbody; [apply elem_of_cons; left; reflexivity | exact E | exact Hacc].
Qed.

Section Returns.
Context {S A B : Type}.

Lemma returns_ret (a : A) (P : A -> Prop) : P a -> returns (S := S) (ret a) P.
Proof. intros Ha s a' s' H. inversion H; subst; exact Ha. Qed.

Lemma returns_raise e (P : A -> Prop) : returns (S := S) (raise e) P.
Proof. intros s a s' H. discriminate H. Qed.

Lemma returns_bind (m : M S A) (k : A -> M S B) (Q : A -> Prop) (P : B -> Prop) :
  returns m Q -> (forall a, Q a -> returns (k a) P) -> returns (bind m k) P.
Proof.
  intros Hm Hk s b s' H. unfold bind in H.
  destruct (m s) as [[a|e] s1] eqn:E; [|discriminate H].
  eapply Hk; [eapply Hm; exact E | exact H].
Qed.

Lemma returns_weaken (m : M S A) (P Q : A -> Prop) :
  returns m P -> (forall a, P a -> Q a) -> returns m Q.
Proof. intros Hm HPQ s a s' H. apply HPQ. eapply Hm; exact H. Qed.

Lemma returns_any (m : M S A) : returns m (fun _ => True).
Proof. intros s a s' _. exact I. Qed.

Lemma returns_try (m : M S A) (h : exc -> M S A) (P : A -> Prop) :
  returns m P -> (forall e, returns (h e) P) -> returns (try_except m h) P.
Proof.
  intros Hm Hh s a s' H. unfold try_except in H.
  destruct (m s) as [[a0|e] s1] eqn:E.
  - inversion H; subst. eapply Hm; exact E.
  - eapply Hh; exact H.
Qed.

Lemma returns_try_if c (m : M S A) (h : exc -> M S A) (P : A -> Prop) :
  returns m P -> (forall e, returns (h e) P) -> returns (try_except_if c m h) P.
Proof.
  intros Hm Hh s a s' H. unfold try_except_if in H.
  destruct (m s) as [[a0|e] s1] eqn:E.
  - inversion H; subst. eapply Hm; exact E.
  - destruct (c e); [eapply Hh; exact H | discriminate H].
Qed.
End Returns.

Lemma mem_elem_of (s : string) (l : list string) :
  PyStr.mem s l = true <-> s ∈ l.
Proof.
  unfold PyStr.mem. rewrite List.existsb_exists. split.
  - intros (x & Hx & Heq). apply String.eqb_eq in Heq. subst x.
    apply list_elem_of_In. exact Hx.
  - intros H. exists s. split; [apply list_elem_of_In; exact H | apply String.eqb_refl].
Qed.

Lemma find_first {A} (f : A -> bool) (pre : list A) (x : A) (post : list A) :
  Forall (fun y => f y = false) pre -> f x = true ->
  List.find f (pre ++ x :: post) = Some x.
Proof.
  induction 1 as [|y pre Hy _ IH]; intros Hx; cbn.
  - rewrite Hx. reflexivity.
  - rewrite Hy. apply IH. exact Hx.
Qed.

Lemma find_none_all {A} (f : A -> bool) (l : list A) :
  Forall (fun y => f y = false) l -> List.find f l = None.
Proof. induction 1 as [|y l Hy _ IH]; cbn; [reflexivity | rewrite Hy; exact IH]. Qed.

Lemma filter_first {A} (p : A -> bool) (l : list A) (x : A) (r : list A) :
  List.filter p l = x :: r ->
  exists pre post, l = pre ++ x :: post /\ Forall (fun y => p y = false) pre.
Proof.
  induction l as [|y l IH]; cbn; [discriminate|].
  destruct (p y) eqn:E.
  - intros H; inversion H; subst. exists [], l. split; [reflexivity | constructor].
  - intros H. destruct (IH H) as (pre & post & -> & Hpre).
    exists (y :: pre), post. split; [reflexivity | constructor; assumption].
Qed.

Lemma not_true_false (b : bool) (P : Prop) : (b = true <-> P) -> ~ P -> b = false.
Proof. intros H Hn. destruct b; [exfalso; apply Hn, H; reflexivity | reflexivity]. Qed.

Lemma existsb_app {A} (f : A -> bool) l1 l2 :
  existsb f (l1 ++ l2) = existsb f l1 || existsb f l2.
Proof. apply List.existsb_app. Qed.

Lemma take_min_length {A} (n : nat) (l : list A) :
  take (Nat.min n (length l)) l = take n l.
Proof.
  destruct (Nat.le_ge_cases n (length l)) as [H|H].
  - rewrite Nat.min_l by exact H. reflexivity.
  - rewrite Nat.min_r by exact H. rewrite !take_ge by lia. reflexivity.
Qed.

Lemma seq_split_at (n i : nat) :
  i < n -> seq 0 n = seq 0 i ++ i :: seq (S i) (n - S i).
Proof.
  intros Hi. replace n with (i + S (n - S i)) at 1 by lia.
  rewrite seq_app. reflexivity.
Qed.

(** ** The ingestion normalizer *)

Lemma pystr_drop_0 s : PyStr.drop 0 s = s.
Proof. destruct s; reflexivity. Qed.

Lemma read_all_fresh bytes :
  read_all (fresh bytes) = (Ok bytes, File bytes (String.length bytes)).
Proof. unfold read_all, fresh. cbn [pos data]. rewrite pystr_drop_0. reflexivity. Qed.

(** When the lines look like CSV and [pd.read_csv] returns a frame, that
    frame is the result. *)
Lemma parse_txt_reparsed (lib : Library) (bytes : string) (df : DataFrame) :
  looks_like_csv (nonblank_lines (decode lib bytes)) = true ->
  fst (read_csv lib None BadLinesDefault bytes) = Ok df ->
  fst (parse_txt lib (fresh bytes)) = Ok (df, "csv-like text").
Proof.
  intros Hlooks Hcsv. unfold parse_txt, try_except at 1, bind at 1.
  rewrite read_all_fresh.
  destruct (nonblank_lines (decode lib bytes)) as [|l1 ls]; [discriminate Hlooks|].
  rewrite Hlooks. unfold bind, seek0, try_except, pd_read_csv, ret; simpl.
  rewrite ?pystr_drop_0.
  destruct (read_csv lib None BadLinesDefault bytes) as [[df'|e] n];
    simpl in Hcsv |- *; [inversion Hcsv; reflexivity | discriminate Hcsv].
Qed.

(** *** The text re-dispatch *)



(** *** The shape of what the normalizer returns *)

(** C1 fails on the text path: for the bytes ["a,\nb"] (two non-blank
    lines, one with a comma) the content is handed to [pd.read_csv], the
    header-only frame it reads is returned as it is, and the dataset has no
    row.  [parse_csv] and [parse_json] test [df.empty] at this point. *)
Theorem C1_csv_like_text_without_rows (lib : Library) :
  decode lib Examples.quoted_bytes = Examples.quoted_bytes ->
  fst (read_csv lib None BadLinesDefault Examples.quoted_bytes) = Ok Examples.header_only ->
  fst (parse_file lib "txt" (fresh Examples.quoted_bytes))
    = Ok (Examples.header_only, "csv-like text")
  /\ nrows Examples.header_only = 0.
Proof.
  intros Hdec Hcsv. split; [|reflexivity].
  unfold parse_file, try_except.
  change (String.eqb (PyStr.lower "txt") "csv") with false.
  change (String.eqb (PyStr.lower "txt") "json") with false.
  change (String.eqb (PyStr.lower "txt") "txt") with true. cbv iota.
  pose proof (parse_txt_reparsed lib Examples.quoted_bytes Examples.header_only) as H.
  rewrite Hdec in H. specialize (H eq_refl Hcsv).
  destruct (parse_txt lib (fresh Examples.quoted_bytes)) as [[r|e] f'];
    simpl in H |- *; [rewrite H; reflexivity | discriminate H].
Qed.

Lemma C1_csv_like_text_without_rows_witness :
  fst (parse_file (Examples.library_with Examples.header_only (PScalar "None") empty_frame)
         "txt" (fresh Examples.quoted_bytes))
    = Ok (Examples.header_only, "csv-like text")
  /\ nrows Examples.header_only = 0.
Proof.
  apply (C1_csv_like_text_without_rows
           (Examples.library_with Examples.header_only (PScalar "None") empty_frame));
    reflexivity.
Defined.

Lemma empty_guard (df : DataFrame) (msg : string) :
  empty (if empty df then feedback_frame [msg] else df) = false.
Proof. destruct (empty df) eqn:E; [reflexivity | exact E]. Qed.

Lemma split_nl_nonempty (s : string) : PyStr.split_nl s <> [].
Proof.
  induction s as [|c s IH]; simpl; [discriminate|].
  destruct (nat_of_ascii c =? 10); [discriminate|].
  destruct (PyStr.split_nl s); discriminate.
Qed.

Lemma feedback_frame_nonempty (lines : list string) :
  lines <> [] -> empty (feedback_frame lines) = false.
Proof. destruct lines; [congruence | reflexivity]. Qed.

Lemma parse_csv_shape lib :
  returns (parse_csv lib) (fun r => empty r.1 = false).
Proof.
  unfold parse_csv. apply returns_try.
  - repeat (eapply returns_bind; [apply returns_any | intros ? _]).
    apply returns_ret. apply empty_guard.
  - intros e. apply returns_ret. reflexivity.
Qed.

Lemma parse_json_shape lib :
  returns (parse_json lib) (fun r => empty r.1 = false).
Proof.
  unfold parse_json. apply returns_try.
  - do 2 (eapply returns_bind; [apply returns_any | intros ? _]).
    eapply returns_bind with
      (Q := fun loaded => match loaded with
                          | inr early => empty early.1 = false
                          | inl _ => True
                          end).
    + apply returns_try_if.
      * eapply returns_bind; [apply returns_any | intros ? _].
        apply returns_ret. exact I.
      * intros _. apply returns_try.
        -- eapply returns_bind; [apply returns_any | intros ? _].
           apply returns_ret. exact I.
        -- intros _. apply returns_try.
           ++ apply returns_ret. apply feedback_frame_nonempty, split_nl_nonempty.
           ++ intros _. apply returns_ret. reflexivity.
    + intros [content|early] Hl.
      * eapply returns_bind; [apply returns_any | intros ? _].
        apply returns_ret. apply empty_guard.
      * apply returns_ret. exact Hl.
  - intros e. apply returns_ret. reflexivity.
Qed.

Lemma parse_txt_shape lib :
  returns (parse_txt lib)
    (fun r => r.2 = "csv-like text" \/ empty r.1 = false).
Proof.
  unfold parse_txt. apply returns_try.
  - eapply returns_bind; [apply returns_any | intros ? _].
    eapply returns_bind with
      (Q := fun reparsed => match reparsed with
                            | inr early => early.2 = "csv-like text"
                            | inl _ => True
                            end).
    + destruct (looks_like_csv _).
      * eapply returns_bind; [apply returns_any | intros ? _].
        apply returns_try.
        -- eapply returns_bind; [apply returns_any | intros ? _].
           apply returns_ret. reflexivity.
        -- intros _. repeat (eapply returns_bind; [apply returns_any | intros ? _]).
           apply returns_ret. exact I.
      * apply returns_ret. exact I.
    + intros [lines|early] Hr.
      * apply returns_ret. right. cbn [fst].
        destruct (negb _ || _) eqn:E; [reflexivity|].
        apply orb_false_iff in E. apply E.
      * apply returns_ret. left. exact Hr.
  - intros e. apply returns_ret. right. reflexivity.
Qed.

(** The normalizer never raises. *)
Lemma parse_file_never_raises lib ext f :
  exists r f', parse_file lib ext f = (Ok r, f').
Proof. unfold parse_file. apply (try_except_total _ (fun _ => _)). Qed.

(** Off the CSV reparse of a text file, the dataset it returns has at
    least one row and one column. *)
Lemma parse_file_shape lib ext :
  returns (parse_file lib ext)
    (fun r => r.2 = "csv-like text" \/ empty r.1 = false).
Proof.
  unfold parse_file. apply returns_try.
  - repeat match goal with |- context [if ?b then _ else _] => destruct b end;
      try apply parse_txt_shape;
      (eapply returns_weaken;
       [first [apply parse_csv_shape | apply parse_json_shape]
       | intros r Hr; right; exact Hr]).
  - intros e. apply returns_ret. right. reflexivity.
Qed.

(** *** The list chosen in a JSON object *)

Lemma dict_get_None {V} (d : list (string * V)) (k : string) :
  k ∉ fst <$> d -> dict_get d k = None.
Proof.
  induction d as [|[k0 v] d IH]; [reflexivity|]. cbn [fmap list_fmap fst dict_get].
  intros H. apply not_elem_of_cons in H as [Hne H].
  destruct (String.eqb_spec k0 k); [congruence | apply IH; exact H].
Qed.

Lemma dict_get_elem {V} (d : list (string * V)) (k : string) (v : V) :
  NoDup (fst <$> d) -> (k, v) ∈ d -> dict_get d k = Some v.
Proof.
  induction d as [|[k0 v0] d IH]; intros Hnd Hin.
  - apply elem_of_nil in Hin. destruct Hin.
  - cbn [fmap list_fmap fst] in Hnd. apply NoDup_cons in Hnd as [Hk0 Hnd].
    cbn [dict_get]. apply elem_of_cons in Hin as [Heq|Hin].
    + inversion Heq; subst. rewrite String.eqb_refl. reflexivity.
    + destruct (String.eqb_spec k0 k) as [->|Hne]; [|apply IH; assumption].
      exfalso. apply Hk0. apply list_elem_of_fmap. exists (k, v). split; [reflexivity | exact Hin].
Qed.

Lemma list_items_get (d : list (string * pyobj)) (k : string) :
  NoDup (fst <$> d) ->
  dict_get (list_items d) k
  = match dict_get d k with Some (PList l) => Some l | _ => None end.
Proof.
  induction d as [|[k0 v] d IH]; [reflexivity|]. cbn [fmap list_fmap fst].
  intros Hnd. apply NoDup_cons in Hnd as [Hk0 Hnd]. cbn [dict_get].
  destruct v as [s|r|l0|d0]; cbn [list_items dict_get];
    destruct (String.eqb_spec k0 k) as [->|Hne];
    first [ reflexivity | apply IH; exact Hnd
          | rewrite (IH Hnd), (dict_get_None d k Hk0); reflexivity ].
Qed.

Lemma list_items_elem (d : list (string * pyobj)) (k : string) (l : list pyobj) :
  (k, l) ∈ list_items d <-> (k, PList l) ∈ d.
Proof.
  induction d as [|[k0 v] d IH].
  - cbn. split; intros H; apply elem_of_nil in H; destruct H.
  - destruct v as [s|r|l0|d0]; cbn [list_items]; rewrite ?elem_of_cons, IH.
    + split; [intros H; right; exact H | intros [H|H]; [discriminate H | exact H]].
    + split; [intros H; right; exact H | intros [H|H]; [discriminate H | exact H]].
    + split; (intros [H|H]; [left; inversion H; reflexivity | right; exact H]).
    + split; [intros H; right; exact H | intros [H|H]; [discriminate H | exact H]].
Qed.

Lemma mem_keys {V} (d : list (string * V)) (k : string) :
  PyStr.mem k (fst <$> d) = true <-> is_Some (dict_get d k).
Proof.
  induction d as [|[k0 v] d IH]; cbn [fmap list_fmap fst dict_get].
  - cbn. split; [discriminate | intros [? ?]; discriminate].
  - unfold PyStr.mem in *. cbn [existsb]. rewrite (String.eqb_sym k k0).
    destruct (String.eqb k0 k); cbn [orb]; [split; eauto | exact IH].
Qed.

Lemma has_list_items (d : list (string * pyobj)) :
  list_items d <> [] -> existsb (fun kv => is_list kv.2) d = true.
Proof.
  induction d as [|[k0 v] d IH]; [intros H; exfalso; apply H; reflexivity|].
  destruct v; cbn; intros H; first [reflexivity | apply IH; exact H].
Qed.

Lemma fold_max {A} (f : A -> nat) (x : A) (l : list A) :
  forall best,
    best = x \/ (x ∈ l /\ f best < f x) ->
    (forall y, y ∈ l -> y = x \/ f y < f x) ->
    fold_left (fun best y => if f best <? f y then y else best) l best = x.
Proof.
  induction l as [|y l IH]; intros best Hbest Hall; cbn [fold_left].
  - destruct Hbest as [H|[H _]]; [exact H | apply elem_of_nil in H; destruct H].
  - assert (forall z, z ∈ l -> z = x \/ f z < f x) as Hall'
      by (intros z Hz; apply Hall, elem_of_cons; right; exact Hz).
    destruct (Hall y ltac:(apply elem_of_cons; left; reflexivity)) as [->|Hy].
    + apply IH; [left | exact Hall'].
      destruct Hbest as [->|[_ Hlt]].
      * rewrite Nat.ltb_irrefl. reflexivity.
      * apply Nat.ltb_lt in Hlt. rewrite Hlt. reflexivity.
    + apply IH; [|exact Hall'].
      destruct Hbest as [->|[Hin Hlt]].
      * left. apply Nat.ltb_ge in Hy as Hy'. 
        destruct (f x <? f y) eqn:E; [apply Nat.ltb_lt in E; lia | reflexivity].
      * right. apply elem_of_cons in Hin as [->|Hin]; [lia|].
        split; [exact Hin|]. destruct (f best <? f y); assumption.
Qed.

Lemma py_max_by_strict {A} (f : A -> nat) (x : A) (l : list A) :
  x ∈ l -> (forall y, y ∈ l -> y = x \/ f y < f x) -> py_max_by f l = Some x.
Proof.
  intros Hin Hall. destruct l as [|x0 l]; [apply elem_of_nil in Hin; destruct Hin|].
  unfold py_max_by. f_equal. apply fold_max.
  - apply elem_of_cons in Hin as [->|Hin]; [left; reflexivity|].
    destruct (Hall x0 ltac:(apply elem_of_cons; left; reflexivity)) as [->|Hlt];
      [left; reflexivity | right; split; assumption].
  - intros y Hy. apply Hall, elem_of_cons. right; exact Hy.
Qed.

(** In a JSON object, the list to expand is that of the first key of the
    preference list that maps to a list; when no preferred key maps to a
    list, it is the list longer than every other one, if it is not empty and
    its key is not the empty string. *)
Lemma frame_of_dict_selection (lib : Library) (d : list (string * pyobj)) (f : file) :
  NoDup (fst <$> d) ->
  (forall pre key post l,
     feedback_related_keys = pre ++ key :: post ->
     Forall (fun k => forall l', dict_get d k <> Some (PList l')) pre ->
     dict_get d key = Some (PList l) ->
     frame_of_dict lib d f = (pd_DataFrame lib l, f))
  /\ (Forall (fun k => forall l', dict_get d k <> Some (PList l')) feedback_related_keys ->
      forall key l,
        (key, PList l) ∈ d -> key <> "" -> l <> [] ->
        (forall key' l', (key', PList l') ∈ d -> key' <> key -> length l' < length l) ->
        frame_of_dict lib d f = (pd_DataFrame lib l, f)).
Proof.
  intros Hnd.
  assert (forall keys, Forall (fun k => forall l', dict_get d k <> Some (PList l')) keys ->
            Forall (fun k => PyStr.mem k (fst <$> list_items d) = false) keys) as Hnot.
  { intros keys Hkeys. eapply Forall_impl; [exact Hkeys|]. intros k Hk.
    eapply not_true_false; [apply mem_keys|].
    rewrite (list_items_get d k Hnd). intros [l' Hl'].
    destruct (dict_get d k) as [[| |l0|]|] eqn:E; try discriminate Hl'.
    exact (Hk l0 E). }
  split.
  - intros pre key post l Hkeys Hpre Hkey.
    assert (dict_get (list_items d) key = Some l) as Hitem
      by (rewrite (list_items_get d key Hnd), Hkey; reflexivity).
    unfold frame_of_dict.
    rewrite has_list_items by (intros E; rewrite E in Hitem; discriminate Hitem).
    destruct (list_items d) as [|item items] eqn:Hitems; [discriminate Hitem|].
    rewrite Hkeys, (find_first _ pre key post (Hnot _ Hpre))
      by (apply mem_keys; rewrite Hitem; eauto).
    rewrite Hitem. reflexivity.
  - intros Hnone key l Hin Hkey Hl Hlong.
    assert ((key, l) ∈ list_items d) as Hitem by (apply list_items_elem; exact Hin).
    unfold frame_of_dict.
    rewrite has_list_items by (intros E; rewrite E in Hitem; apply elem_of_nil in Hitem;
                               exact Hitem).
    destruct (list_items d) as [|item items] eqn:Hitems;
      [apply elem_of_nil in Hitem; destruct Hitem|].
    rewrite (find_none_all _ _ (Hnot _ Hnone)).
    rewrite (py_max_by_strict (fun kl => length kl.2) (key, l)); [| exact Hitem |].
    + destruct key; [congruence|]. destruct l; [congruence|]. reflexivity.
    + intros [key' l'] Hy. rewrite <- Hitems in Hy. apply list_items_elem in Hy.
      destruct (decide (key' = key)) as [->|Hne].
      * left. f_equal.
        pose proof (dict_get_elem d key _ Hnd Hy) as H1.
        pose proof (dict_get_elem d key _ Hnd Hin) as H2. congruence.
      * right. cbn. eapply Hlong; eassumption.
Qed.

(** C6 fails for a selected list of strings: [parse_json] builds the frame
    with [pd.DataFrame(content[key])], which labels the single column with
    the integer 0, whereas a top-level list of the same strings is given the
    column [feedback].  The two rows are there. *)
Theorem C6_selected_strings_column_unnamed (lib : Library) (bytes : string) :
  json_loads lib (decode lib bytes) = Ok Examples.reviews_json ->
  pd_DataFrame lib [PStr "x"; PStr "y"] = Ok Examples.unnamed_frame ->
  fst (parse_json lib (fresh bytes)) = Ok (Examples.unnamed_frame, "json")
  /\ labels Examples.unnamed_frame = [LInt 0]
  /\ nrows Examples.unnamed_frame = 2
  /\ fst (frame_of_content lib (PList [PStr "x"; PStr "y"]) (fresh bytes))
     = Ok (feedback_frame ["x"; "y"]).
Proof.
  intros Hjson Hframe. repeat split.
  unfold parse_json, try_except at 1, bind at 1. rewrite read_all_fresh.
  unfold bind at 1, seek0. unfold bind at 1.
  unfold try_except_if, bind at 1, lift at 1. rewrite Hjson.
  unfold ret at 1. unfold bind, frame_of_content, frame_of_dict, lift.
  simpl. rewrite Hframe. reflexivity.
Qed.

Lemma C6_selected_strings_column_unnamed_witness :
  fst (parse_json (Examples.library_with empty_frame Examples.reviews_json
                     Examples.unnamed_frame) (fresh Examples.reviews_bytes))
  = Ok (Examples.unnamed_frame, "json").
Proof.
  apply (C6_selected_strings_column_unnamed
           (Examples.library_with empty_frame Examples.reviews_json
              Examples.unnamed_frame) Examples.reviews_bytes); reflexivity.
Defined.

(** ** Frames *)

Lemma label_eqb_eq (a b : label) : label_eqb a b = true <-> a = b.
Proof.
  destruct a as [s|n], b as [t|m]; simpl; split; intros H;
    try discriminate; try (inversion H; subst).
  - apply String.eqb_eq in H. congruence.
  - apply String.eqb_refl.
  - apply Z.eqb_eq in H. congruence.
  - apply Z.eqb_refl.
Qed.

Lemma label_eqb_str (s t : string) : label_eqb (LStr s) (LStr t) = String.eqb s t.
Proof. reflexivity. Qed.

Lemma find_column_set_at (l : label) idx name v df :
  find_column l (set_at idx name v df)
  = (fun c => if label_eqb (col_name c) (LStr name)
              then Column (col_name c) (col_dtype c) (<[idx := v]> (col_values c))
              else c) <$> find_column l df.
Proof.
  unfold find_column, set_at. cbn [columns].
  induction (columns df) as [|c cols IH]; [reflexivity|].
  cbn [fmap list_fmap List.find].
  replace (col_name (if label_eqb (col_name c) (LStr name)
                     then Column (col_name c) (col_dtype c) (<[idx:=v]> (col_values c))
                     else c)) with (col_name c)
    by (destruct (label_eqb (col_name c) (LStr name)); reflexivity).
  destruct (label_eqb (col_name c) l); [reflexivity | exact IH].
Qed.

Lemma find_column_name l df c : find_column l df = Some c -> col_name c = l.
Proof.
  unfold find_column. intros H. apply List.find_some in H as [_ H].
  apply label_eqb_eq in H. exact H.
Qed.

Lemma get_cell_set_at idx name v df name' i :
  get_cell (set_at idx name v df) name' i
  = if String.eqb name name' && (idx =? i) && bool_decide (is_Some (get_cell df name' i))
    then Some v else get_cell df name' i.
Proof.
  unfold get_cell. rewrite find_column_set_at.
  destruct (find_column (LStr name') df) as [c|] eqn:Hc; cbn [fmap option_fmap option_map mbind option_bind].
  - rewrite (find_column_name _ _ _ Hc), label_eqb_str, (String.eqb_sym name' name).
    destruct (String.eqb name name') eqn:En; [|reflexivity]. cbn [col_values andb].
    destruct (Nat.eqb_spec idx i) as [->|Hne]; cbn [andb].
    + destruct (col_values c !! i) as [old|] eqn:Hi.
      * rewrite bool_decide_eq_true_2 by eauto.
        apply list_lookup_insert_eq. eapply lookup_lt_Some; exact Hi.
      * rewrite bool_decide_eq_false_2 by (intros [? ?]; discriminate).
        rewrite list_insert_ge; [exact Hi|]. apply lookup_ge_None; exact Hi.
    + apply list_lookup_insert_ne. exact Hne.
  - rewrite andb_comm. rewrite bool_decide_eq_false_2 by (intros [? ?]; discriminate).
    reflexivity.
Qed.

(** A column is added at the end when its name is new. *)
Lemma assign_fresh cols c :
  existsb (fun c0 => label_eqb (col_name c0) (col_name c)) cols = false ->
  assign cols c = cols ++ [c].
Proof.
  induction cols as [|c0 cols IH]; simpl; [reflexivity|].
  intros H. apply orb_false_iff in H as [H0 H].
  rewrite H0, IH by exact H. reflexivity.
Qed.

Lemma find_column_assign l n cols c :
  find_column l (MkFrame n (assign cols c))
  = if label_eqb (col_name c) l then Some c else find_column l (MkFrame n cols).
Proof.
  unfold find_column. cbn [columns].
  induction cols as [|c0 cols IH]; cbn [assign List.find].
  - destruct (label_eqb (col_name c) l); reflexivity.
  - destruct (label_eqb (col_name c0) (col_name c)) eqn:E0; cbn [List.find].
    + apply label_eqb_eq in E0. rewrite E0.
      destruct (label_eqb (col_name c) l); reflexivity.
    + destruct (label_eqb (col_name c0) l) eqn:E1; [|exact IH].
      destruct (label_eqb (col_name c) l) eqn:E2; [|reflexivity].
      apply label_eqb_eq in E1, E2. rewrite E1, <- E2 in E0.
      assert (label_eqb (col_name c) (col_name c) = true) by (apply label_eqb_eq; reflexivity).
      congruence.
Qed.

Lemma get_cell_set_column name vals df name' i :
  get_cell (set_column name vals df) name' i
  = if String.eqb name name' then vals !! i else get_cell df name' i.
Proof.
  unfold get_cell, set_column. rewrite find_column_assign. cbn [col_name].
  rewrite label_eqb_str. destruct (String.eqb name name'); [reflexivity|].
  destruct df; reflexivity.
Qed.

(** ** Column inference *)

Lemma infer_feedback_column_eq df h :
  infer_feedback_column df h = (inferred_column df, h).
Proof.
  unfold infer_feedback_column, inferred_column, bind, lift, ret, raise.
  destruct (find_named (columns df)) as [[col|]|e]; try reflexivity.
  destruct (List.find text_like (columns df)); cbn; [reflexivity|].
  destruct (columns df); reflexivity.
Qed.

Lemma find_named_in cols l :
  find_named cols = Ok (Some l) -> l ∈ col_name <$> cols.
Proof.
  induction cols as [|c cols IH]; cbn [find_named fmap list_fmap]; [discriminate|].
  destruct (col_name c) as [s|n] eqn:E; [|discriminate].
  destruct (PyStr.mem (PyStr.lower s) potential_columns).
  - intros H; inversion H; subst. apply elem_of_cons; left; reflexivity.
  - intros H. apply elem_of_cons; right. apply IH; exact H.
Qed.

Lemma find_column_is_Some l df :
  l ∈ labels df -> is_Some (find_column l df).
Proof.
  unfold labels, find_column. intros H.
  apply list_elem_of_fmap in H as (c & -> & Hc).
  destruct (List.find _ (columns df)) as [c'|] eqn:E; [eauto|].
  apply list_elem_of_In in Hc. eapply List.find_none in E; [|exact Hc].
  assert (label_eqb (col_name c) (col_name c) = true) by (apply label_eqb_eq; reflexivity).
  cbn in E. congruence.
Qed.

(** The label that is chosen names a column of the dataset. *)
Lemma inferred_column_found df l :
  inferred_column df = Ok l -> is_Some (find_column l df).
Proof.
  unfold inferred_column. intros H. apply find_column_is_Some. unfold labels.
  destruct (find_named (columns df)) as [[col|]|e] eqn:En; [| |discriminate].
  - inversion H; subst. apply find_named_in; exact En.
  - destruct (List.find text_like (columns df)) as [c|] eqn:Et.
    + inversion H; subst. apply List.find_some in Et as [Hin _].
      apply list_elem_of_fmap. exists c. split; [reflexivity|].
      apply list_elem_of_In; exact Hin.
    + destruct (columns df) as [|c cols]; [discriminate|].
      inversion H; subst. apply elem_of_cons; left; reflexivity.
Qed.

Lemma find_named_strings cols :
  Forall (fun c => exists s, col_name c = LStr s) cols ->
  exists r, find_named cols = Ok r.
Proof.
  induction 1 as [|c cols [s Hs] _ IH]; cbn [find_named]; [eauto|].
  rewrite Hs. destruct (PyStr.mem _ _); [eauto | exact IH].
Qed.

(** With string labels and at least one column, a column is chosen. *)
Lemma inferred_column_total df :
  string_labels df -> columns df <> [] -> exists l, inferred_column df = Ok l.
Proof.
  intros Hs Hne. unfold inferred_column.
  destruct (find_named_strings _ Hs) as [[l|] ->]; [eauto|].
  destruct (List.find text_like (columns df)); [eauto|].
  destruct (columns df); [congruence | eauto].
Qed.

(** The test of the second loop is the rule of the specification. *)
Lemma text_like_spec (c : column) : text_like c = true <-> long_text_column c.
Proof.
  unfold text_like, long_text_column, sample_of. split.
  - intros H. apply andb_true_iff in H as [Hd Hs].
    split; [destruct (col_dtype c); try discriminate; reflexivity|].
    destruct (List.filter _ (col_values c)) as [|v r] eqn:E; [discriminate Hs|].
    destruct v as [s| | | |]; try discriminate Hs.
    apply filter_first in E as (pre & post & Hv & Hpre).
    exists pre, s, post. split; [exact Hv|]. split.
    + eapply Forall_impl; [exact Hpre|]. intros v Hv'.
      apply negb_false_iff in Hv'. exact Hv'.
    + apply Nat.ltb_lt. exact Hs.
  - intros (Hd & pre & s & post & Hv & Hpre & Hlen).
    rewrite Hd, Hv, List.filter_app.
    replace (List.filter (fun v => negb (is_null v)) pre) with (@nil cell).
    + cbn [app List.filter is_null negb is_object andb].
      apply Nat.ltb_lt. exact Hlen.
    + symmetry. clear Hv. induction Hpre as [|v pre Hv' _ IH]; cbn; [reflexivity|].
      rewrite Hv'. exact IH.
Qed.

Lemma find_named_spec cols :
  Forall (fun c => exists s, col_name c = LStr s) cols ->
  find_named cols
  = Ok (col_name <$> List.find
          (fun c => match col_name c with
                    | LStr s => PyStr.mem (PyStr.lower s) potential_columns
                    | LInt _ => false
                    end) cols).
Proof.
  induction 1 as [|c cols [s Hs] _ IH]; cbn [find_named List.find]; [reflexivity|].
  rewrite Hs. destruct (PyStr.mem _ _); [cbn; rewrite Hs; reflexivity | exact IH].
Qed.

Lemma vocabulary_name_spec (c : column) :
  match col_name c with
  | LStr s => PyStr.mem (PyStr.lower s) potential_columns
  | LInt _ => false
  end = true <-> vocabulary_name c.
Proof.
  unfold vocabulary_name. destruct (col_name c) as [s|n]; split.
  - intros H. exists s. split; [reflexivity | apply mem_elem_of; exact H].
  - intros (s' & Heq & H). inversion Heq; subst. apply mem_elem_of; exact H.
  - discriminate.
  - intros (s' & Heq & _). discriminate Heq.
Qed.

(** For a dataset whose labels are strings, the column is chosen in the
    order of the specification: the first column named after the vocabulary,
    else the first string-typed column whose first non-null value is a
    string of more than ten characters, else the first column; and the
    inference raises exactly when there is no column. *)
Lemma infer_feedback_column_priority (df : DataFrame) :
  string_labels df ->
  (forall pre c post,
     columns df = pre ++ c :: post ->
     Forall (fun c' => ~ vocabulary_name c') pre -> vocabulary_name c ->
     inferred_column df = Ok (col_name c))
  /\ (Forall (fun c' => ~ vocabulary_name c') (columns df) ->
      forall pre c post,
        columns df = pre ++ c :: post ->
        Forall (fun c' => ~ long_text_column c') pre -> long_text_column c ->
        inferred_column df = Ok (col_name c))
  /\ (Forall (fun c' => ~ vocabulary_name c') (columns df) ->
      Forall (fun c' => ~ long_text_column c') (columns df) ->
      forall c rest, columns df = c :: rest -> inferred_column df = Ok (col_name c))
  /\ (is_ok (inferred_column df) = false <-> columns df = []).
Proof.
  intros Hlabels. unfold inferred_column.
  rewrite (find_named_spec _ Hlabels).
  assert (forall l, Forall (fun c' => ~ vocabulary_name c') l ->
                    Forall (fun c' => match col_name c' with
                                      | LStr s => PyStr.mem (PyStr.lower s) potential_columns
                                      | LInt _ => false
                                      end = false) l) as Hvoc.
  { intros l Hl. eapply Forall_impl; [exact Hl|]. intros c' Hc'.
    eapply not_true_false; [apply vocabulary_name_spec | exact Hc']. }
  assert (forall l, Forall (fun c' => ~ long_text_column c') l ->
                    Forall (fun c' => text_like c' = false) l) as Htxt.
  { intros l Hl. eapply Forall_impl; [exact Hl|]. intros c' Hc'.
    eapply not_true_false; [apply text_like_spec | exact Hc']. }
  split; [|split; [|split]].
  - intros pre c post Hcols Hpre Hc. rewrite Hcols.
    rewrite (find_first _ pre c post (Hvoc _ Hpre))
      by (apply vocabulary_name_spec; exact Hc).
    reflexivity.
  - intros Hnone pre c post Hcols Hpre Hc.
    rewrite (find_none_all _ _ (Hvoc _ Hnone)). cbn. rewrite Hcols.
    rewrite (find_first _ pre c post (Htxt _ Hpre))
      by (apply text_like_spec; exact Hc).
    reflexivity.
  - intros Hnone Hnotext c rest Hcols.
    rewrite (find_none_all _ _ (Hvoc _ Hnone)). cbn.
    rewrite (find_none_all _ _ (Htxt _ Hnotext)). rewrite Hcols. reflexivity.
  - destruct (columns df) as [|c rest] eqn:Hcols.
    + cbn. split; reflexivity.
    + split; [|intros H; discriminate H].
      destruct (List.find _ (c :: rest)); [intros H; discriminate H|].
      cbn [fmap option_fmap option_map].
      destruct (List.find text_like (c :: rest)); intros H; discriminate H.
Qed.

(** C4 fails on a column that pandas labelled itself: the first loop calls
    [col.lower()] on the integer label 0 and the [AttributeError] leaves
    [process_feedback], although the dataset has a column. *)
Theorem C4_integer_label_raises (h : history) :
  length (columns Examples.unnamed_frame) = 1
  /\ fst (infer_feedback_column Examples.unnamed_frame h)
     = Raise (Exc AttributeError "'int' object has no attribute 'lower'")
  /\ forall cap s c su sg fmt,
       fst (process_feedback cap Examples.unnamed_frame s c su sg fmt h)
       = match model_init cap with
         | Ok _ => Raise (Exc AttributeError "'int' object has no attribute 'lower'")
         | Raise e => Raise (Exc OtherError
                               ("Error initializing Gemini model: " +:+ exc_msg e))
         end.
Proof.
  repeat split.
  intros cap s c su sg fmt.
  unfold process_feedback, process_rows, get_gemini_model.
  unfold bind, try_except, lift, raise.
  destruct (model_init cap) as [[]|e]; reflexivity.
Qed.

(** ** The aggregation engine *)

(** *** One request and one row *)

Lemma process_single_feedback_eq cap t h :
  process_single_feedback cap t h
  = (Ok (analysis_at cap h t), h ++ [AnalyzePrompt t]).
Proof.
  unfold process_single_feedback, analysis_at, try_except, bind, ask, lift, ret.
  destruct (generate_content cap h (AnalyzePrompt t)) as [r|e]; [|reflexivity].
  destruct (parse_analysis cap r); reflexivity.
Qed.

Lemma process_row_eq cap df fc c i st h :
  find_column fc df = Some c ->
  process_row cap df fc i st h =
    let t := str (cell_at c i) in
    if is_blank t then (Ok st, h)
    else
      let a := analysis_at cap h t in
      (match dict_append (l_category_data st) (category_of a) t with
       | Some category_data =>
           Ok (Locals
                 (set_at i "key_points" (CList (key_points_of a))
                    (set_at i "category" (CStr (category_of a))
                       (set_at i "sentiment" (CStr (sentiment_of a))
                          (l_processed_df st))))
                 (incr (sentiment_of a) (l_sentiment_distribution st))
                 (incr (category_of a) (l_category_distribution st))
                 category_data)
       | None => Raise (Exc KeyError (category_of a))
       end, h ++ [AnalyzePrompt t]).
Proof.
  intros Hc. unfold process_row, row_value. rewrite Hc.
  unfold bind at 1, ret at 1. cbv zeta. fold (is_blank (str (cell_at c i))).
  destruct (is_blank (str (cell_at c i))); [reflexivity|].
  unfold bind. rewrite process_single_feedback_eq.
  fold (category_of (analysis_at cap h (str (cell_at c i)))).
  fold (sentiment_of (analysis_at cap h (str (cell_at c i)))).
  fold (key_points_of (analysis_at cap h (str (cell_at c i)))).
  destruct (dict_append _ _ _); reflexivity.
Qed.

Lemma call_fails_default cap h t :
  call_fails cap h t = true -> analysis_at cap h t = default_analysis.
Proof.
  unfold call_fails, analysis_at.
  destruct (generate_content cap h (AnalyzePrompt t)) as [r|e]; [|reflexivity].
  destruct (parse_analysis cap r); [discriminate | reflexivity].
Qed.

(** *** The per-category buffers *)

Lemma dict_get_append d k v d' k' :
  dict_append d k v = Some d' ->
  dict_get d' k'
  = if String.eqb k k' then (fun l => l ++ [v]) <$> dict_get d k' else dict_get d k'.
Proof.
  revert d'. induction d as [|[k0 l] d IH]; intros d'; cbn [dict_append]; [discriminate|].
  destruct (String.eqb_spec k0 k) as [->|Hne].
  - intros H; inversion H; subst; clear H. cbn [dict_get].
    destruct (String.eqb k k'); reflexivity.
  - destruct (dict_append d k v) as [d0|]; [|discriminate].
    intros H; inversion H; subst; clear H. cbn [dict_get].
    rewrite (IH d0 eq_refl).
    destruct (String.eqb_spec k0 k') as [->|Hne']; [|reflexivity].
    destruct (String.eqb_spec k k'); [congruence | reflexivity].
Qed.

Lemma dict_append_keys d k v d' :
  dict_append d k v = Some d' -> fst <$> d' = fst <$> d.
Proof.
  revert d'. induction d as [|[k0 l] d IH]; intros d'; cbn [dict_append]; [discriminate|].
  destruct (String.eqb k0 k).
  - intros H; inversion H; reflexivity.
  - destruct (dict_append d k v) as [d0|]; [|discriminate].
    intros H; inversion H; subst. cbn. f_equal. apply IH. reflexivity.
Qed.

Lemma dict_append_known d k v :
  k ∈ fst <$> d -> is_Some (dict_append d k v).
Proof.
  induction d as [|[k0 l] d IH]; cbn; intros H.
  - apply elem_of_nil in H. destruct H.
  - destruct (String.eqb_spec k0 k) as [->|Hne]; [eauto|].
    apply elem_of_cons in H as [H|H]; [congruence|].
    destruct (IH H) as [d0 ->]. eauto.
Qed.


(** *** The loop over the rows *)

Lemma analysed_texts_cons c i idxs :
  analysed_texts c (i :: idxs)
  = if is_blank (str (cell_at c i)) then analysed_texts c idxs
    else str (cell_at c i) :: analysed_texts c idxs.
Proof.
  unfold analysed_texts, feedback_texts. cbn [fmap list_fmap List.filter].
  destruct (is_blank (str (cell_at c i))); reflexivity.
Qed.

Lemma analysed_texts_app c l1 l2 :
  analysed_texts c (l1 ++ l2) = analysed_texts c l1 ++ analysed_texts c l2.
Proof.
  unfold analysed_texts, feedback_texts. rewrite fmap_app. apply List.filter_app.
Qed.

Lemma texts_of_category_cons k t a ans :
  texts_of_category k ((t, a) :: ans)
  = if String.eqb (category_of a) k then t :: texts_of_category k ans
    else texts_of_category k ans.
Proof.
  unfold texts_of_category. cbn [List.filter snd].
  destruct (String.eqb (category_of a) k); reflexivity.
Qed.

(** What the loop leaves in the counters, the buffers and the history. *)
Lemma rows_loop_counts cap df fc c idxs :
  find_column fc df = Some c ->
  forall st h st' h',
    for_each idxs (process_row cap df fc) st h = (Ok st', h') ->
    let ans := analyses cap h (analysed_texts c idxs) in
    h' = h ++ (AnalyzePrompt <$> analysed_texts c idxs)
    /\ l_sentiment_distribution st'
       = tally ((fun p => sentiment_of p.2) <$> ans) (l_sentiment_distribution st)
    /\ l_category_distribution st'
       = tally ((fun p => category_of p.2) <$> ans) (l_category_distribution st)
    /\ forall k, dict_get (l_category_data st') k
                 = (fun l => l ++ texts_of_category k ans)
                   <$> dict_get (l_category_data st) k.
Proof.
  intros Hc. induction idxs as [|i idxs IH]; intros st h st' h' H.
  - inversion H; subst. cbn. rewrite app_nil_r. repeat split.
    intros k. destruct (dict_get (l_category_data st') k); cbn; [|reflexivity].
    rewrite app_nil_r. reflexivity.
  - cbn [for_each] in H. unfold bind in H.
    rewrite (process_row_eq _ _ _ _ _ _ _ Hc) in H. cbv zeta in H.
    rewrite analysed_texts_cons.
    destruct (is_blank (str (cell_at c i))) eqn:Hb.
    + apply IH. exact H.
    + destruct (dict_append _ _ _) as [cd|] eqn:Hd; [|discriminate H].
      apply IH in H. cbv zeta in H. destruct H as (Hh & Hs & Hcat & Hbuf).
      cbn [l_sentiment_distribution l_category_distribution l_category_data] in *.
      cbn [analyses fmap list_fmap snd]. repeat split.
      * rewrite Hh, <- app_assoc. reflexivity.
      * exact Hs.
      * exact Hcat.
      * intros k. rewrite Hbuf, (dict_get_append _ _ _ _ k Hd).
        rewrite texts_of_category_cons.
        destruct (String.eqb _ k); [|reflexivity].
        destruct (dict_get (l_category_data st) k); cbn; [|reflexivity].
        rewrite <- app_assoc. reflexivity.
Qed.

(** Whether the loop ends or raises, the requests it makes are for analysed
    rows, in order: none is made for a row that is skipped. *)
Lemma rows_loop_requests cap df fc c idxs :
  find_column fc df = Some c ->
  forall st h o h',
    for_each idxs (process_row cap df fc) st h = (o, h') ->
    exists k, h' = h ++ (AnalyzePrompt <$> take k (analysed_texts c idxs)).
Proof.
  intros Hc. induction idxs as [|i idxs IH]; intros st h o h' H.
  - inversion H; subst. exists 0. cbn. rewrite app_nil_r. reflexivity.
  - cbn [for_each] in H. unfold bind in H.
    rewrite (process_row_eq _ _ _ _ _ _ _ Hc) in H. cbv zeta in H.
    rewrite analysed_texts_cons.
    destruct (is_blank (str (cell_at c i))) eqn:Hb; [eapply IH; exact H|].
    destruct (dict_append _ _ _) as [cd|].
    + apply IH in H as [k ->]. exists (S k). cbn [take fmap list_fmap].
      rewrite <- app_assoc. reflexivity.
    + inversion H; subst. exists 1. reflexivity.
Qed.

(** The loop runs to its end when every category the model gives has a
    buffer. *)
Lemma analysis_at_known cap h t :
  (forall response_text a,
     parse_analysis cap response_text = Ok a -> category_of a ∈ known_categories) ->
  category_of (analysis_at cap h t) ∈ known_categories.
Proof.
  intros Hk. unfold analysis_at.
  destruct (generate_content cap h (AnalyzePrompt t)) as [r|e].
  - destruct (parse_analysis cap r) as [a|e] eqn:E; [eapply Hk; exact E|].
    vm_compute. repeat constructor.
  - vm_compute. repeat constructor.
Qed.

Lemma rows_loop_total cap df fc c idxs :
  find_column fc df = Some c ->
  (forall h t, category_of (analysis_at cap h t) ∈ known_categories) ->
  forall st h,
    fst <$> l_category_data st = known_categories ->
    exists st' h', for_each idxs (process_row cap df fc) st h = (Ok st', h').
Proof.
  intros Hc Hk. induction idxs as [|i idxs IH]; intros st h Hkeys.
  - eexists _, _. reflexivity.
  - cbn [for_each]. unfold bind.
    rewrite (process_row_eq _ _ _ _ _ _ _ Hc). cbv zeta.
    destruct (is_blank (str (cell_at c i))); [apply IH; exact Hkeys|].
    destruct (dict_append_known (l_category_data st)
                (category_of (analysis_at cap h (str (cell_at c i))))
                (str (cell_at c i))) as [cd Hd].
    { rewrite Hkeys. apply Hk. }
    rewrite Hd. apply IH. cbn [l_category_data].
    rewrite (dict_append_keys _ _ _ _ Hd). exact Hkeys.
Qed.

(** A row that is skipped, or that the loop does not visit, keeps its
    cells. *)
Lemma rows_loop_untouched cap df fc c idxs name i :
  find_column fc df = Some c ->
  (i ∈ idxs -> is_blank (str (cell_at c i)) = true) ->
  forall st h st' h',
    for_each idxs (process_row cap df fc) st h = (Ok st', h') ->
    get_cell (l_processed_df st') name i = get_cell (l_processed_df st) name i.
Proof.
  intros Hc Hi st h st' h' H.
  apply (for_each_invariant
           (fun acc => get_cell (l_processed_df acc) name i
                       = get_cell (l_processed_df st) name i) _ _) in H;
    [exact H | | reflexivity].
  intros x acc s acc' s' Hx Hbody Hacc.
  rewrite (process_row_eq _ _ _ _ _ _ _ Hc) in Hbody. cbv zeta in Hbody.
  destruct (is_blank (str (cell_at c x))) eqn:Hb.
  - inversion Hbody; subst. exact Hacc.
  - destruct (dict_append _ _ _); [|discriminate Hbody].
    inversion Hbody; subst; clear Hbody. cbn [l_processed_df].
    assert (x <> i) as Hne by (intros ->; rewrite (Hi Hx) in Hb; discriminate).
    apply Nat.eqb_neq in Hne.
    rewrite !get_cell_set_at, Hne, !andb_false_r. cbn [andb]. exact Hacc.
Qed.

(** The cells of a row that is analysed. *)
Lemma process_row_written cap df fc c i st h st' h' :
  find_column fc df = Some c ->
  is_blank (str (cell_at c i)) = false ->
  process_row cap df fc i st h = (Ok st', h') ->
  is_Some (get_cell (l_processed_df st) "sentiment" i) ->
  is_Some (get_cell (l_processed_df st) "category" i) ->
  is_Some (get_cell (l_processed_df st) "key_points" i) ->
  let a := analysis_at cap h (str (cell_at c i)) in
  get_cell (l_processed_df st') "sentiment" i = Some (CStr (sentiment_of a))
  /\ get_cell (l_processed_df st') "category" i = Some (CStr (category_of a))
  /\ get_cell (l_processed_df st') "key_points" i = Some (CList (key_points_of a)).
Proof.
  intros Hc Hb H Hs Hcat Hk. rewrite (process_row_eq _ _ _ _ _ _ _ Hc) in H.
  cbv zeta in H. rewrite Hb in H.
  destruct (dict_append _ _ _); [|discriminate H].
  inversion H; subst; clear H. cbn [l_processed_df]. cbv zeta.
  rewrite !get_cell_set_at, Nat.eqb_refl.
  change (String.eqb "key_points" "sentiment") with false.
  change (String.eqb "category" "sentiment") with false.
  change (String.eqb "key_points" "category") with false.
  change (String.eqb "sentiment" "category") with false.
  change (String.eqb "sentiment" "key_points") with false.
  change (String.eqb "category" "key_points") with false.
  change (String.eqb "sentiment" "sentiment") with true.
  change (String.eqb "category" "category") with true.
  change (String.eqb "key_points" "key_points") with true.
  cbn [andb].
  rewrite !bool_decide_eq_true_2 by assumption.
  repeat split.
Qed.

Lemma rows_loop_written cap df fc c pre i post :
  find_column fc df = Some c ->
  i ∉ pre -> i ∉ post ->
  is_blank (str (cell_at c i)) = false ->
  forall st h st' h',
    for_each (pre ++ i :: post) (process_row cap df fc) st h = (Ok st', h') ->
    is_Some (get_cell (l_processed_df st) "sentiment" i) ->
    is_Some (get_cell (l_processed_df st) "category" i) ->
    is_Some (get_cell (l_processed_df st) "key_points" i) ->
    let a := analysis_at cap (h ++ (AnalyzePrompt <$> analysed_texts c pre))
               (str (cell_at c i)) in
    get_cell (l_processed_df st') "sentiment" i = Some (CStr (sentiment_of a))
    /\ get_cell (l_processed_df st') "category" i = Some (CStr (category_of a))
    /\ get_cell (l_processed_df st') "key_points" i = Some (CList (key_points_of a)).
Proof.
  intros Hc Hpre Hpost Hb st h st' h' H Hs Hcat Hk.
  rewrite for_each_app in H. unfold bind in H.
  destruct (for_each pre (process_row cap df fc) st h) as [[st1|e] h1] eqn:E1;
    [|discriminate H].
  cbn [for_each] in H. unfold bind in H.
  destruct (process_row cap df fc i st1 h1) as [[st2|e] h2] eqn:E2; [|discriminate H].
  pose proof (rows_loop_counts _ _ _ _ _ Hc _ _ _ _ E1) as (Hh1 & _).
  assert (forall name, get_cell (l_processed_df st1) name i
                       = get_cell (l_processed_df st) name i) as Huntouched1.
  { intros name. eapply rows_loop_untouched; [exact Hc | | exact E1].
    intros Hin. contradiction. }
  assert (forall name, get_cell (l_processed_df st') name i
                       = get_cell (l_processed_df st2) name i) as Huntouched2.
  { intros name. eapply rows_loop_untouched; [exact Hc | | exact H].
    intros Hin. contradiction. }
  cbv zeta. rewrite !Huntouched2. rewrite <- Hh1.
  eapply process_row_written; [exact Hc | exact Hb | exact E2 | | | ];
    rewrite Huntouched1; assumption.
Qed.

Lemma process_rows_eq cap df h :
  process_rows cap df h =
    match model_init cap with
    | Raise e =>
        (Raise (Exc OtherError ("Error initializing Gemini model: " +:+ exc_msg e)), h)
    | Ok _ =>
        match inferred_column df with
        | Raise e => (Raise e, h)
        | Ok feedback_column =>
            for_each (seq 0 (nrows df)) (process_row cap df feedback_column)
              (Locals
                 (set_column "key_points" (replicate (nrows df) (CList []))
                    (set_column "category" (replicate (nrows df) (CStr "other"))
                       (set_column "sentiment" (replicate (nrows df) (CStr "neutral"))
                          df)))
                 ∅ ∅ empty_category_data) h
        end
    end.
Proof.
  unfold process_rows, get_gemini_model, bind, try_except, lift, raise.
  destruct (model_init cap); [|reflexivity].
  rewrite infer_feedback_column_eq. destruct (inferred_column df); reflexivity.
Qed.

(** The new columns start with a value for every row. *)
Lemma initial_cells df i :
  i < nrows df ->
  let processed_df :=
    set_column "key_points" (replicate (nrows df) (CList []))
      (set_column "category" (replicate (nrows df) (CStr "other"))
         (set_column "sentiment" (replicate (nrows df) (CStr "neutral")) df)) in
  get_cell processed_df "sentiment" i = Some (CStr "neutral")
  /\ get_cell processed_df "category" i = Some (CStr "other")
  /\ get_cell processed_df "key_points" i = Some (CList []).
Proof.
  intros Hi. cbv zeta. rewrite !get_cell_set_column.
  change (String.eqb "key_points" "sentiment") with false.
  change (String.eqb "category" "sentiment") with false.
  change (String.eqb "key_points" "category") with false.
  change (String.eqb "sentiment" "sentiment") with true.
  change (String.eqb "category" "category") with true.
  change (String.eqb "key_points" "key_points") with true.
  cbv iota. cbn [nrows set_column].
  rewrite !lookup_replicate_2 by exact Hi. repeat split.
Qed.

(** *** Summaries and suggestions *)

Lemma nonempty_buckets_cons entry cd :
  nonempty_buckets (entry :: cd)
  = if 0 <? length entry.2 then entry :: nonempty_buckets cd else nonempty_buckets cd.
Proof. reflexivity. Qed.

Lemma nonempty_buckets_elem k feedbacks cd :
  (k, feedbacks) ∈ nonempty_buckets cd <-> (k, feedbacks) ∈ cd /\ feedbacks <> [].
Proof.
  unfold nonempty_buckets. rewrite !list_elem_of_In, List.filter_In.
  destruct feedbacks; cbn; intuition (try lia; try congruence).
Qed.

Section BucketLoop.
Context {V : Type}.
Variable body : string * list string -> gmap string V -> M history (gmap string V).
Variable request : string * list string -> prompt.
Variable entry_value : history -> string * list string -> V.

Hypothesis body_eq : forall entry acc h,
  body entry acc h
  = if 0 <? length entry.2
    then (Ok (<[entry.1 := entry_value h entry]> acc), h ++ [request entry])
    else (Ok acc, h).

(** One entry per non-empty bucket, made from the request for that
    bucket; the other keys are left alone. *)
Lemma bucket_loop_spec cd :
  forall acc h,
  exists m,
    for_each cd body acc h = (Ok m, h ++ (request <$> nonempty_buckets cd))
    /\ (forall k, k ∉ fst <$> nonempty_buckets cd -> m !! k = acc !! k)
    /\ (forall k, is_Some (m !! k)
                  <-> is_Some (acc !! k) \/ k ∈ fst <$> nonempty_buckets cd)
    /\ (forall pre entry post,
          cd = pre ++ entry :: post -> entry.2 <> [] -> entry.1 ∉ fst <$> post ->
          m !! entry.1
          = Some (entry_value (h ++ (request <$> nonempty_buckets pre)) entry)).
Proof.
  induction cd as [|e0 cd IH]; intros acc h.
  - exists acc. cbn. rewrite app_nil_r. repeat split.
    + intros H; left; exact H.
    + intros [H|H]; [exact H | apply elem_of_nil in H; destruct H].
    + intros pre entry post H. destruct pre; discriminate H.
  - cbn [for_each]. unfold bind. rewrite body_eq, nonempty_buckets_cons.
    destruct (0 <? length e0.2) eqn:E0.
    + destruct (IH (<[e0.1 := entry_value h e0]> acc) (h ++ [request e0]))
        as (m & Hm & Hother & Hdom & Hval).
      exists m. rewrite Hm. cbn [fmap list_fmap]. rewrite <- app_assoc.
      split; [reflexivity|]. split; [|split].
      * intros k Hk. rewrite not_elem_of_cons in Hk. destruct Hk as [Hne Hk].
        rewrite (Hother k Hk). apply lookup_insert_ne. congruence.
      * intros k. rewrite Hdom, elem_of_cons.
        destruct (decide (k = e0.1)) as [->|Hne].
        -- rewrite lookup_insert_eq. intuition eauto.
        -- rewrite lookup_insert_ne by congruence. intuition congruence.
      * intros pre entry post Hcd Hne Hpost. destruct pre as [|e1 pre].
        -- cbn in Hcd. inversion Hcd; subst. cbn. rewrite app_nil_r.
           rewrite Hother; [apply lookup_insert_eq|].
           intros Hin. apply Hpost.
           apply list_elem_of_fmap in Hin as ([k' f'] & Hk & Hin). cbn in Hk. subst k'.
           apply nonempty_buckets_elem in Hin as [Hin _].
           apply list_elem_of_fmap. exists (entry.1, f'). split; [reflexivity | exact Hin].
        -- cbn in Hcd. inversion Hcd; subst.
           rewrite (Hval pre entry post eq_refl Hne Hpost).
           rewrite nonempty_buckets_cons, E0. cbn [fmap list_fmap].
           rewrite <- app_assoc. reflexivity.
    + destruct (IH acc h) as (m & Hm & Hother & Hdom & Hval).
      exists m. rewrite Hm. split; [reflexivity|]. split; [exact Hother|].
      split; [exact Hdom|].
      intros pre entry post Hcd Hne Hpost. destruct pre as [|e1 pre].
      * cbn in Hcd. inversion Hcd; subst.
        apply Nat.ltb_ge in E0. destruct (entry.2); [congruence | cbn in E0; lia].
      * cbn in Hcd. inversion Hcd; subst.
        rewrite (Hval pre entry post eq_refl Hne Hpost).
        rewrite nonempty_buckets_cons, E0. reflexivity.
Qed.
End BucketLoop.

Lemma summaries_body_eq cap (entry : string * list string)
    (acc : gmap string string) (h : history) :
  (let '(category, feedbacks) := entry in
   fun summaries : gmap string string =>
     match feedbacks with
     | [] => ret summaries
     | _ =>
         let sample_size := Nat.min 20 (length feedbacks) in
         let sample_feedbacks := take sample_size feedbacks in
         try_except
           (do text <- ask cap (SummaryPrompt sample_size
                                  (PyStr.replace_underscore category)
                                  sample_feedbacks);
            ret (<[category := PyStr.strip text]> summaries))
           (fun e =>
              ret (<[category := "Could not generate summary for "
                                 +:+ category +:+ ": " +:+ exc_msg e]> summaries))
     end) acc h
  = if 0 <? length entry.2
    then (Ok (<[entry.1 := summary_entry cap h entry]> acc), h ++ [summary_prompt entry])
    else (Ok acc, h).
Proof.
  destruct entry as [category [|f fs]]; [reflexivity|].
  cbv zeta. rewrite take_min_length.
  unfold try_except, bind, ask, ret, summary_entry, summary_prompt. cbn [fst snd].
  destruct (generate_content cap h _); reflexivity.
Qed.

Lemma suggestions_body_eq cap (entry : string * list string)
    (acc : gmap string pyobj) (h : history) :
  (let '(category, feedbacks) := entry in
   fun suggestions : gmap string pyobj =>
     match feedbacks with
     | [] => ret suggestions
     | _ =>
         let sample_size := Nat.min 20 (length feedbacks) in
         let sample_feedbacks := take sample_size feedbacks in
         try_except
           (do response_text <- ask cap (SuggestionPrompt sample_size
                                           (PyStr.replace_underscore category)
                                           sample_feedbacks);
            do result <- lift (parse_suggestions cap response_text);
            ret (<[category := result]> suggestions))
           (fun _ =>
              ret (<[category := fallback_suggestions category]> suggestions))
     end) acc h
  = if 0 <? length entry.2
    then (Ok (<[entry.1 := suggestion_entry cap h entry]> acc),
          h ++ [suggestion_prompt entry])
    else (Ok acc, h).
Proof.
  destruct entry as [category [|f fs]]; [reflexivity|].
  cbv zeta. rewrite take_min_length.
  unfold try_except, bind, ask, ret, lift, suggestion_entry, suggestion_prompt.
  cbn [fst snd].
  destruct (generate_content cap h _) as [r|e]; [|reflexivity].
  destruct (parse_suggestions cap r); reflexivity.
Qed.

Lemma generate_category_summaries_total cap cd h :
  exists m, generate_category_summaries cap cd h
            = (Ok m, h ++ (summary_prompt <$> nonempty_buckets cd)).
Proof.
  unfold generate_category_summaries.
  destruct (bucket_loop_spec _ summary_prompt (summary_entry cap)
              (summaries_body_eq cap) cd ∅ h) as (m & Hm & _).
  exists m. exact Hm.
Qed.

Lemma generate_improvement_suggestions_total cap cd h :
  exists m, generate_improvement_suggestions cap cd h
            = (Ok m, h ++ (suggestion_prompt <$> nonempty_buckets cd)).
Proof.
  unfold generate_improvement_suggestions.
  destruct (bucket_loop_spec _ suggestion_prompt (suggestion_entry cap)
              (suggestions_body_eq cap) cd ∅ h) as (m & Hm & _).
  exists m. exact Hm.
Qed.



(** *** The two halves of [process_feedback] *)

Lemma process_feedback_after_rows cap df s c su sg fmt h st h1 :
  process_rows cap df h = (Ok st, h1) ->
  exists summaries suggestions,
    process_feedback cap df s c su sg fmt h
    = (Ok (Results (l_sentiment_distribution st) (l_category_distribution st)
                   summaries suggestions (l_processed_df st)),
       (h1 ++ (if su then summary_prompt <$> nonempty_buckets (l_category_data st)
               else []))
       ++ (if sg then suggestion_prompt <$> nonempty_buckets (l_category_data st)
           else []))
    /\ (su = false -> summaries = ∅)
    /\ (sg = false -> suggestions = ∅).
Proof.
  intros Hrows. unfold process_feedback, bind. rewrite Hrows.
  destruct su.
  - destruct (generate_category_summaries_total cap (l_category_data st) h1)
      as (summaries & ->).
    destruct sg.
    + destruct (generate_improvement_suggestions_total cap (l_category_data st)
                  (h1 ++ (summary_prompt <$> nonempty_buckets (l_category_data st))))
        as (suggestions & ->).
      exists summaries, suggestions. repeat split; discriminate.
    + exists summaries, ∅. unfold ret. rewrite app_nil_r.
      repeat split; discriminate.
  - unfold ret at 1. destruct sg.
    + destruct (generate_improvement_suggestions_total cap (l_category_data st) h1)
        as (suggestions & ->).
      exists ∅, suggestions. rewrite app_nil_r. repeat split; discriminate.
    + exists ∅, ∅. unfold ret. rewrite !app_nil_r. repeat split.
Qed.

Lemma process_feedback_raises cap df s c su sg fmt h e h1 :
  process_rows cap df h = (Raise e, h1) ->
  process_feedback cap df s c su sg fmt h = (Raise e, h1).
Proof. intros Hrows. unfold process_feedback, bind. rewrite Hrows. reflexivity. Qed.

Lemma process_feedback_inv cap df s c su sg fmt h res h' :
  process_feedback cap df s c su sg fmt h = (Ok res, h') ->
  exists st h1,
    process_rows cap df h = (Ok st, h1)
    /\ sentiment_distribution res = l_sentiment_distribution st
    /\ category_distribution res = l_category_distribution st
    /\ processed_data res = l_processed_df st
    /\ h' = (h1 ++ (if su then summary_prompt <$> nonempty_buckets (l_category_data st)
                    else []))
            ++ (if sg then suggestion_prompt <$> nonempty_buckets (l_category_data st)
                else []).
Proof.
  intros H. destruct (process_rows cap df h) as [[st|e] h1] eqn:Hrows.
  - destruct (process_feedback_after_rows cap df s c su sg fmt h st h1 Hrows)
      as (summaries & suggestions & Heq & _).
    rewrite Heq in H. inversion H; subst. exists st, h1. repeat split.
  - rewrite (process_feedback_raises _ _ _ _ _ _ _ _ _ _ Hrows) in H. discriminate H.
Qed.

Lemma process_rows_inv cap df h st h1 :
  process_rows cap df h = (Ok st, h1) ->
  exists feedback_column col,
    inferred_column df = Ok feedback_column
    /\ find_column feedback_column df = Some col
    /\ for_each (seq 0 (nrows df)) (process_row cap df feedback_column)
         (Locals
            (set_column "key_points" (replicate (nrows df) (CList []))
               (set_column "category" (replicate (nrows df) (CStr "other"))
                  (set_column "sentiment" (replicate (nrows df) (CStr "neutral")) df)))
            ∅ ∅ empty_category_data) h
       = (Ok st, h1).
Proof.
  rewrite process_rows_eq. destruct (model_init cap); [|discriminate].
  destruct (inferred_column df) as [fc|e] eqn:Hinf; [|discriminate].
  destruct (inferred_column_found _ _ Hinf) as [col Hcol].
  intros H. exists fc, col. repeat split; assumption.
Qed.

(** *** Failures of the model *)




(** When the model fails on every request, the run still returns and every
    row has sentiment [neutral] and category [other]. *)
Lemma model_always_fails (cap : Capability) (df : DataFrame)
    (s c su sg : bool) (fmt : string) (h : history) :
  is_ok (model_init cap) = true ->
  columns df <> [] ->
  string_labels df ->
  (forall h0 p, is_ok (generate_content cap h0 p) = false) ->
  exists res h',
    process_feedback cap df s c su sg fmt h = (Ok res, h')
    /\ forall i,
         i < nrows df ->
         get_cell (processed_data res) "sentiment" i = Some (CStr "neutral")
         /\ get_cell (processed_data res) "category" i = Some (CStr "other").
Proof.
  intros Hinit Hcols Hlabels Hfails.
  assert (forall h0 t, analysis_at cap h0 t = default_analysis) as Hdefault.
  { intros h0 t. apply call_fails_default. unfold call_fails.
    specialize (Hfails h0 (AnalyzePrompt t)).
    destruct (generate_content cap h0 (AnalyzePrompt t)); [discriminate Hfails | reflexivity]. }
  destruct (inferred_column_total df Hlabels Hcols) as [fc Hfc].
  destruct (inferred_column_found _ _ Hfc) as [col Hcol].
  destruct (rows_loop_total cap df fc col (seq 0 (nrows df)) Hcol
              ltac:(intros h0 t; rewrite Hdefault; vm_compute; repeat constructor)
              (Locals
                 (set_column "key_points" (replicate (nrows df) (CList []))
                    (set_column "category" (replicate (nrows df) (CStr "other"))
                       (set_column "sentiment" (replicate (nrows df) (CStr "neutral"))
                          df)))
                 ∅ ∅ empty_category_data) h eq_refl) as (st & h1 & Hloop).
  assert (process_rows cap df h = (Ok st, h1)) as Hrows.
  { rewrite process_rows_eq, Hfc. destruct (model_init cap); [exact Hloop | discriminate]. }
  destruct (process_feedback_after_rows cap df s c su sg fmt h st h1 Hrows)
    as (summaries & suggestions & Heq & _).
  eexists _, _. split; [exact Heq|]. intros i Hi. cbn [processed_data].
  destruct (initial_cells df i Hi) as (Hs0 & Hc0 & Hk0).
  destruct (is_blank (str (cell_at col i))) eqn:Hblank.
  - rewrite !(rows_loop_untouched _ _ _ _ _ _ i Hcol (fun _ => Hblank) _ _ _ _ Hloop).
    cbn [l_processed_df]. split; assumption.
  - rewrite (seq_split_at _ _ Hi) in Hloop.
    pose proof (rows_loop_written cap df fc col (seq 0 i) i (seq (S i) (nrows df - S i))
                  Hcol) as Hw.
    specialize (Hw ltac:(rewrite elem_of_seq; lia) ltac:(rewrite elem_of_seq; lia)
                   Hblank _ _ _ _ Hloop).
    cbn [l_processed_df] in Hw.
    specialize (Hw ltac:(rewrite Hs0; eauto) ltac:(rewrite Hc0; eauto)
                   ltac:(rewrite Hk0; eauto)).
    cbv zeta in Hw. rewrite Hdefault in Hw. destruct Hw as (Hs & Hc & _).
    split; assumption.
Qed.

(** *** Rows without feedback *)



(** *** The annotated dataset *)

Lemma has_column_false name df c :
  has_column name df = false -> c ∈ columns df ->
  label_eqb (col_name c) (LStr name) = false.
Proof.
  unfold has_column. intros H Hc.
  destruct (label_eqb (col_name c) (LStr name)) eqn:E; [|reflexivity].
  assert (existsb (fun c0 => label_eqb (col_name c0) (LStr name)) (columns df) = true)
    as Hex by (apply List.existsb_exists; exists c; split;
               [apply list_elem_of_In; exact Hc | exact E]).
  congruence.
Qed.

Lemma initial_annotated df :
  names_free df ->
  annotated df
    (set_column "key_points" (replicate (nrows df) (CList []))
       (set_column "category" (replicate (nrows df) (CStr "other"))
          (set_column "sentiment" (replicate (nrows df) (CStr "neutral")) df))).
Proof.
  intros (Hs & Hc & Hk). unfold has_column in *. split; [reflexivity|].
  exists (replicate (nrows df) (CStr "neutral")),
         (replicate (nrows df) (CStr "other")),
         (replicate (nrows df) (CList [])).
  rewrite !length_replicate. split; [|repeat split].
  unfold set_column. cbn [columns nrows].
  rewrite (assign_fresh (columns df)) by exact Hs.
  rewrite (assign_fresh (columns df ++ _))
    by (rewrite existsb_app; cbn [col_name]; rewrite Hc; reflexivity).
  rewrite (assign_fresh ((columns df ++ _) ++ _))
    by (rewrite !existsb_app; cbn [col_name]; rewrite Hk; reflexivity).
  rewrite <- !app_assoc. reflexivity.
Qed.

Lemma set_at_annotated orig df idx name v :
  names_free orig ->
  name = "sentiment" \/ name = "category" \/ name = "key_points" ->
  annotated orig df -> annotated orig (set_at idx name v df).
Proof.
  intros (Hs & Hc & Hk) Hname (Hn & s & c & k & Hcols & Hls & Hlc & Hlk).
  split; [exact Hn|].
  assert ((fun c0 => if label_eqb (col_name c0) (LStr name)
                     then Column (col_name c0) (col_dtype c0)
                            (<[idx := v]> (col_values c0))
                     else c0) <$> columns orig = columns orig) as Horig.
  { rewrite <- (list_fmap_id (columns orig)) at 2.
    apply list_fmap_ext. intros ? c0 Hc0.
    apply list_elem_of_lookup_2 in Hc0.
    rewrite (has_column_false name orig c0); [reflexivity | | exact Hc0].
    destruct Hname as [->|[->| ->]]; assumption. }
  unfold set_at. cbn [columns nrows]. rewrite Hcols, fmap_app, Horig.
  destruct Hname as [->|[->| ->]]; cbn.
  - exists (<[idx := v]> s), c, k. rewrite length_insert. repeat split; assumption.
  - exists s, (<[idx := v]> c), k. rewrite length_insert. repeat split; assumption.
  - exists s, c, (<[idx := v]> k). rewrite length_insert. repeat split; assumption.
Qed.

(** C9, as stated, fails on a dataset that already has a column named
    [sentiment]: the column is overwritten where it stands, so the columns
    of the result are not those of the input followed by three new ones. *)
Lemma C9_counterexample :
  exists res h',
    process_feedback Examples.always_positive Examples.with_sentiment
      true true true true "text" [] = (Ok res, h')
    /\ get_cell Examples.with_sentiment "sentiment" 0
       = Some (CStr "as rated by the guest")
    /\ get_cell (processed_data res) "sentiment" 0 = Some (CStr "positive")
    /\ length (columns (processed_data res)) = 4
    /\ ~ annotated Examples.with_sentiment (processed_data res).
Proof.
  destruct (process_feedback Examples.always_positive Examples.with_sentiment
              true true true true "text" []) as [[res|e] h'] eqn:E;
    [|vm_compute in E; discriminate E].
  exists res, h'. split; [reflexivity|].
  vm_compute in E. inversion E; subst res h'; clear E.
  split; [reflexivity|]. split; [reflexivity|]. split; [reflexivity|].
  intros (_ & s & c & k & Hcols & _). apply (f_equal length) in Hcols.
  cbn in Hcols. discriminate Hcols.
Qed.

(** C9, amended: for a dataset none of whose columns is named [sentiment],
    [category] or [key_points], the annotated dataset has the same number
    of rows, every original column as it was and in its place, and after
    them exactly the three columns [sentiment], [category] and
    [key_points], each with one value per row. *)
Theorem C9_annotated_dataset (cap : Capability) (df : DataFrame)
    (s c su sg : bool) (fmt : string) (h : history) (res : results) (h' : history) :
  names_free df ->
  process_feedback cap df s c su sg fmt h = (Ok res, h') ->
  annotated df (processed_data res).
Proof.
  intros Hfree H.
  apply process_feedback_inv in H as (st & h1 & Hrows & _ & _ & Hpd & _).
  destruct (process_rows_inv _ _ _ _ _ Hrows) as (fc & col & Hfc & Hcol & Hloop).
  rewrite Hpd.
  apply (for_each_invariant (fun acc => annotated df (l_processed_df acc)) _ _)
    in Hloop; [exact Hloop | | apply initial_annotated; exact Hfree].
  intros x acc t acc' t' _ Hbody Hacc.
  rewrite (process_row_eq _ _ _ _ _ _ _ Hcol) in Hbody. cbv zeta in Hbody.
  destruct (is_blank _); [inversion Hbody; subst; exact Hacc|].
  destruct (dict_append _ _ _); [|discriminate Hbody].
  inversion Hbody; subst. cbn [l_processed_df].
  repeat (apply set_at_annotated; [exact Hfree | tauto |]). exact Hacc.
Qed.

Lemma C9_annotated_dataset_witness :
  exists res h',
    process_feedback Examples.always_positive Examples.one_row
      true true true true "text" [] = (Ok res, h')
    /\ annotated Examples.one_row (processed_data res).
Proof.
  destruct (process_feedback Examples.always_positive Examples.one_row
              true true true true "text" []) as [[res|e] h'] eqn:E;
    [|vm_compute in E; discriminate E].
  exists res, h'. split; [reflexivity|].
  assert (names_free Examples.one_row) as Hfree
    by (split; [reflexivity | split; reflexivity]).
  apply (C9_annotated_dataset _ _ _ _ _ _ _ _ _ _ Hfree E).
Defined.

(** *** The options *)


(** ** Processing in chunks *)

(** *** Counters *)

Lemma add_counts_lookup (a b : gmap string nat) (k : string) :
  App.add_counts a b !! k
  = match b !! k with
    | Some v => Some (default 0 (a !! k) + v)
    | None => a !! k
    end.
Proof.
  unfold App.add_counts. revert k.
  apply (map_fold_weak_ind
           (fun r m => forall k, r !! k = match m !! k with
                                          | Some v => Some (default 0 (a !! k) + v)
                                          | None => a !! k
                                          end)).
  - intros k. rewrite lookup_empty. reflexivity.
  - intros i x m r Hi IH k. destruct (decide (i = k)) as [->|Hne].
    + rewrite !lookup_insert_eq, IH, Hi. reflexivity.
    + rewrite !lookup_insert_ne by exact Hne. apply IH.
Qed.

Lemma tally_lookup (keys : list string) (m : gmap string nat) (k : string) :
  tally keys m !! k
  = let n := length (List.filter (String.eqb k) keys) in
    if n =? 0 then m !! k else Some (default 0 (m !! k) + n).
Proof.
  revert m. induction keys as [|k' keys IH]; intros m; [reflexivity|].
  unfold tally in *. cbn [fold_left List.filter]. rewrite IH. cbv zeta. unfold incr.
  destruct (String.eqb_spec k k') as [<-|Hne].
  - rewrite lookup_insert_eq. cbn [length default].
    destruct (length (List.filter (String.eqb k) keys)) as [|n]; cbn [Nat.eqb].
    + unfold id. f_equal; lia.
    + unfold id. f_equal; lia.
  - rewrite lookup_insert_ne by congruence. reflexivity.
Qed.

Lemma add_counts_tally (m : gmap string nat) (keys : list string) :
  App.add_counts m (tally keys ∅) = tally keys m.
Proof.
  apply map_eq. intros k. rewrite add_counts_lookup, !tally_lookup. cbv zeta.
  rewrite lookup_empty.
  destruct (length (List.filter (String.eqb k) keys) =? 0); reflexivity.
Qed.

Lemma tally_app (l1 l2 : list string) (m : gmap string nat) :
  tally (l1 ++ l2) m = tally l2 (tally l1 m).
Proof. unfold tally. apply fold_left_app. Qed.

(** *** Any contiguous split of the rows *)

Lemma analysis_at_deterministic cap h t :
  deterministic cap -> analysis_at cap h t = analysis_at cap [] t.
Proof. intros Hdet. unfold analysis_at. rewrite (Hdet h []). reflexivity. Qed.

Lemma analyses_deterministic cap h ts :
  deterministic cap ->
  analyses cap h ts = (fun t => (t, analysis_at cap [] t)) <$> ts.
Proof.
  intros Hdet. revert h. induction ts as [|t ts IH]; intros h; [reflexivity|].
  cbn [analyses fmap list_fmap]. rewrite IH, (analysis_at_deterministic _ h) by exact Hdet.
  reflexivity.
Qed.

Lemma find_named_names (f : column -> column) cols :
  (forall c, col_name (f c) = col_name c) ->
  find_named (f <$> cols) = find_named cols.
Proof.
  intros Hf. induction cols as [|c cols IH]; [reflexivity|].
  cbn [fmap list_fmap find_named]. rewrite Hf, IH. reflexivity.
Qed.

Lemma find_column_iloc l a b df :
  find_column l (iloc a b df)
  = (fun c => Column (col_name c) (col_dtype c)
                (take (b - a) (drop a (col_values c)))) <$> find_column l df.
Proof.
  unfold find_column, iloc. cbn [columns].
  induction (columns df) as [|c cols IH]; [reflexivity|].
  cbn [fmap list_fmap List.find col_name].
  destruct (label_eqb (col_name c) l); [reflexivity | exact IH].
Qed.

Lemma analysed_texts_iloc (c : column) (a b : nat) :
  analysed_texts (Column (col_name c) (col_dtype c)
                    (take (b - a) (drop a (col_values c)))) (seq 0 (b - a))
  = analysed_texts c (seq a (b - a)).
Proof.
  unfold analysed_texts, feedback_texts. f_equal.
  replace (seq a (b - a)) with (Nat.add a <$> seq 0 (b - a))
    by (rewrite fmap_add_seq, Nat.add_0_r; reflexivity).
  rewrite <- list_fmap_compose.
  apply list_fmap_ext. intros j i Hi.
  apply lookup_seq in Hi as [-> Hi]. cbn.
  unfold cell_at. cbn [col_values].
  rewrite lookup_take_lt, lookup_drop by lia. reflexivity.
Qed.

(** The distributions of one call on a dataset whose feedback column is
    found by its name, for a deterministic model with known categories. *)
Lemma named_distributions cap df s c su sg fmt h feedback_column col :
  is_ok (model_init cap) = true ->
  deterministic cap ->
  (forall response_text a,
     parse_analysis cap response_text = Ok a -> category_of a ∈ known_categories) ->
  find_named (columns df) = Ok (Some feedback_column) ->
  find_column feedback_column df = Some col ->
  exists res h',
    process_feedback cap df s c su sg fmt h = (Ok res, h')
    /\ sentiment_distribution res
       = tally ((fun t => sentiment_of (analysis_at cap [] t))
                <$> analysed_texts col (seq 0 (nrows df))) ∅
    /\ category_distribution res
       = tally ((fun t => category_of (analysis_at cap [] t))
                <$> analysed_texts col (seq 0 (nrows df))) ∅.
Proof.
  intros Hinit Hdet Hknown Hnamed Hcol.
  assert (inferred_column df = Ok feedback_column) as Hinf
    by (unfold inferred_column; rewrite Hnamed; reflexivity).
  destruct (rows_loop_total cap df feedback_column col (seq 0 (nrows df)) Hcol
              (fun h0 t => analysis_at_known cap h0 t Hknown)
              (Locals
                 (set_column "key_points" (replicate (nrows df) (CList []))
                    (set_column "category" (replicate (nrows df) (CStr "other"))
                       (set_column "sentiment" (replicate (nrows df) (CStr "neutral"))
                          df)))
                 ∅ ∅ empty_category_data) h eq_refl) as (st & h1 & Hloop).
  assert (process_rows cap df h = (Ok st, h1)) as Hrows.
  { rewrite process_rows_eq, Hinf. destruct (model_init cap); [exact Hloop | discriminate]. }
  destruct (process_feedback_after_rows cap df s c su sg fmt h st h1 Hrows)
    as (summaries & suggestions & Heq & _).
  eexists _, _. split; [exact Heq|]. cbn [sentiment_distribution category_distribution].
  destruct (rows_loop_counts _ _ _ _ _ Hcol _ _ _ _ Hloop) as (_ & Hs & Hc & _).
  cbn [l_sentiment_distribution l_category_distribution] in Hs, Hc.
  rewrite analyses_deterministic, <- list_fmap_compose in Hs, Hc by exact Hdet.
  split; [exact Hs | exact Hc].
Qed.

Section Rechunking.
Variable cap : Capability.
Variables s c su sg : bool.
Variable fmt : string.
Variable df : DataFrame.
Variable feedback_column : label.
Variable col : column.

Hypothesis model_ready : is_ok (model_init cap) = true.
Hypothesis answers_repeat : deterministic cap.
Hypothesis categories_known :
  forall response_text a,
    parse_analysis cap response_text = Ok a -> category_of a ∈ known_categories.
Hypothesis named_column : find_named (columns df) = Ok (Some feedback_column).
Hypothesis column_found : find_column feedback_column df = Some col.

(** The distributions of one call on the rows [a] to [b - 1]. *)
Lemma chunk_distributions (a b : nat) (h : history) :
  a <= b <= nrows df ->
  exists res h',
    process_feedback cap (iloc a b df) s c su sg fmt h = (Ok res, h')
    /\ sentiment_distribution res = tally (sentiments_between cap col a b) ∅
    /\ category_distribution res = tally (categories_between cap col a b) ∅.
Proof.
  intros Hab.
  assert (nrows (iloc a b df) = b - a) as Hn by (cbn; lia).
  assert (find_named (columns (iloc a b df)) = Ok (Some feedback_column)) as Hnamed.
  { unfold iloc. cbn [columns]. rewrite find_named_names by reflexivity.
    exact named_column. }
  assert (find_column feedback_column (iloc a b df)
          = Some (Column (col_name col) (col_dtype col)
                    (take (b - a) (drop a (col_values col))))) as Hcol
    by (rewrite find_column_iloc, column_found; reflexivity).
  destruct (named_distributions cap (iloc a b df) s c su sg fmt h _ _
              model_ready answers_repeat categories_known Hnamed Hcol)
    as (res & h' & Hres & Hs & Hc).
  exists res, h'. split; [exact Hres|].
  rewrite Hn, analysed_texts_iloc in Hs, Hc. split; [exact Hs | exact Hc].
Qed.

Lemma between_app (f : string -> string) (a b : nat) :
  a <= b ->
  (f <$> analysed_texts col (seq 0 (a - 0))) ++ (f <$> analysed_texts col (seq a (b - a)))
  = f <$> analysed_texts col (seq 0 (b - 0)).
Proof.
  intros Hab. rewrite !Nat.sub_0_r, <- fmap_app, <- analysed_texts_app.
  replace (seq 0 b) with (seq 0 (a + (b - a))) by (f_equal; lia).
  rewrite seq_app. reflexivity.
Qed.

Lemma contiguous_le (start : nat) (ranges : list (nat * nat)) (stop : nat) :
  contiguous start ranges stop -> start <= stop.
Proof.
  revert start. induction ranges as [|[a b] ranges IH]; intros start; cbn.
  - intros ->. reflexivity.
  - intros (-> & Hab & Hrest). apply IH in Hrest. lia.
Qed.

(** The chunks after the first add their counts to the accumulated ones. *)
Lemma process_ranges_rest (ranges : list (nat * nat)) :
  forall start number st h acc,
    contiguous start ranges (nrows df) ->
    App.results_so_far st = Some acc ->
    sentiment_distribution acc = tally (sentiments_between cap col 0 start) ∅ ->
    category_distribution acc = tally (categories_between cap col 0 start) ∅ ->
    exists st' h' acc',
      App.process_ranges cap s c su sg fmt df false number ranges st h = (Ok st', h')
      /\ App.results_so_far st' = Some acc'
      /\ sentiment_distribution acc' = tally (sentiments_between cap col 0 (nrows df)) ∅
      /\ category_distribution acc' = tally (categories_between cap col 0 (nrows df)) ∅.
Proof.
  induction ranges as [|[a b] ranges IH]; intros start number st h acc Hcont Hacc Hs Hc.
  - cbn in Hcont. subst start. exists st, h, acc. repeat split; assumption.
  - cbn in Hcont. destruct Hcont as (Ha & Hab & Hrest). subst start.
    pose proof (contiguous_le _ _ _ Hrest) as Hb.
    destruct (chunk_distributions a b h (conj Hab Hb)) as (cr & h1 & Hcr & Hcs & Hcc).
    cbn [App.process_ranges]. unfold bind at 1.
    unfold App.process_range, try_except, bind. rewrite Hcr. unfold ret at 1.
    rewrite Hacc. cbn [fmap option_fmap option_map].
    eapply IH; [exact Hrest | reflexivity | |]; cbn.
    + rewrite Hs, Hcs, add_counts_tally, <- tally_app.
      unfold sentiments_between. rewrite between_app by exact Hab. reflexivity.
    + rewrite Hc, Hcc, add_counts_tally, <- tally_app.
      unfold categories_between. rewrite between_app by exact Hab. reflexivity.
Qed.

(** Re-chunking: over any contiguous split of the rows into at least one
    range, the merged sentiment and category distributions are those of the
    whole dataset processed at once, provided the feedback column is found
    by its name, the model is deterministic and its categories are known. *)
Lemma rechunk_invariant (ranges : list (nat * nat)) (h h0 : history) :
  ranges <> [] ->
  contiguous 0 ranges (nrows df) ->
  exists st h' merged whole h1,
    App.process_ranges cap s c su sg fmt df true 1 ranges
      (App.State None empty_frame []) h = (Ok st, h')
    /\ App.results_so_far st = Some merged
    /\ process_feedback cap df s c su sg fmt h0 = (Ok whole, h1)
    /\ sentiment_distribution merged = sentiment_distribution whole
    /\ category_distribution merged = category_distribution whole.
Proof.
  intros Hne Hcont. destruct ranges as [|[a b] ranges]; [congruence|].
  cbn in Hcont. destruct Hcont as (-> & Hab & Hrest).
  pose proof (contiguous_le _ _ _ Hrest) as Hb.
  destruct (chunk_distributions 0 b h (conj Hab Hb)) as (cr & h1 & Hcr & Hcs & Hcc).
  destruct (named_distributions cap df s c su sg fmt h0 _ _
              model_ready answers_repeat categories_known named_column column_found)
    as (whole & h2 & Hwhole & Hws & Hwc).
  destruct (process_ranges_rest ranges b 2
              (App.State (Some cr) (processed_data cr) []) h1 cr Hrest eq_refl Hcs Hcc)
    as (st' & h' & merged & Hrun & Hres & Hms & Hmc).
  exists st', h', merged, whole, h2.
  split.
  { cbn [App.process_ranges]. unfold bind at 1.
    unfold App.process_range, try_except, bind. rewrite Hcr. unfold ret at 1.
    exact Hrun. }
  split; [exact Hres|]. split; [exact Hwhole|].
  unfold sentiments_between, categories_between in Hms, Hmc.
  rewrite Nat.sub_0_r in Hms, Hmc. split; congruence.
Qed.

End Rechunking.

(** Ten rows processed as chunks of 4, 3 and 3 rows give the distributions
    of the ten rows processed at once, under the same assumptions. *)
Lemma rechunk_4_3_3 cap s c su sg fmt df feedback_column col h h0 :
  is_ok (model_init cap) = true ->
  deterministic cap ->
  (forall response_text a,
     parse_analysis cap response_text = Ok a -> category_of a ∈ known_categories) ->
  find_named (columns df) = Ok (Some feedback_column) ->
  find_column feedback_column df = Some col ->
  nrows df = 10 ->
  exists st h' merged whole h1,
    App.process_ranges cap s c su sg fmt df true 1 [(0, 4); (4, 7); (7, 10)]
      (App.State None empty_frame []) h = (Ok st, h')
    /\ App.results_so_far st = Some merged
    /\ process_feedback cap df s c su sg fmt h0 = (Ok whole, h1)
    /\ sentiment_distribution merged = sentiment_distribution whole
    /\ category_distribution merged = category_distribution whole.
Proof.
  intros Hinit Hdet Hknown Hnamed Hcol Hn.
  apply (rechunk_invariant cap s c su sg fmt df feedback_column col
           Hinit Hdet Hknown Hnamed Hcol); [discriminate|].
  rewrite Hn. cbn. repeat split; lia.
Qed.

(** *** The chunks of [app.py] *)

(** The loop of [analyze] is the accumulation over [chunk_ranges]. *)
Lemma chunk_loop_rest cap s c su sg fmt df size m :
  forall k st h,
    for_each (seq (S k) m) (App.process_chunk cap s c su sg fmt df size) st h
    = App.process_ranges cap s c su sg fmt df false (S k + 1)
        ((fun i => (i * size, Nat.min (i * size + size) (nrows df))) <$> seq (S k) m)
        st h.
Proof.
  induction m as [|m IH]; intros k st h; [reflexivity|].
  cbn [seq for_each fmap list_fmap App.process_ranges]. unfold bind.
  unfold App.process_chunk at 1. cbn [Nat.eqb].
  destruct (App.process_range _ _ _ _ _ _ _ _ _ _ _ _ _) as [[st'|e] h'];
    [|reflexivity].
  rewrite IH. replace (S (S k) + 1) with (S (S k + 1)) by lia. reflexivity.
Qed.

Lemma chunk_loop_ranges cap s c su sg fmt df size total st h :
  for_each (seq 0 total) (App.process_chunk cap s c su sg fmt df size) st h
  = App.process_ranges cap s c su sg fmt df true 1
      ((fun i => (i * size, Nat.min (i * size + size) (nrows df))) <$> seq 0 total)
      st h.
Proof.
  destruct total as [|m]; [reflexivity|].
  cbn [seq for_each fmap list_fmap App.process_ranges]. unfold bind.
  unfold App.process_chunk at 1. cbn [Nat.eqb Nat.add].
  destruct (App.process_range _ _ _ _ _ _ _ _ _ _ _ _ _) as [[st'|e] h'];
    [|reflexivity].
  apply chunk_loop_rest.
Qed.

(** The chunks follow one another from row 0 and stop at the row
    [total_chunks * chunk_size]. *)
Lemma ranges_contiguous (size n m : nat) :
  forall k,
    (k + m) * size <= n ->
    contiguous (k * size)
      ((fun i => (i * size, Nat.min (i * size + size) n)) <$> seq k m)
      ((k + m) * size).
Proof.
  induction m as [|m IH]; intros k Hle.
  - cbn. f_equal. lia.
  - cbn [seq fmap list_fmap contiguous].
    assert (Nat.min (k * size + size) n = S k * size) as -> by nia.
    split; [reflexivity|]. split; [nia|].
    replace (k + S m) with (S k + m) in * by lia. apply IH. exact Hle.
Qed.

Lemma chunk_ranges_cover (n : nat) :
  0 < n ->
  let covered := Nat.min 10 n * Nat.max 1 (n / Nat.min 10 n) in
  contiguous 0 (App.chunk_ranges n) covered
  /\ covered <= n
  /\ (covered = n <-> n <= 10 \/ n mod 10 = 0).
Proof.
  intros Hn. cbv zeta.
  assert (Nat.min 10 n * Nat.max 1 (n / Nat.min 10 n) <= n) as Hle.
  { destruct (Nat.le_gt_cases n 10) as [H|H].
    - rewrite Nat.min_r by exact H. rewrite Nat.div_same by lia. cbn. lia.
    - rewrite Nat.min_l by lia.
      pose proof (Nat.div_mod_eq n 10) as Hdm.
      assert (1 <= n / 10) by (apply Nat.div_le_lower_bound; lia).
      rewrite Nat.max_r by assumption. lia. }
  split; [|split; [exact Hle|]].
  - unfold App.chunk_ranges.
    apply (ranges_contiguous (Nat.max 1 (n / Nat.min 10 n)) n (Nat.min 10 n) 0).
    exact Hle.
  - destruct (Nat.le_gt_cases n 10) as [H|H].
    + rewrite Nat.min_r by exact H. rewrite Nat.div_same by lia. cbn. lia.
    + rewrite Nat.min_l by lia.
      pose proof (Nat.div_mod_eq n 10) as Hdm.
      assert (1 <= n / 10) by (apply Nat.div_le_lower_bound; lia).
      rewrite Nat.max_r by assumption. lia.
Qed.

(** When the number of rows is at most ten or a multiple of ten, the chunk
    loop of [analyze] gives the distributions of the whole dataset, under
    the assumptions of [rechunk_invariant]. *)
Lemma analyze_covering_chunks cap s c su sg fmt df feedback_column col h h0 :
  is_ok (model_init cap) = true ->
  deterministic cap ->
  (forall response_text a,
     parse_analysis cap response_text = Ok a -> category_of a ∈ known_categories) ->
  find_named (columns df) = Ok (Some feedback_column) ->
  find_column feedback_column df = Some col ->
  0 < nrows df ->
  nrows df <= 10 \/ nrows df mod 10 = 0 ->
  exists st h' merged whole h1,
    App.analyze cap s c su sg fmt df h = (Ok st, h')
    /\ App.results_so_far st = Some merged
    /\ process_feedback cap df s c su sg fmt h0 = (Ok whole, h1)
    /\ sentiment_distribution merged = sentiment_distribution whole
    /\ category_distribution merged = category_distribution whole.
Proof.
  intros Hinit Hdet Hknown Hnamed Hcol Hpos Hcover.
  destruct (chunk_ranges_cover (nrows df) Hpos) as (Hcont & _ & Hall).
  cbv zeta in Hcont, Hall. apply Hall in Hcover. rewrite Hcover in Hcont.
  destruct (rechunk_invariant cap s c su sg fmt df feedback_column col
              Hinit Hdet Hknown Hnamed Hcol (App.chunk_ranges (nrows df)) h h0)
    as (st & h' & merged & whole & h1 & Hrun & Hres & Hwhole & Hs & Hc).
  { unfold App.chunk_ranges. destruct (nrows df) as [|n]; [lia|].
    destruct n; discriminate. }
  { exact Hcont. }
  unfold App.analyze, bind.
  destruct (Nat.min 10 (nrows df) =? 0) eqn:E; [apply Nat.eqb_eq in E; lia|].
  unfold ret at 1. rewrite chunk_loop_ranges.
  unfold App.chunk_ranges in Hrun. rewrite Hrun.
  eexists _, _, _, whole, h1. split; [reflexivity|]. cbn [App.results_so_far].
  rewrite Hres. cbn [fmap option_fmap option_map].
  split; [reflexivity|]. split; [exact Hwhole|]. split; assumption.
Qed.

(** C2 fails in the chunk loop of [app.py]: of eleven rows it makes ten
    chunks of one row, the eleventh row is in no chunk, and the merged
    sentiment distribution counts ten rows where the whole dataset processed
    at once counts eleven. *)
Theorem C2_chunk_loop_drops_rows :
  App.chunk_ranges 11
  = [(0, 1); (1, 2); (2, 3); (3, 4); (4, 5); (5, 6); (6, 7); (7, 8); (8, 9); (9, 10)]
  /\ outcome_map sentiment_distribution
       (fst (process_feedback Examples.always_positive Examples.eleven_rows
               true true true true "text" []))
     = Ok {[ "positive" := 11 ]}
  /\ outcome_map (fun st => sentiment_distribution <$> App.results_so_far st)
       (fst (App.analyze Examples.always_positive true true true true "text"
               Examples.eleven_rows []))
     = Ok (Some {[ "positive" := 10 ]}).
Proof. repeat split; vm_compute; reflexivity. Qed.

(** The chunks also infer the feedback column each on its own rows: with no
    column named after the vocabulary, the two chunks of [two_rows] read
    different columns, and the merged distribution differs from that of the
    whole dataset. *)
Lemma chunks_infer_their_own_column :
  outcome_map sentiment_distribution
    (fst (process_feedback Examples.echo Examples.two_rows
            true true true true "text" []))
  = Ok {[ "negative" := 1; "positive" := 1 ]}
  /\ outcome_map (fun st => sentiment_distribution <$> App.results_so_far st)
       (fst (App.analyze Examples.echo true true true true "text"
               Examples.two_rows []))
     = Ok (Some {[ "negative" := 2 ]}).
Proof. repeat split; vm_compute; reflexivity. Qed.

(** * Further properties of the code *)

(** ** More on the ingestion normalizer *)

Lemma empty_false (df : DataFrame) :
  empty df = false <-> 0 < nrows df /\ columns df <> [].
Proof.
  unfold empty. rewrite orb_false_iff, !Nat.eqb_neq.
  destruct (columns df); cbn; split; intros [H1 H2]; split; try lia; congruence.
Qed.

(** X1: [parse_file] returns a dataset and a label for every file, every
    extension and every behaviour of the libraries: it never raises.  Unless
    the label is [csv-like text], the dataset has at least one row and one
    column. *)
Theorem parse_file_returns_dataset (lib : Library) (file_extension : string)
    (f : file) :
  exists df label f',
    parse_file lib file_extension f = (Ok (df, label), f')
    /\ (label = "csv-like text" \/ (0 < nrows df /\ columns df <> [])).
Proof.
  destruct (parse_file_never_raises lib file_extension f) as ([df label] & f' & H).
  exists df, label, f'. split; [exact H|].
  destruct (parse_file_shape lib file_extension _ _ _ H) as [Hl|He];
    [left; exact Hl | right; apply empty_false; exact He].
Qed.




(** *** CSV files *)

(** X3: what [parse_csv] makes of a file that has not been read yet.  The
    delimiter is the one sniffed in the first 1024 bytes, or a comma when
    sniffing fails.  The file is read up to three times: with the delimiter
    and [error_bad_lines=False]; if that raises, with the delimiter and
    [on_bad_lines='skip'], from the position where the first attempt left
    the file; if that raises too, from the start with the defaults.  The
    first frame that is read is the result, labelled [csv], a placeholder
    row standing in for a frame without rows or columns; the result is the
    placeholder labelled [csv with parsing error] exactly when the three
    attempts raise.  In every case the dataset has a row and a column. *)
Theorem parse_csv_attempts (lib : Library) (bytes : string) :
  let delimiter :=
    match sniff lib (decode lib (PyStr.take 1024 bytes)) with
    | Ok d => d
    | Raise _ => ","
    end in
  let no_data := "CSV parsing resulted in no data - please check file format" in
  let first := read_csv lib (Some delimiter) ErrorBadLinesFalse bytes in
  let left := Nat.min first.2 (String.length bytes) in
  let second := read_csv lib (Some delimiter) OnBadLinesSkip (PyStr.drop left bytes) in
  let third := read_csv lib None BadLinesDefault bytes in
  fst (parse_csv lib (fresh bytes))
  = Ok (match first.1, second.1, third.1 with
        | Ok df, _, _ => (or_placeholder no_data df, "csv")
        | Raise _, Ok df, _ => (or_placeholder no_data df, "csv")
        | Raise _, Raise _, Ok df => (or_placeholder no_data df, "csv")
        | Raise _, Raise _, Raise _ =>
            (feedback_frame ["Error in CSV parsing - this is a placeholder entry"],
             "csv with parsing error")
        end)
  /\ forall df label, fst (parse_csv lib (fresh bytes)) = Ok (df, label) ->
                      0 < nrows df /\ columns df <> [].
Proof.
  cbv zeta. split.
  - unfold parse_csv, try_except at 1, bind at 1, read, fresh. cbn [pos data].
    rewrite pystr_drop_0. unfold bind at 1, seek0. cbn [data].
    unfold bind at 1, try_except at 1, lift.
    destruct (sniff lib (decode lib (PyStr.take 1024 bytes))) as [d|e];
      unfold ret at 1;
      unfold bind, try_except, pd_read_csv, seek0, ret; cbn [pos data];
      rewrite ?pystr_drop_0;
      [ destruct (read_csv lib (Some d) ErrorBadLinesFalse bytes) as [[df1|e1] n1]
      | destruct (read_csv lib (Some ",") ErrorBadLinesFalse bytes) as [[df1|e1] n1] ];
      cbn [fst snd pos data Nat.add]; try reflexivity.
    + destruct (read_csv lib (Some d) OnBadLinesSkip _) as [[df2|e2] n2];
        cbn [fst snd pos data]; [reflexivity|].
      rewrite ?pystr_drop_0.
      destruct (read_csv lib None BadLinesDefault bytes) as [[df3|e3] n3]; reflexivity.
    + destruct (read_csv lib (Some ",") OnBadLinesSkip _) as [[df2|e2] n2];
        cbn [fst snd pos data]; [reflexivity|].
      rewrite ?pystr_drop_0.
      destruct (read_csv lib None BadLinesDefault bytes) as [[df3|e3] n3]; reflexivity.
  - intros df label H.
    destruct (parse_csv lib (fresh bytes)) as [[r|e] f'] eqn:E; [|discriminate H].
    cbn in H. inversion H; subst r. apply empty_false.
    exact (parse_csv_shape lib _ _ _ E).
Qed.

(** *** JSON files *)

Lemma frame_of_content_file (lib : Library) (content : pyobj) (f : file) :
  snd (frame_of_content lib content f) = f.
Proof.
  unfold frame_of_content, frame_of_dict, lift, ret.
  destruct content as [s|r|l|d]; try reflexivity.
  - destruct (forallb is_str l); reflexivity.
  - repeat match goal with
           | |- context [if ?b then _ else _] => destruct b
           | |- context [match ?x with _ => _ end] => destruct x
           end; reflexivity.
Qed.

Lemma parse_json_loaded (lib : Library) (bytes : string) (content : pyobj) :
  json_loads lib (decode lib bytes) = Ok content ->
  fst (parse_json lib (fresh bytes)) = Ok (json_result lib content bytes).
Proof.
  intros Hjson.
  unfold parse_json, json_result, json_labelled, try_except at 1, bind at 1.
  rewrite read_all_fresh.
  unfold bind at 1, seek0. cbn [data]. unfold bind at 1.
  unfold try_except_if, bind at 1, lift at 1. rewrite Hjson.
  unfold ret at 1. unfold bind. change (File bytes 0) with (fresh bytes).
  destruct (frame_of_content lib content (fresh bytes)) as [[df|e] f']; reflexivity.
Qed.

(** X4: a JSON file that holds a list of strings becomes a dataset with
    the single column [feedback] and one row per string, in order; the empty
    list becomes the placeholder row. *)
Theorem parse_json_list_of_strings (lib : Library) (bytes : string)
    (entries : list string) :
  json_loads lib (decode lib bytes) = Ok (PList (PStr <$> entries)) ->
  fst (parse_json lib (fresh bytes))
  = Ok (match entries with
        | [] => feedback_frame
                  ["JSON parsing resulted in no usable data - please check format"]
        | _ => feedback_frame entries
        end, "json").
Proof.
  intros Hjson. rewrite (parse_json_loaded _ _ _ Hjson). clear Hjson.
  unfold json_result, json_labelled, frame_of_content.
  assert (forallb is_str (PStr <$> entries) = true) as ->
    by (induction entries as [|x l IH]; [reflexivity | exact IH]).
  assert (py_str <$> (PStr <$> entries) = entries) as ->.
  { rewrite <- list_fmap_compose. induction entries as [|x l IH]; [reflexivity|].
    cbn. f_equal. exact IH. }
  destruct entries; reflexivity.
Qed.

Lemma parse_json_list_of_strings_witness :
  fst (parse_json (Examples.library_with empty_frame Examples.strings_json empty_frame)
         (fresh Examples.strings_bytes))
  = Ok (feedback_frame ["x"; "y"], "json").
Proof.
  apply (parse_json_list_of_strings
           (Examples.library_with empty_frame Examples.strings_json empty_frame)
           Examples.strings_bytes ["x"; "y"]).
  reflexivity.
Defined.

(** X5: a file that [json.loads] rejects.  After a [JSONDecodeError] the
    content is read as a Python literal and handled as the loaded content
    is; when that fails too, the dataset has one [feedback] row per line of
    the stripped content, blank lines included, and the label
    [json-like text].  After any other exception the result is the
    placeholder labelled [json with parsing error]. *)
Theorem parse_json_rejected (lib : Library) (bytes : string) (e : exc) :
  json_loads lib (decode lib bytes) = Raise e ->
  fst (parse_json lib (fresh bytes))
  = Ok (if is_JSONDecodeError e then
          match literal_eval lib (decode lib bytes) with
          | Ok content => json_result lib content bytes
          | Raise _ =>
              (feedback_frame (PyStr.split_nl (PyStr.strip (decode lib bytes))),
               "json-like text")
          end
        else (feedback_frame ["Error in JSON parsing - this is a placeholder entry"],
              "json with parsing error")).
Proof.
  intros Hjson.
  unfold parse_json, json_result, json_labelled, try_except at 1, bind at 1.
  rewrite read_all_fresh.
  unfold bind at 1, seek0. cbn [data]. unfold bind at 1.
  unfold try_except_if, bind at 1, lift at 1. rewrite Hjson.
  destruct (is_JSONDecodeError e); [|reflexivity].
  unfold try_except at 1, bind at 1, lift at 1.
  destruct (literal_eval lib (decode lib bytes)) as [content|e'].
  - unfold ret at 1. unfold bind. change (File bytes 0) with (fresh bytes).
    destruct (frame_of_content lib content (fresh bytes)) as [[df|e1] f']; reflexivity.
  - reflexivity.
Qed.

Lemma parse_json_rejected_witness :
  fst (parse_json Examples.rejecting (fresh Examples.three_lines_bytes))
  = Ok (feedback_frame ["good"; ""; "bad"], "json-like text").
Proof.
  apply (parse_json_rejected Examples.rejecting Examples.three_lines_bytes
           (Exc JSONDecodeError "Expecting value")).
  reflexivity.
Defined.

(** X6: the labels of [parse_json].  It never raises; its label is [json],
    [json-like text] or [json with parsing error], never [invalid json];
    and its dataset has a row and a column. *)
Theorem parse_json_labels (lib : Library) (f : file) :
  exists df label f',
    parse_json lib f = (Ok (df, label), f')
    /\ label ∈ ["json"; "json-like text"; "json with parsing error"]
    /\ 0 < nrows df /\ columns df <> [].
Proof.
  assert (returns (parse_json lib)
            (fun r => r.2 ∈ ["json"; "json-like text"; "json with parsing error"]))
    as Hlabel.
  { unfold parse_json. apply returns_try.
    - do 2 (eapply returns_bind; [apply returns_any | intros ? _]).
      eapply returns_bind with
        (Q := fun loaded => match loaded with
                            | inr early => early.2 = "json-like text"
                            | inl _ => True
                            end).
      + apply returns_try_if.
        * eapply returns_bind; [apply returns_any | intros ? _].
          apply returns_ret. exact I.
        * intros _. apply returns_try.
          -- eapply returns_bind; [apply returns_any | intros ? _].
             apply returns_ret. exact I.
          -- intros _. intros s0 r0 s1 H. unfold try_except, ret in H.
             inversion H; subst. reflexivity.
      + intros [content|early] Hl.
        * eapply returns_bind; [apply returns_any | intros ? _].
          apply returns_ret. set_solver.
        * apply returns_ret. rewrite Hl. set_solver.
    - intros e. apply returns_ret. set_solver. }
  assert (exists r f', parse_json lib f = (Ok r, f')) as ([df label] & f' & H)
    by (unfold parse_json; apply (try_except_total _ (fun _ => _))).
  exists df, label, f'. split; [exact H|]. split; [exact (Hlabel _ _ _ H)|].
  apply empty_false. exact (parse_json_shape lib _ _ _ H).
Qed.

(** X7: the list of a JSON object that becomes the dataset.  It is the
    list under the first of the keys [feedback], [reviews], [comments],
    [responses], [data] that maps to a list; when none of them does, it is
    the list longer than every other one, if it is not empty and its key is
    not the empty string; and an object that holds no list becomes a dataset
    of one row, made of the object itself. *)
Theorem parse_json_object (lib : Library) (bytes : string) (d : list (string * pyobj)) :
  json_loads lib (decode lib bytes) = Ok (PDict d) ->
  NoDup (fst <$> d) ->
  (forall pre key post l,
     feedback_related_keys = pre ++ key :: post ->
     Forall (fun k => forall l', dict_get d k <> Some (PList l')) pre ->
     dict_get d key = Some (PList l) ->
     fst (parse_json lib (fresh bytes)) = Ok (json_labelled (pd_DataFrame lib l)))
  /\ (Forall (fun k => forall l', dict_get d k <> Some (PList l')) feedback_related_keys ->
      forall key l,
        (key, PList l) ∈ d -> key <> "" -> l <> [] ->
        (forall key' l', (key', PList l') ∈ d -> key' <> key -> length l' < length l) ->
        fst (parse_json lib (fresh bytes)) = Ok (json_labelled (pd_DataFrame lib l)))
  /\ (Forall (fun kv => is_list kv.2 = false) d ->
      fst (parse_json lib (fresh bytes))
      = Ok (json_labelled (pd_DataFrame lib [PDict d]))).
Proof.
  intros Hjson Hnd. rewrite (parse_json_loaded _ _ _ Hjson).
  unfold json_result. cbn [frame_of_content].
  destruct (frame_of_dict_selection lib d (fresh bytes) Hnd) as [Hpref Hlong].
  split; [|split].
  - intros pre key post l Hkeys Hpre Hkey.
    rewrite (Hpref pre key post l Hkeys Hpre Hkey). reflexivity.
  - intros Hnone key l Hin Hkey Hl Hlen.
    rewrite (Hlong Hnone key l Hin Hkey Hl Hlen). reflexivity.
  - intros Hno. unfold frame_of_dict.
    assert (existsb (fun kv => is_list kv.2) d = false) as ->.
    { clear -Hno. induction Hno as [|kv d Hkv _ IH]; [reflexivity|].
      cbn. rewrite Hkv. exact IH. }
    reflexivity.
Qed.

Lemma parse_json_object_witness :
  fst (parse_json (Examples.library_with empty_frame Examples.reviews_json
                     Examples.unnamed_frame) (fresh Examples.reviews_bytes))
  = Ok (json_labelled (Ok Examples.unnamed_frame)).
Proof.
  assert (NoDup (fst <$> [("reviews", PList [PStr "x"; PStr "y"]);
                          ("other", PList [PStr "z"])])) as Hnd.
  { refine (bool_decide_unpack _ _). vm_compute. exact I. }
  destruct (parse_json_object
              (Examples.library_with empty_frame Examples.reviews_json
                 Examples.unnamed_frame)
              Examples.reviews_bytes
              [("reviews", PList [PStr "x"; PStr "y"]); ("other", PList [PStr "z"])]
              eq_refl Hnd) as [Hpref _].
  apply (Hpref ["feedback"] "reviews" ["comments"; "responses"; "data"]
               [PStr "x"; PStr "y"] eq_refl).
  - repeat constructor. intros l'. discriminate.
  - reflexivity.
Defined.

(** *** Text files *)

Lemma rstrip_idempotent (s : string) : PyStr.rstrip (PyStr.rstrip s) = PyStr.rstrip s.
Proof.
  induction s as [|c s IH]; [reflexivity|]. cbn [PyStr.rstrip].
  destruct (PyStr.rstrip s) as [|c' r] eqn:E.
  - destruct (PyStr.is_space c) eqn:Ec; [reflexivity|].
    cbn [PyStr.rstrip]. rewrite Ec. reflexivity.
  - cbn [PyStr.rstrip]. cbn [PyStr.rstrip] in IH.
    destruct (PyStr.rstrip r) as [|c'' r'] eqn:E'.
    + destruct (PyStr.is_space c'); [discriminate IH|]. rewrite IH. reflexivity.
    + rewrite IH. reflexivity.
Qed.

Lemma lstrip_clean (s : string) : starts_clean (PyStr.lstrip s).
Proof.
  induction s as [|c s IH]; [exact I|]. cbn [PyStr.lstrip].
  destruct (PyStr.is_space c) eqn:E; [exact IH | exact E].
Qed.

Lemma lstrip_of_clean (s : string) : starts_clean s -> PyStr.lstrip s = s.
Proof. destruct s as [|c s]; [reflexivity|]. cbn. intros ->. reflexivity. Qed.

Lemma rstrip_clean (s : string) : starts_clean s -> starts_clean (PyStr.rstrip s).
Proof.
  destruct s as [|c s]; [intros _; exact I|]. cbn [starts_clean PyStr.rstrip].
  intros Hc. destruct (PyStr.rstrip s); [rewrite Hc|]; exact Hc.
Qed.

Lemma strip_idempotent (s : string) : PyStr.strip (PyStr.strip s) = PyStr.strip s.
Proof.
  unfold PyStr.strip.
  rewrite (lstrip_of_clean (PyStr.rstrip (PyStr.lstrip s)))
    by (apply rstrip_clean, lstrip_clean).
  apply rstrip_idempotent.
Qed.

Lemma truthy_nonempty (s : string) : PyStr.truthy s = true <-> s <> "".
Proof. destruct s; cbn; split; congruence. Qed.

Lemma nonblank_lines_clean (content : string) :
  Forall clean_line (nonblank_lines content).
Proof.
  unfold nonblank_lines. apply Forall_fmap, Forall_forall.
  intros line Hin. apply list_elem_of_In, List.filter_In in Hin as [_ Hin].
  split; [apply truthy_nonempty; exact Hin | apply strip_idempotent].
Qed.

(** X8: the rows of a text file.  Whenever [parse_txt] labels its result
    [text], the dataset is the single column [feedback] over at least one
    line, and no line is empty or has white space at either end: blank
    lines are dropped and the others are stripped. *)
Theorem parse_txt_lines_clean (lib : Library) (f : file) (df : DataFrame) (f' : file) :
  parse_txt lib f = (Ok (df, "text"), f') ->
  exists lines,
    df = feedback_frame lines /\ lines <> [] /\ Forall clean_line lines.
Proof.
  assert (forall lines, Forall clean_line lines ->
            exists lines',
              (if negb (has_column "feedback" (feedback_frame lines))
                  || empty (feedback_frame lines)
               then feedback_frame
                      ["Sample feedback entry - please replace with actual data"]
               else feedback_frame lines) = feedback_frame lines'
              /\ lines' <> [] /\ Forall clean_line lines') as Hframe.
  { intros lines Hl. destruct lines as [|l ls].
    - exists ["Sample feedback entry - please replace with actual data"].
      split; [reflexivity|]. split; [discriminate|].
      constructor; [split; [discriminate | reflexivity] | constructor].
    - exists (l :: ls). split; [reflexivity|]. split; [discriminate | exact Hl]. }
  assert (returns (parse_txt lib)
            (fun r => r.2 = "text" ->
                      exists lines, r.1 = feedback_frame lines /\ lines <> []
                                    /\ Forall clean_line lines)) as Hret.
  { unfold parse_txt. apply returns_try.
    - eapply returns_bind; [apply returns_any | intros bytes _].
      eapply returns_bind with
        (Q := fun reparsed => match reparsed with
                              | inr early => early.2 = "csv-like text"
                              | inl lines => Forall clean_line lines
                              end).
      + destruct (looks_like_csv _).
        * eapply returns_bind; [apply returns_any | intros ? _].
          apply returns_try.
          -- eapply returns_bind; [apply returns_any | intros ? _].
             apply returns_ret. reflexivity.
          -- intros _. repeat (eapply returns_bind; [apply returns_any | intros ? _]).
             apply returns_ret. apply nonblank_lines_clean.
        * apply returns_ret.
          destruct (nonblank_lines (decode lib bytes)) eqn:E.
          -- constructor; [split; [discriminate | reflexivity] | constructor].
          -- rewrite <- E. apply nonblank_lines_clean.
      + intros [lines|early] Hr.
        * apply returns_ret. intros _. cbn [fst]. apply Hframe. exact Hr.
        * apply returns_ret. intros Ht. rewrite Ht in Hr. discriminate Hr.
    - intros e. apply returns_ret. intros Ht. discriminate Ht. }
  intros H. exact (Hret _ _ _ H eq_refl).
Qed.

Lemma parse_txt_lines_clean_witness :
  exists lines,
    feedback_frame ["good"; "bad"] = feedback_frame lines
    /\ lines <> [] /\ Forall clean_line lines.
Proof.
  apply (parse_txt_lines_clean
           (Examples.library_with empty_frame (PScalar "None") empty_frame)
           (fresh ("  good " +:+ PyStr.nl +:+ PyStr.nl +:+ "bad"))
           (feedback_frame ["good"; "bad"])
           (File ("  good " +:+ PyStr.nl +:+ PyStr.nl +:+ "bad") 12)).
  vm_compute. reflexivity.
Defined.

(** *** The preview of the uploaded data *)

Lemma pystr_take_length (n : nat) (s : string) :
  String.length (PyStr.take n s) = Nat.min n (String.length s).
Proof.
  revert s. induction n as [|n IH]; intros [|c s]; cbn; try reflexivity.
  rewrite IH. reflexivity.
Qed.

Lemma string_app_length (s t : string) :
  String.length (s +:+ t) = String.length s + String.length t.
Proof.
  induction s as [|c s IH]; [reflexivity|].
  change (String c s +:+ t) with (String c (s +:+ t)).
  cbn [String.length]. rewrite IH. reflexivity.
Qed.

Lemma count_le (n : nat) (c : column) : count n c <= n.
Proof.
  unfold count, padded.
  etransitivity; [apply List.filter_length_le|].
  rewrite length_fmap, length_seq. reflexivity.
Qed.

Lemma describe_column_eq (df : DataFrame) (col : label) (c : column)
    (column_info : list column_entry) (page : list shown) :
  find_column col df = Some c ->
  describe_column df col column_info page
  = (Ok (column_info ++ [entry_of df c]), page).
Proof.
  intros Hc. unfold describe_column, entry_of. rewrite Hc.
  rewrite (find_column_name _ _ _ Hc).
  unfold bind, iloc0, ret.
  destruct (nrows df) as [|n]; reflexivity.
Qed.

Lemma describe_columns (df : DataFrame) (cols : list label) :
  Forall (fun col => is_Some (find_column col df)) cols ->
  forall column_info page,
  exists entries,
    for_each cols (describe_column df) column_info page
    = (Ok (column_info ++ entries), page)
    /\ Forall2 (fun col entry =>
                  exists c, find_column col df = Some c /\ entry = entry_of df c)
         cols entries.
Proof.
  induction 1 as [|col cols [c Hc] _ IH]; intros column_info page.
  - exists []. rewrite app_nil_r. split; [reflexivity | constructor].
  - cbn [for_each]. unfold bind. rewrite (describe_column_eq _ _ _ _ _ Hc).
    destruct (IH (column_info ++ [entry_of df c]) page) as (entries & -> & Hall).
    exists (entry_of df c :: entries). rewrite <- app_assoc.
    split; [reflexivity|]. constructor; [eauto | exact Hall].
Qed.

Lemma entry_of_sample (df : DataFrame) (c : column) :
  String.length (ci_sample_value (entry_of df c)) <= 50.
Proof.
  unfold entry_of. cbn [ci_sample_value].
  set (s := if nrows df =? 0 then "" else str (cell_at c 0)).
  destruct (50 <? String.length s) eqn:E.
  - rewrite string_app_length, pystr_take_length.
    change (String.length "...") with 3. lia.
  - apply Nat.ltb_ge in E. exact E.
Qed.

(** X9: [display_sample_data] never raises, whatever the dataset with
    distinct labels, one without rows included.  It shows the format, the first rows (at most
    ten), and a table with one entry per column, in order.  In an entry the
    count of non-null values is at most the number of rows, and the sample
    value is the first value of the column when that has at most 50
    characters, and else its first 47 characters followed by three dots:
    it never has more than 50 characters.  For a dataset without rows the
    sample is empty and the null percentage is the integer 0. *)
Theorem display_sample_data_shows (df : DataFrame) (feedback_format : string)
    (page : list shown) :
  NoDup (labels df) ->
  exists entries,
    display_sample_data df feedback_format page
    = (Ok tt,
       page ++ [WriteFormat feedback_format;
                ShowFrame (iloc 0 (Nat.min 10 (nrows df)) df);
                WriteText "Column Information:";
                ShowTable entries])
    /\ nrows (iloc 0 (Nat.min 10 (nrows df)) df) <= 10
    /\ ci_column <$> entries = labels df
    /\ Forall (fun entry =>
                 entry.(ci_non_null_count).1 <= nrows df
                 /\ entry.(ci_non_null_count).2 = nrows df
                 /\ String.length entry.(ci_sample_value) <= 50
                 /\ (nrows df = 0 ->
                     entry.(ci_sample_value) = ""
                     /\ entry.(ci_null_percent) = NullPercentZero)
                 /\ exists c,
                      find_column entry.(ci_column) df = Some c
                      /\ entry.(ci_type) = dtype_name (col_dtype c)
                      /\ entry.(ci_non_null_count).1 = count (nrows df) c
                      /\ (0 < nrows df ->
                          entry.(ci_null_percent)
                          = NullPercent (count (nrows df) c) (nrows df)
                          /\ entry.(ci_sample_value)
                             = let s := str (cell_at c 0) in
                               if 50 <? String.length s
                               then PyStr.take 47 s +:+ "..." else s))
         entries.
Proof.
  intros _.
  destruct (describe_columns df (labels df)) with (column_info := @nil column_entry)
    (page := (page ++ [WriteFormat feedback_format]
              ++ [ShowFrame (iloc 0 (Nat.min 10 (nrows df)) df)])
             ++ [WriteText "Column Information:"])
    as (entries & Hrun & Hall).
  { apply Forall_forall. intros col Hcol. apply find_column_is_Some. exact Hcol. }
  exists entries. split; [|split; [|split]].
  - unfold display_sample_data, bind, show. cbv zeta.
    rewrite <- !app_assoc in Hrun |- *. cbn [app] in Hrun |- *.
    rewrite Hrun. cbn [app]. rewrite <- app_assoc. reflexivity.
  - unfold iloc. cbn [nrows]. lia.
  - clear Hrun. induction Hall as [|col entry cols entries (c & Hc & ->) _ IH];
      [reflexivity|].
    cbn [fmap list_fmap]. rewrite IH. unfold entry_of. cbn [ci_column].
    rewrite (find_column_name _ _ _ Hc). reflexivity.
  - clear Hrun. induction Hall as [|col entry cols entries (c & Hc & ->) _ IH];
      constructor; [|exact IH].
    split; [apply count_le|]. split; [reflexivity|].
    split; [apply entry_of_sample|]. split.
    + intros Hn. unfold entry_of. cbn [ci_sample_value ci_null_percent].
      rewrite Hn. split; reflexivity.
    + exists c. unfold entry_of at 1. cbn [ci_column].
      rewrite (find_column_name _ _ _ Hc). split; [exact Hc|].
      split; [reflexivity|]. split; [reflexivity|].
      intros Hn. unfold entry_of. cbn [ci_sample_value ci_null_percent].
      destruct (nrows df) as [|n]; [lia|]. split; reflexivity.
Qed.

Lemma display_sample_data_shows_witness :
  NoDup (labels (feedback_frame ["fine"; "late"]))
  /\ exists entries,
       display_sample_data (feedback_frame ["fine"; "late"]) "text" []
       = (Ok tt,
          [WriteFormat "text"; ShowFrame (feedback_frame ["fine"; "late"]);
           WriteText "Column Information:"; ShowTable entries])
       /\ ci_sample_value <$> entries = ["fine"].
Proof.
  assert (NoDup (labels (feedback_frame ["fine"; "late"]))) as Hlabels
    by apply NoDup_singleton.
  split; [exact Hlabels|].
  destruct (display_sample_data_shows (feedback_frame ["fine"; "late"]) "text" []
              Hlabels) as (entries & Hrun & _).
  exists entries. split; [exact Hrun|].
  vm_compute in Hrun. injection Hrun as <-. reflexivity.
Defined.

(** ** The page: loading and analysing *)

(** *** The extension of the uploaded file *)

Lemma split_on_nonempty (ch : ascii) (s : string) : PyStr.split_on ch s <> [].
Proof.
  induction s as [|c s IH]; cbn; [discriminate|].
  destruct (nat_of_ascii c =? nat_of_ascii ch); [discriminate|].
  destruct (PyStr.split_on ch s); discriminate.
Qed.

Lemma split_on_absent (ch : ascii) (s : string) :
  PyStr.contains ch s = false -> PyStr.split_on ch s = [s].
Proof.
  induction s as [|c s IH]; [reflexivity|]. cbn.
  destruct (nat_of_ascii c =? nat_of_ascii ch); [discriminate|].
  intros H. rewrite (IH H). reflexivity.
Qed.

Lemma last_split_on (ch : ascii) (stem rest : string) :
  List.last (PyStr.split_on ch (stem +:+ String ch rest)) ""
  = List.last (PyStr.split_on ch rest) "".
Proof.
  induction stem as [|c stem IH].
  - change ("" +:+ String ch rest) with (String ch rest).
    cbn [PyStr.split_on]. rewrite Nat.eqb_refl.
    destruct (PyStr.split_on ch rest) eqn:E; [|reflexivity].
    exfalso. exact (split_on_nonempty _ _ E).
  - change (String c stem +:+ String ch rest) with (String c (stem +:+ String ch rest)).
    cbn [PyStr.split_on].
    destruct (PyStr.split_on ch (stem +:+ String ch rest)) as [|h t] eqn:E;
      [exfalso; exact (split_on_nonempty _ _ E)|].
    destruct (PyStr.split_on ch rest) as [|h' t'] eqn:E';
      [exfalso; exact (split_on_nonempty _ _ E')|].
    destruct (nat_of_ascii c =? nat_of_ascii ch).
    + rewrite <- IH. reflexivity.
    + rewrite <- IH. destruct t; [|reflexivity].
      (* the only piece cannot be: a separator occurs *)
      exfalso. clear IH E'.
      assert (forall s, 2 <= length (PyStr.split_on ch (s +:+ String ch rest))) as Hlen.
      { clear. intros s. induction s as [|c s IH].
        - change ("" +:+ String ch rest) with (String ch rest).
          cbn [PyStr.split_on]. rewrite Nat.eqb_refl. cbn [length].
          destruct (PyStr.split_on ch rest) eqn:E;
            [exfalso; exact (split_on_nonempty _ _ E) | cbn; lia].
        - change (String c s +:+ String ch rest) with (String c (s +:+ String ch rest)).
          cbn [PyStr.split_on].
          destruct (nat_of_ascii c =? nat_of_ascii ch); [cbn [length]; lia|].
          destruct (PyStr.split_on ch (s +:+ String ch rest)); cbn in *; lia. }
      specialize (Hlen stem). rewrite E in Hlen. cbn in Hlen. lia.
Qed.

(** X10: the extension of a file name is what follows its last dot, in
    lower case; a name without a dot is its own extension. *)
Theorem file_extension_after_last_dot (stem ext : string) :
  PyStr.contains PyStr.dot ext = false ->
  App.file_extension (stem +:+ "." +:+ ext) = PyStr.lower ext
  /\ App.file_extension ext = PyStr.lower ext.
Proof.
  intros Hext. unfold App.file_extension.
  change ("." +:+ ext) with (String PyStr.dot ext).
  rewrite last_split_on, (split_on_absent _ _ Hext). split; reflexivity.
Qed.

Lemma file_extension_after_last_dot_witness :
  App.file_extension ("trip.reviews" +:+ "." +:+ "CSV") = PyStr.lower "CSV"
  /\ App.file_extension "CSV" = PyStr.lower "CSV".
Proof. apply (file_extension_after_last_dot "trip.reviews" "CSV"). reflexivity. Defined.

(** *** The dataset that is analysed *)

(** X11: whatever the file, its name and the behaviour of the libraries,
    loading returns a dataset with at least one row and one column: the
    dataset of [parse_file], or, when that has no row or no column (as the
    CSV reparse of a text file can give), the sample entry labelled
    [empty file].  The number of chunks of the analysis is therefore never
    zero. *)
Theorem load_dataset_not_empty (lib : Library) (name : string) (f : file) :
  exists parsed_df parsed_format df feedback_format f',
    parse_file lib (App.file_extension name) f = (Ok (parsed_df, parsed_format), f')
    /\ App.load lib name f = (Ok (df, feedback_format), f')
    /\ (df, feedback_format)
       = (if empty parsed_df
          then (feedback_frame
                  ["Sample feedback entry for demonstration - please upload valid data"],
                "empty file")
          else (parsed_df, parsed_format))
    /\ 0 < nrows df /\ columns df <> []
    /\ 0 < Nat.min 10 (nrows df).
Proof.
  destruct (parse_file_never_raises lib (App.file_extension name) f)
    as ([parsed_df parsed_format] & f' & H).
  unfold App.load, bind. rewrite H.
  destruct (empty parsed_df) eqn:E.
  - eexists _, _, _, _, _. split; [reflexivity|]. split; [reflexivity|].
    rewrite E. split; [reflexivity|]. cbn. repeat split; [lia | discriminate | lia].
  - eexists _, _, _, _, _. split; [reflexivity|]. split; [reflexivity|].
    rewrite E. split; [reflexivity|]. apply empty_false in E as [Hn Hc].
    repeat split; [exact Hn | exact Hc | lia].
Qed.

(** *** The chunk loop *)

Section ChunkLoop.
Variable cap : Capability.
Variables s c su sg : bool.
Variable fmt : string.
Variable df : DataFrame.

(** A chunk never ends the loop: its exception is recorded. *)
Lemma process_range_outcome (first : bool) (number start_idx end_idx : nat)
    (st : App.state) (h : history) :
  exists h',
    App.process_range cap s c su sg fmt df first number start_idx end_idx st h
    = (Ok (match fst (process_feedback cap (iloc start_idx end_idx df)
                        s c su sg fmt h) with
           | Ok chunk_results =>
               if first
               then App.State (Some chunk_results) (processed_data chunk_results)
                      (App.error_messages st)
               else App.State
                      ((fun acc => App.accumulate acc chunk_results)
                       <$> App.results_so_far st)
                      (concat (App.processed_df st) (processed_data chunk_results))
                      (App.error_messages st)
           | Raise chunk_error =>
               App.State (App.results_so_far st) (App.processed_df st)
                 (App.error_messages st ++ [(number, exc_msg chunk_error)])
           end), h').
Proof.
  unfold App.process_range, try_except, bind.
  destruct (process_feedback cap (iloc start_idx end_idx df) s c su sg fmt h)
    as [[chunk_results|e] h1]; cbn [fst].
  - destruct first; eexists; reflexivity.
  - eexists; reflexivity.
Qed.

(** The chunks after the first: the loop ends, the messages are those of
    the chunks that raised, and [results] without the maps stays without
    them. *)
Lemma process_ranges_rest_outcome (ranges : list (nat * nat)) :
  forall number st h,
  exists st' h' new,
    App.process_ranges cap s c su sg fmt df false number ranges st h = (Ok st', h')
    /\ App.error_messages st' = App.error_messages st ++ new
    /\ length new <= length ranges
    /\ Forall (fun m => number <= m.1 < number + length ranges) new
    /\ (App.results_so_far st = None <-> App.results_so_far st' = None).
Proof.
  induction ranges as [|[a b] ranges IH]; intros number st h.
  - exists st, h, []. rewrite app_nil_r. cbn. repeat split; auto.
  - cbn [App.process_ranges]. unfold bind.
    destruct (process_range_outcome false number a b st h) as [h1 ->].
    match goal with |- context [App.process_ranges _ _ _ _ _ _ _ _ _ _ ?st1 _] =>
      destruct (IH (S number) st1 h1) as (st' & h' & new & -> & Herr & Hlen & Hnum & Hres)
    end.
    destruct (fst (process_feedback cap (iloc a b df) s c su sg fmt h))
      as [chunk_results|e]; cbn [App.error_messages App.results_so_far] in Herr, Hres.
    + exists st', h', new. split; [reflexivity|]. split; [exact Herr|].
      split; [cbn; lia|]. split.
      * eapply Forall_impl; [exact Hnum|]. cbn. intros m Hm. lia.
      * rewrite <- Hres. destruct (App.results_so_far st); cbn; split; congruence.
    + exists st', h', ((number, exc_msg e) :: new).
      split; [reflexivity|]. split; [rewrite Herr, <- app_assoc; reflexivity|].
      split; [cbn; lia|]. split; [|exact Hres].
      constructor; [cbn; lia|].
      eapply Forall_impl; [exact Hnum|]. cbn. intros m Hm. lia.
Qed.

End ChunkLoop.


(** X13: the first chunk decides whether the page has results.  When
    [process_feedback] raises on the first chunk, [results] never gets the
    four maps, whatever the later chunks return: the first message is that
    of chunk 1 and [generate_pdf_report] raises [KeyError] where it first
    reads [results].  When the first chunk is processed, the maps are there for
    the report. *)
Theorem first_chunk_decides_results (cap : Capability) (s c su sg : bool)
    (fmt : string) (df : DataFrame) (h : history) :
  0 < nrows df ->
  let chunk_size := Nat.max 1 (nrows df / Nat.min 10 (nrows df)) in
  let first_chunk := iloc 0 (Nat.min chunk_size (nrows df)) df in
  exists st h',
    App.analyze cap s c su sg fmt df h = (Ok st, h')
    /\ match fst (process_feedback cap first_chunk s c su sg fmt h) with
       | Ok _ =>
           is_Some (App.results_so_far st) /\ is_ok (App.report_total st) = true
       | Raise e =>
           App.results_so_far st = None
           /\ head (App.error_messages st) = Some (1, exc_msg e)
           /\ App.report_total st = Raise (Exc KeyError "'sentiment_distribution'")
       end.
Proof.
  intros Hn. cbv zeta. unfold App.analyze, bind.
  destruct (Nat.min 10 (nrows df) =? 0) eqn:E; [apply Nat.eqb_eq in E; lia|].
  unfold ret at 1. rewrite chunk_loop_ranges.
  destruct (Nat.min 10 (nrows df)) as [|m] eqn:Em; [discriminate E|].
  cbn [seq fmap list_fmap App.process_ranges]. unfold bind.
  change (0 * Nat.max 1 (nrows df / S m)) with 0. cbn [Nat.add].
  destruct (process_range_outcome cap s c su sg fmt df true 1 0
              (Nat.min (Nat.max 1 (nrows df / S m)) (nrows df))
              (App.State None empty_frame []) h) as [h1 ->].
  match goal with |- context [App.process_ranges _ _ _ _ _ _ _ _ _ ?rs ?st1 _] =>
    destruct (process_ranges_rest_outcome cap s c su sg fmt df rs 2 st1 h1)
      as (st' & h' & new & -> & Herr & _ & _ & Hres)
  end.
  eexists _, _. split; [reflexivity|]. unfold App.report_total.
  cbn [App.results_so_far App.error_messages].
  destruct (fst (process_feedback cap _ s c su sg fmt h)) as [r|e];
    cbn [App.results_so_far App.error_messages] in Herr, Hres.
  - destruct (App.results_so_far st') as [r'|] eqn:Er.
    + cbn. split; [eauto | reflexivity].
    + exfalso. pose proof (proj2 Hres eq_refl) as Hno. discriminate Hno.
  - rewrite (proj1 Hres eq_refl). cbn. rewrite Herr. repeat split.
Qed.

Lemma first_chunk_decides_results_witness :
  exists st h',
    App.analyze Examples.weather true true true true "text" Examples.rain_first []
    = (Ok st, h')
    /\ App.results_so_far st = None
    /\ App.report_total st = Raise (Exc KeyError "'sentiment_distribution'").
Proof.
  destruct (first_chunk_decides_results Examples.weather true true true true "text"
              Examples.rain_first []) as (st & h' & Hrun & Hfirst).
  - vm_compute. lia.
  - exists st, h'. split; [exact Hrun|].
    change (match Raise (Exc KeyError "weather") : outcome results with
            | Ok _ =>
                is_Some (App.results_so_far st) /\ is_ok (App.report_total st) = true
            | Raise e =>
                App.results_so_far st = None
                /\ head (App.error_messages st) = Some (1, exc_msg e)
                /\ App.report_total st = Raise (Exc KeyError "'sentiment_distribution'")
            end) in Hfirst.
    destruct Hfirst as (Hres & _ & Hreport). split; assumption.
Defined.

(** *** The rows that the chunks cover *)

Lemma covered_rows_eq (n : nat) :
  0 < n -> Nat.min 10 n * Nat.max 1 (n / Nat.min 10 n) = covered_rows n.
Proof.
  intros Hn. unfold covered_rows. destruct (Nat.leb_spec n 10) as [H|H].
  - rewrite Nat.min_r by exact H. rewrite Nat.div_same by lia. cbn. lia.
  - rewrite Nat.min_l by lia.
    pose proof (Nat.div_mod_eq n 10) as Hdm.
    assert (1 <= n / 10) by (apply Nat.div_le_lower_bound; lia).
    rewrite Nat.max_r by assumption. lia.
Qed.

Lemma chunk_ranges_contiguous (n : nat) :
  0 < n -> contiguous 0 (App.chunk_ranges n) (covered_rows n).
Proof.
  intros Hn. destruct (chunk_ranges_cover n Hn) as (Hcont & _ & _).
  cbv zeta in Hcont. rewrite (covered_rows_eq n Hn) in Hcont. exact Hcont.
Qed.

(** X14: the rows that reach [process_feedback].  The loop over the
    chunks is the accumulation over the row ranges [chunk_ranges]; these
    follow one another from row 0 without gap or overlap, and end at row
    [n] when there are at most ten rows and at row [n - n mod 10] when
    there are more: the last [n mod 10] rows are in no chunk. *)
Theorem chunk_loop_rows (cap : Capability) (s c su sg : bool) (fmt : string)
    (df : DataFrame) (st : App.state) (h : history) :
  0 < nrows df ->
  let n := nrows df in
  for_each (seq 0 (Nat.min 10 n))
    (App.process_chunk cap s c su sg fmt df (Nat.max 1 (n / Nat.min 10 n))) st h
  = App.process_ranges cap s c su sg fmt df true 1 (App.chunk_ranges n) st h
  /\ length (App.chunk_ranges n) = Nat.min 10 n
  /\ contiguous 0 (App.chunk_ranges n) (covered_rows n)
  /\ covered_rows n <= n
  /\ n - covered_rows n = (if n <=? 10 then 0 else n mod 10).
Proof.
  intros Hn. cbv zeta. split; [apply chunk_loop_ranges|].
  split; [unfold App.chunk_ranges; rewrite length_fmap, length_seq; reflexivity|].
  split; [apply chunk_ranges_contiguous; exact Hn|].
  unfold covered_rows. pose proof (Nat.Div0.mod_le (nrows df) 10).
  destruct (nrows df <=? 10); split; lia.
Qed.

Lemma chunk_loop_rows_witness :
  contiguous 0 (App.chunk_ranges 25) 20 /\ 25 - covered_rows 25 = 5.
Proof.
  destruct (chunk_loop_rows Examples.always_positive true true true true "text"
              (MkFrame 25 []) (App.State None empty_frame []) [])
    as (_ & _ & Hcont & _ & Hleft).
  - cbn. lia.
  - split; [exact Hcont | exact Hleft].
Defined.

(** *** The distributions that the chunks give *)






(** *** The annotated dataset that the chunks give *)


Section ChunkRows.
Variable cap : Capability.
Variables s c su sg : bool.
Variable fmt : string.
Variable df : DataFrame.
Variable feedback_column : label.
Variable col : column.

Hypothesis model_ready : is_ok (model_init cap) = true.
Hypothesis answers_repeat : deterministic cap.
Hypothesis categories_known :
  forall response_text a,
    parse_analysis cap response_text = Ok a -> category_of a ∈ known_categories.
Hypothesis named_column : find_named (columns df) = Ok (Some feedback_column).
Hypothesis column_found : find_column feedback_column df = Some col.


End ChunkRows.



(** ** More on the aggregation engine *)

(** *** The order of column inference *)

(** X16: for a dataset whose labels are strings, [process_feedback] picks
    the feedback column without a request to the model, in this order: the
    first column whose name, in lower case, is in the vocabulary; else the
    first string-typed column whose first non-null value is a string of more
    than ten characters; else the first column.  It raises [ValueError]
    exactly when the dataset has no column. *)
Theorem column_inference_order (df : DataFrame) (h : history) :
  string_labels df ->
  snd (infer_feedback_column df h) = h
  /\ (forall pre c post,
        columns df = pre ++ c :: post ->
        Forall (fun c' => ~ vocabulary_name c') pre -> vocabulary_name c ->
        fst (infer_feedback_column df h) = Ok (col_name c))
  /\ (Forall (fun c' => ~ vocabulary_name c') (columns df) ->
      forall pre c post,
        columns df = pre ++ c :: post ->
        Forall (fun c' => ~ long_text_column c') pre -> long_text_column c ->
        fst (infer_feedback_column df h) = Ok (col_name c))
  /\ (Forall (fun c' => ~ vocabulary_name c') (columns df) ->
      Forall (fun c' => ~ long_text_column c') (columns df) ->
      forall c rest,
        columns df = c :: rest -> fst (infer_feedback_column df h) = Ok (col_name c))
  /\ (columns df = [] <->
      fst (infer_feedback_column df h)
      = Raise (Exc ValueError
                 "Could not identify a suitable feedback column in the data")).
Proof.
  intros Hlabels. rewrite infer_feedback_column_eq. cbn [fst snd].
  destruct (infer_feedback_column_priority df Hlabels) as (H1 & H2 & H3 & H4).
  split; [reflexivity|]. split; [exact H1|]. split; [exact H2|]. split; [exact H3|].
  split.
  - intros Hnil. unfold inferred_column. rewrite Hnil. reflexivity.
  - intros Hr. apply H4. rewrite Hr. reflexivity.
Qed.

Lemma column_inference_order_witness :
  fst (infer_feedback_column Examples.two_rows []) = Ok (LStr "b").
Proof.
  assert (string_labels Examples.two_rows) as Hlabels
    by (repeat constructor; eexists; reflexivity).
  destruct (column_inference_order Examples.two_rows [] Hlabels)
    as (_ & _ & Hrule2 & _).
  apply (Hrule2 ltac:(repeat constructor; intros (s & Hs & Hin);
                      inversion Hs; subst; vm_compute in Hin;
                      repeat (apply elem_of_cons in Hin as [Hin|Hin];
                              [discriminate Hin|]);
                      apply elem_of_nil in Hin; exact Hin)
           [Column (LStr "a") DObject [CStr "short"; CStr "a rather long remark"]]
           (Column (LStr "b") DObject [CStr "this one is long too"; CStr "fine"])
           [] eq_refl).
  - repeat constructor. intros (_ & pre & s & post & Hv & Hpre & Hlen).
    cbn in Hv. destruct pre as [|p pre]; cbn in Hv.
    + inversion Hv; subst. cbn in Hlen. lia.
    + inversion Hv; subst. inversion Hpre; subst. discriminate.
  - split; [reflexivity|].
    exists [], "this one is long too", [CStr "fine"].
    split; [reflexivity|]. split; [constructor | cbn; lia].
Defined.

(** *** The totals of the distributions *)

Lemma sum_values_perm (l k : list (string * nat)) :
  l ≡ₚ k -> ReportGenerator.sum_values l = ReportGenerator.sum_values k.
Proof.
  unfold ReportGenerator.sum_values.
  induction 1 as [|x l k _ IH|x y l|l k m _ IH1 _ IH2]; cbn in *; lia.
Qed.

Lemma sum_values_incr (k : string) (m : gmap string nat) :
  ReportGenerator.sum_values (map_to_list (incr k m))
  = S (ReportGenerator.sum_values (map_to_list m)).
Proof.
  unfold incr. destruct (m !! k) as [v|] eqn:E; cbn [default].
  - rewrite <- insert_delete_eq.
    rewrite (sum_values_perm _ _ (map_to_list_insert _ _ _ (lookup_delete_eq m k))).
    rewrite <- (sum_values_perm _ _ (map_to_list_delete _ _ _ E)).
    unfold ReportGenerator.sum_values. cbn. lia.
  - rewrite (sum_values_perm _ _ (map_to_list_insert _ _ _ E)).
    unfold ReportGenerator.sum_values. cbn. lia.
Qed.

Lemma sum_values_tally (keys : list string) (m : gmap string nat) :
  ReportGenerator.sum_values (map_to_list (tally keys m))
  = ReportGenerator.sum_values (map_to_list m) + length keys.
Proof.
  revert m. induction keys as [|k keys IH]; intros m; cbn [length]; [unfold tally; cbn; lia|].
  unfold tally in *. cbn [fold_left]. rewrite IH, sum_values_incr. lia.
Qed.

Lemma tally_positive (keys : list string) (k : string) (n : nat) :
  tally keys ∅ !! k = Some n -> 1 <= n.
Proof.
  rewrite tally_lookup. cbv zeta. rewrite lookup_empty.
  destruct (length (List.filter (String.eqb k) keys)) as [|m]; cbn; [discriminate|].
  intros H. inversion H. lia.
Qed.

Lemma analysed_texts_length (c : column) (idxs : list nat) :
  length (analysed_texts c idxs) <= length idxs.
Proof.
  unfold analysed_texts, feedback_texts.
  etransitivity; [apply List.filter_length_le|]. rewrite length_fmap. reflexivity.
Qed.

Lemma analyses_length cap h texts : length (analyses cap h texts) = length texts.
Proof.
  revert h. induction texts as [|t texts IH]; intros h; [reflexivity|].
  cbn. rewrite IH. reflexivity.
Qed.

Lemma distributions_positive (cap : Capability) (df : DataFrame)
    (s c su sg : bool) (fmt : string) (h : history) (res : results) (h' : history) :
  process_feedback cap df s c su sg fmt h = (Ok res, h') ->
  (forall k n, sentiment_distribution res !! k = Some n -> 1 <= n)
  /\ (forall k n, category_distribution res !! k = Some n -> 1 <= n).
Proof.
  intros H.
  apply process_feedback_inv in H as (st & h1 & Hrows & Hsd & Hcd & _ & _).
  destruct (process_rows_inv _ _ _ _ _ Hrows) as (fc & col & Hfc & Hcol & Hloop).
  destruct (rows_loop_counts _ _ _ _ _ Hcol _ _ _ _ Hloop) as (_ & Hs & Hc & _).
  cbn [l_sentiment_distribution l_category_distribution] in Hs, Hc.
  rewrite Hsd, Hcd, Hs, Hc.
  split; intros k n Hk; eapply tally_positive; exact Hk.
Qed.

(** X17: the two distributions of a run count the same feedbacks.  The
    counts of the sentiment distribution add up to the number of rows that
    were analysed (those whose feedback is not blank), and so do the counts
    of the category distribution; no count is zero. *)
Theorem distributions_count_analysed_rows (cap : Capability) (df : DataFrame)
    (s c su sg : bool) (fmt : string) (h : history) (res : results) (h' : history) :
  process_feedback cap df s c su sg fmt h = (Ok res, h') ->
  exists feedback_column col,
    inferred_column df = Ok feedback_column
    /\ find_column feedback_column df = Some col
    /\ let analysed := length (analysed_texts col (seq 0 (nrows df))) in
       ReportGenerator.sum_values (map_to_list (sentiment_distribution res)) = analysed
       /\ ReportGenerator.sum_values (map_to_list (category_distribution res)) = analysed
       /\ analysed <= nrows df
       /\ (forall k n, sentiment_distribution res !! k = Some n -> 1 <= n)
       /\ (forall k n, category_distribution res !! k = Some n -> 1 <= n).
Proof.
  intros H.
  apply process_feedback_inv in H as (st & h1 & Hrows & Hsd & Hcd & _ & _).
  destruct (process_rows_inv _ _ _ _ _ Hrows) as (fc & col & Hfc & Hcol & Hloop).
  exists fc, col. split; [exact Hfc|]. split; [exact Hcol|]. cbv zeta.
  destruct (rows_loop_counts _ _ _ _ _ Hcol _ _ _ _ Hloop) as (_ & Hs & Hc & _).
  cbn [l_sentiment_distribution l_category_distribution] in Hs, Hc.
  rewrite Hsd, Hcd, Hs, Hc, !sum_values_tally, !length_fmap, !analyses_length.
  rewrite map_to_list_empty. unfold ReportGenerator.sum_values. cbn [fmap list_fmap sum_list].
  split; [lia|]. split; [lia|].
  split; [etransitivity; [apply analysed_texts_length | rewrite length_seq; reflexivity]|].
  split; intros k n Hk; eapply tally_positive; exact Hk.
Qed.

Lemma distributions_count_analysed_rows_witness :
  exists res h',
    process_feedback Examples.always_positive Examples.with_blank_rows
      true true false false "text" [] = (Ok res, h')
    /\ ReportGenerator.sum_values (map_to_list (sentiment_distribution res)) = 1
    /\ ReportGenerator.sum_values (map_to_list (category_distribution res)) = 1.
Proof.
  destruct (process_feedback Examples.always_positive Examples.with_blank_rows
              true true false false "text" []) as [[res|e] h'] eqn:E;
    [|vm_compute in E; discriminate E].
  exists res, h'. split; [reflexivity|].
  destruct (distributions_count_analysed_rows _ _ _ _ _ _ _ _ _ _ E)
    as (fc & col & Hfc & Hcol & Hs & Hc & _).
  vm_compute in Hfc. inversion Hfc; subst fc.
  vm_compute in Hcol. inversion Hcol; subst col.
  split; [exact Hs | exact Hc].
Defined.

(** *** The requests of a run *)

Lemma rows_loop_keys cap df fc c idxs :
  find_column fc df = Some c ->
  forall st h st' h',
    for_each idxs (process_row cap df fc) st h = (Ok st', h') ->
    fst <$> l_category_data st' = fst <$> l_category_data st.
Proof.
  intros Hc st h st' h' H.
  apply (for_each_invariant
           (fun acc => fst <$> l_category_data acc = fst <$> l_category_data st) _ _)
    in H; [exact H | | reflexivity].
  intros x acc t acc' t' _ Hbody Hacc.
  rewrite (process_row_eq _ _ _ _ _ _ _ Hc) in Hbody. cbv zeta in Hbody.
  destruct (is_blank _); [inversion Hbody; subst; exact Hacc|].
  destruct (dict_append _ _ _) as [cd|] eqn:Hd; [|discriminate Hbody].
  inversion Hbody; subst. cbn [l_category_data].
  rewrite (dict_append_keys _ _ _ _ Hd). exact Hacc.
Qed.

Lemma nonempty_buckets_length (cd : list (string * list string)) :
  length (nonempty_buckets cd) <= length cd.
Proof. apply List.filter_length_le. Qed.

(** X18: the requests of one call of [process_feedback], whether it returns
    or raises.  The history is only extended, and by at most one request per
    row, seven for the summaries when they are asked for and seven for the
    suggestions when they are asked for. *)
Theorem request_budget (cap : Capability) (df : DataFrame)
    (s c su sg : bool) (fmt : string) (h : history)
    (o : outcome results) (h' : history) :
  process_feedback cap df s c su sg fmt h = (o, h') ->
  exists asked,
    h' = h ++ asked
    /\ length asked
       <= nrows df + (if su then 7 else 0) + (if sg then 7 else 0).
Proof.
  intros H.
  destruct (process_rows cap df h) as [[st|e] h1] eqn:Hrows.
  - destruct (process_feedback_after_rows cap df s c su sg fmt h st h1 Hrows)
      as (summaries & suggestions & Heq & _).
    rewrite Heq in H. inversion H; subst o h'; clear H Heq.
    destruct (process_rows_inv _ _ _ _ _ Hrows) as (fc & col & Hfc & Hcol & Hloop).
    destruct (rows_loop_counts _ _ _ _ _ Hcol _ _ _ _ Hloop) as (Hh1 & _).
    pose proof (rows_loop_keys _ _ _ _ _ Hcol _ _ _ _ Hloop) as Hkeys.
    cbn [l_category_data] in Hkeys.
    assert (length (nonempty_buckets (l_category_data st)) <= 7) as Hb.
    { etransitivity; [apply nonempty_buckets_length|].
      rewrite <- (length_fmap fst), Hkeys. reflexivity. }
    pose proof (analysed_texts_length col (seq 0 (nrows df))) as Ha.
    rewrite length_seq in Ha.
    eexists. rewrite Hh1, <- !app_assoc. split; [reflexivity|].
    rewrite !length_app, length_fmap.
    destruct su, sg; cbn [length]; rewrite ?length_fmap; lia.
  - rewrite (process_feedback_raises _ _ _ _ _ _ _ _ _ _ Hrows) in H.
    inversion H; subst o h'; clear H.
    rewrite process_rows_eq in Hrows.
    destruct (model_init cap);
      [|inversion Hrows; subst; exists []; rewrite app_nil_r; split; [reflexivity | cbn; lia]].
    destruct (inferred_column df) as [fc|e0] eqn:Hfc;
      [|inversion Hrows; subst; exists []; rewrite app_nil_r; split; [reflexivity | cbn; lia]].
    destruct (inferred_column_found _ _ Hfc) as [col Hcol].
    destruct (rows_loop_requests _ _ _ _ _ Hcol _ _ _ _ Hrows) as [k Hk].
    eexists. split; [exact Hk|].
    pose proof (analysed_texts_length col (seq 0 (nrows df))) as Ha.
    rewrite length_seq in Ha.
    rewrite length_fmap, length_take. destruct su, sg; lia.
Qed.

Lemma request_budget_witness :
  exists asked,
    snd (process_feedback Examples.always_positive Examples.with_blank_rows
           true true true true "text" []) = [] ++ asked
    /\ length asked <= 3 + 7 + 7.
Proof.
  apply (request_budget Examples.always_positive Examples.with_blank_rows
           true true true true "text" []
           (fst (process_feedback Examples.always_positive Examples.with_blank_rows
                   true true true true "text" []))).
  destruct (process_feedback _ _ _ _ _ _ _ _); reflexivity.
Defined.

(** *** A category without a buffer *)





(** *** Missing values *)

(** X20: a missing value is not skipped.  The text of a null cell is
    [None] or [nan], which is not blank: in a run that returns, a request is
    made for such a row, and its sentiment is that of this text. *)
Theorem missing_values_are_analysed (cap : Capability) (df : DataFrame)
    (s c su sg : bool) (fmt : string) (h : history) (res : results) (h' : history) :
  process_feedback cap df s c su sg fmt h = (Ok res, h') ->
  exists feedback_column col,
    inferred_column df = Ok feedback_column
    /\ find_column feedback_column df = Some col
    /\ forall i,
         i < nrows df ->
         is_null (cell_at col i) = true ->
         let feedback_text := str (cell_at col i) in
         let asked_before := AnalyzePrompt <$> analysed_texts col (seq 0 i) in
         (feedback_text = "None" \/ feedback_text = "nan")
         /\ (exists asked_after,
               h' = h ++ asked_before ++ AnalyzePrompt feedback_text :: asked_after)
         /\ get_cell (processed_data res) "sentiment" i
            = Some (CStr (sentiment_of
                            (analysis_at cap (h ++ asked_before) feedback_text))).
Proof.
  intros H.
  apply process_feedback_inv in H as (st & h1 & Hrows & _ & _ & Hpd & Hh').
  destruct (process_rows_inv _ _ _ _ _ Hrows) as (fc & col & Hfc & Hcol & Hloop).
  exists fc, col. split; [exact Hfc|]. split; [exact Hcol|].
  intros i Hi Hnull. cbv zeta.
  assert (is_blank (str (cell_at col i)) = false) as Hblank
    by (destruct (cell_at col i); try discriminate Hnull; reflexivity).
  split; [destruct (cell_at col i); try discriminate Hnull; [left | right]; reflexivity|].
  split.
  - destruct (rows_loop_counts _ _ _ _ _ Hcol _ _ _ _ Hloop) as (Hh1 & _).
    rewrite (seq_split_at _ _ Hi), analysed_texts_app, analysed_texts_cons, Hblank in Hh1.
    rewrite Hh', Hh1, fmap_app, fmap_cons, <- !app_assoc. cbn [app].
    eexists. reflexivity.
  - rewrite Hpd. rewrite (seq_split_at _ _ Hi) in Hloop.
    destruct (initial_cells df i Hi) as (Hs0 & Hc0 & Hk0).
    pose proof (rows_loop_written cap df fc col (seq 0 i) i (seq (S i) (nrows df - S i))
                  Hcol) as Hw.
    specialize (Hw ltac:(rewrite elem_of_seq; lia) ltac:(rewrite elem_of_seq; lia)
                   Hblank _ _ _ _ Hloop).
    cbn [l_processed_df] in Hw.
    specialize (Hw ltac:(rewrite Hs0; eauto) ltac:(rewrite Hc0; eauto)
                   ltac:(rewrite Hk0; eauto)).
    cbv zeta in Hw. apply Hw.
Qed.

Lemma missing_values_are_analysed_witness :
  exists res h',
    process_feedback Examples.always_positive Examples.with_missing
      true true false false "text" [] = (Ok res, h')
    /\ (exists asked_after,
          h' = [] ++ [AnalyzePrompt "great trip"] ++ AnalyzePrompt "nan" :: asked_after)
    /\ get_cell (processed_data res) "sentiment" 1 = Some (CStr "positive").
Proof.
  destruct (process_feedback Examples.always_positive Examples.with_missing
              true true false false "text" []) as [[res|e] h'] eqn:E;
    [|vm_compute in E; discriminate E].
  exists res, h'. split; [reflexivity|].
  destruct (missing_values_are_analysed _ _ _ _ _ _ _ _ _ _ E)
    as (fc & col & Hfc & Hcol & Hrows).
  vm_compute in Hfc. inversion Hfc; subst fc.
  vm_compute in Hcol. inversion Hcol; subst col.
  destruct (Hrows 1 ltac:(vm_compute; lia) eq_refl) as (_ & Hasked & Hcell).
  split; [exact Hasked | exact Hcell].
Defined.

(** *** The columns of the input *)

Lemma find_column_set_at_other (l : label) idx name v df :
  l <> LStr name -> find_column l (set_at idx name v df) = find_column l df.
Proof.
  intros Hne. rewrite find_column_set_at.
  destruct (find_column l df) as [c0|] eqn:E; [|reflexivity].
  cbn. rewrite (find_column_name _ _ _ E).
  destruct (label_eqb l (LStr name)) eqn:El; [|reflexivity].
  apply label_eqb_eq in El. contradiction.
Qed.

Lemma find_column_set_column_other (l : label) name vals df :
  l <> LStr name -> find_column l (set_column name vals df) = find_column l df.
Proof.
  intros Hne. unfold set_column. rewrite find_column_assign. cbn [col_name].
  destruct (label_eqb (LStr name) l) eqn:El.
  - apply label_eqb_eq in El. congruence.
  - destruct df; reflexivity.
Qed.

(** X21: the input columns are kept.  Whatever the names of the columns
    of the dataset, every column of the annotated dataset other than
    [sentiment], [category] and [key_points] is the column of the input,
    with its type and all its values. *)
Theorem input_columns_kept (cap : Capability) (df : DataFrame)
    (s c su sg : bool) (fmt : string) (h : history) (res : results) (h' : history)
    (l : label) :
  process_feedback cap df s c su sg fmt h = (Ok res, h') ->
  l <> LStr "sentiment" -> l <> LStr "category" -> l <> LStr "key_points" ->
  find_column l (processed_data res) = find_column l df.
Proof.
  intros H Hs Hc Hk.
  apply process_feedback_inv in H as (st & h1 & Hrows & _ & _ & Hpd & _).
  destruct (process_rows_inv _ _ _ _ _ Hrows) as (fc & col & Hfc & Hcol & Hloop).
  rewrite Hpd.
  apply (for_each_invariant
           (fun acc => find_column l (l_processed_df acc) = find_column l df) _ _)
    in Hloop; [exact Hloop | |].
  - intros x acc t acc' t' _ Hbody Hacc.
    rewrite (process_row_eq _ _ _ _ _ _ _ Hcol) in Hbody. cbv zeta in Hbody.
    destruct (is_blank _); [inversion Hbody; subst; exact Hacc|].
    destruct (dict_append _ _ _); [|discriminate Hbody].
    inversion Hbody; subst. cbn [l_processed_df].
    rewrite !find_column_set_at_other by assumption. exact Hacc.
  - cbn [l_processed_df]. rewrite !find_column_set_column_other by assumption.
    reflexivity.
Qed.

Lemma input_columns_kept_witness :
  outcome_map (fun res => find_column (LStr "feedback") (processed_data res))
    (fst (process_feedback Examples.always_positive Examples.with_sentiment
            true true true true "text" []))
  = Ok (Some (Column (LStr "feedback") DObject [CStr "great trip"])).
Proof.
  destruct (process_feedback Examples.always_positive Examples.with_sentiment
              true true true true "text" []) as [[res|e] h'] eqn:E;
    [|vm_compute in E; discriminate E].
  cbn [fst outcome_map].
  rewrite (input_columns_kept _ _ _ _ _ _ _ _ _ _ (LStr "feedback") E);
    [reflexivity | discriminate | discriminate | discriminate].
Defined.

(** ** The JSON text in an answer of the model *)

Lemma json_patterns_inv (pattern : Re.regex) (opening closing : ascii) :
  (pattern, opening, closing) ∈ json_patterns ->
  pattern = json_pattern (String opening "") (String closing "")
  /\ nat_of_ascii opening <> 96.
Proof.
  unfold json_patterns. intros H.
  apply elem_of_cons in H as [H|H]; [inversion H; subst; split; [reflexivity | discriminate]|].
  apply elem_of_cons in H as [H|H]; [inversion H; subst; split; [reflexivity | discriminate]|].
  apply elem_of_nil in H. destruct H.
Qed.

Lemma string_app_assoc (a b c : string) : (a +:+ b) +:+ c = a +:+ (b +:+ c).
Proof.
  induction a as [|x a IH]; [reflexivity|].
  change (String x ((a +:+ b) +:+ c) = String x (a +:+ (b +:+ c))). rewrite IH. reflexivity.
Qed.

Lemma string_app_cons (x : ascii) (a b : string) :
  String x a +:+ b = String x (a +:+ b).
Proof. reflexivity. Qed.

Lemma strip_prefix_app (p s : string) : Re.strip_prefix p (p +:+ s) = Some s.
Proof.
  induction p as [|a p IH]; [destruct s; reflexivity|].
  rewrite string_app_cons. cbn [Re.strip_prefix]. rewrite Nat.eqb_refl. exact IH.
Qed.

Lemma strip_prefix_other (a : ascii) (p : string) (b : ascii) (s : string) :
  nat_of_ascii b <> nat_of_ascii a -> Re.strip_prefix (String a p) (String b s) = None.
Proof.
  intros Hne. cbn [Re.strip_prefix].
  destruct (Nat.eqb_spec (nat_of_ascii a) (nat_of_ascii b)); [congruence | reflexivity].
Qed.

Lemma contains_cons (ch c : ascii) (s : string) :
  PyStr.contains ch (String c s) = false ->
  nat_of_ascii c <> nat_of_ascii ch /\ PyStr.contains ch s = false.
Proof.
  cbn [PyStr.contains]. intros H. apply orb_false_iff in H as [H1 H2].
  apply Nat.eqb_neq in H1. split; assumption.
Qed.

Lemma pystr_take_app (a b : string) : PyStr.take (String.length a) (a +:+ b) = a.
Proof.
  induction a as [|x a IH]; [destruct b; reflexivity|].
  rewrite string_app_cons. cbn [String.length PyStr.take]. rewrite IH. reflexivity.
Qed.

Lemma consumed_app (a b : string) : Re.consumed (a +:+ b) b = a.
Proof.
  unfold Re.consumed. rewrite string_app_length.
  replace (String.length a + String.length b - String.length b) with (String.length a)
    by lia.
  apply pystr_take_app.
Qed.

Section Matches.
Context {R : Type}.
Implicit Types (s : string) (g : Re.groups) (k : string -> Re.groups -> option R).

Lemma matches_lit p s g k :
  Re.matches (Re.Lit p) s g k
  = match Re.strip_prefix p s with Some s' => k s' g | None => None end.
Proof. reflexivity. Qed.

Lemma matches_seq r1 r2 s g k :
  Re.matches (Re.Seq r1 r2) s g k
  = Re.matches r1 s g (fun s' g' => Re.matches r2 s' g' k).
Proof. reflexivity. Qed.

Lemma matches_group n r s g k :
  Re.matches (Re.Group n r) s g k
  = Re.matches r s g (fun s' g' => k s' ((n, Re.consumed s s') :: g')).
Proof. reflexivity. Qed.

Lemma matches_alt r1 r2 s g k :
  Re.matches (Re.Alt r1 r2) s g k
  = match Re.matches r1 s g k with
    | Some x => Some x
    | None => Re.matches r2 s g k
    end.
Proof. reflexivity. Qed.

Lemma matches_lazy_cons c s g k :
  Re.matches Re.LazyDots (String c s) g k
  = match k (String c s) g with
    | Some x => Some x
    | None => Re.matches Re.LazyDots s g k
    end.
Proof. reflexivity. Qed.

Lemma matches_greedy_cons c s g k :
  Re.matches Re.GreedyDots (String c s) g k
  = match Re.matches Re.GreedyDots s g k with
    | Some x => Some x
    | None => k (String c s) g
    end.
Proof. reflexivity. Qed.

End Matches.

(** No alternative of a pattern matches where the text starts with a
    character that is neither a backquote nor the opening character. *)
Lemma json_pattern_no_match {R} (opening closing : ascii) (c : ascii) (s : string)
    (g : Re.groups) (k : string -> Re.groups -> option R) :
  nat_of_ascii c <> 96 -> nat_of_ascii c <> nat_of_ascii opening ->
  Re.matches (json_pattern (String opening "") (String closing "")) (String c s) g k
  = None.
Proof.
  intros Hq Ho. unfold json_pattern. cbn [Re.matches].
  change (nat_of_ascii c <> nat_of_ascii backquote) in Hq.
  change ("```json" +:+ PyStr.nl) with (String backquote ("``json" +:+ PyStr.nl)).
  change "```" with (String backquote "``").
  rewrite !(strip_prefix_other backquote _ c s Hq).
  rewrite (strip_prefix_other opening _ c s Ho). reflexivity.
Qed.

Lemma json_pattern_no_match_empty {R} (opening closing : ascii)
    (g : Re.groups) (k : string -> Re.groups -> option R) :
  Re.matches (json_pattern (String opening "") (String closing "")) "" g k = None.
Proof. reflexivity. Qed.

(** The search passes over a text without backquote and without opening
    character. *)
Lemma search_skip (opening closing : ascii) (pre rest : string) :
  PyStr.contains backquote pre = false ->
  PyStr.contains opening pre = false ->
  Re.search (json_pattern (String opening "") (String closing "")) (pre +:+ rest)
  = Re.search (json_pattern (String opening "") (String closing "")) rest.
Proof.
  induction pre as [|c pre IH]; intros Hq Ho; [destruct rest; reflexivity|].
  apply contains_cons in Hq as [Hq Hq'], Ho as [Ho Ho'].
  rewrite string_app_cons. cbn [Re.search].
  rewrite json_pattern_no_match by assumption. apply IH; assumption.
Qed.

Lemma matches_lazy {R} (body rest : string) (g : Re.groups)
    (k : string -> Re.groups -> option R) :
  (forall b1 c b2, body = b1 +:+ String c b2 -> k (String c b2 +:+ rest) g = None) ->
  Re.matches Re.LazyDots (body +:+ rest) g k = Re.matches Re.LazyDots rest g k.
Proof.
  induction body as [|c body IH]; intros Hk; [destruct rest; reflexivity|].
  rewrite string_app_cons, matches_lazy_cons.
  pose proof (Hk "" c body eq_refl) as H0. rewrite string_app_cons in H0. rewrite H0.
  apply IH. intros b1 c' b2 Hb. apply (Hk (String c b1) c' b2). rewrite Hb. reflexivity.
Qed.

Lemma matches_lazy_here {R} (c : ascii) (s : string) (g : Re.groups)
    (k : string -> Re.groups -> option R) (x : R) :
  k (String c s) g = Some x -> Re.matches Re.LazyDots (String c s) g k = Some x.
Proof. intros H. rewrite matches_lazy_cons, H. reflexivity. Qed.

Lemma matches_greedy_none {R} (post : string) (g : Re.groups)
    (k : string -> Re.groups -> option R) :
  (forall p1 p2, post = p1 +:+ p2 -> k p2 g = None) ->
  Re.matches Re.GreedyDots post g k = None.
Proof.
  induction post as [|c post IH]; intros Hk.
  - cbn [Re.matches]. apply (Hk "" ""). reflexivity.
  - rewrite matches_greedy_cons.
    rewrite IH by (intros p1 p2 Hp; apply (Hk (String c p1) p2); rewrite Hp; reflexivity).
    apply (Hk "" (String c post)). reflexivity.
Qed.

Lemma matches_greedy {R} (mid : string) (c : ascii) (post : string) (g : Re.groups)
    (k : string -> Re.groups -> option R) (x : R) :
  (forall p1 p2, post = p1 +:+ p2 -> k p2 g = None) ->
  k (String c post) g = Some x ->
  Re.matches Re.GreedyDots (mid +:+ String c post) g k = Some x.
Proof.
  intros Hk Hx. induction mid as [|m mid IH].
  - change ("" +:+ String c post) with (String c post).
    rewrite matches_greedy_cons, (matches_greedy_none post g k Hk). exact Hx.
  - rewrite string_app_cons, matches_greedy_cons, IH. reflexivity.
Qed.

Lemma search_here (r : Re.regex) (s : string) (g : Re.groups) :
  Re.matches r s [] (fun _ g => Some g) = Some g -> Re.search r s = Some g.
Proof. intros H. destruct s; cbn [Re.search]; rewrite H; reflexivity. Qed.

Lemma strip_prefix_app_both (p q s : string) :
  Re.strip_prefix (p +:+ q) (p +:+ s) = Re.strip_prefix q s.
Proof.
  induction p as [|a p IH]; [destruct q, s; reflexivity|].
  rewrite !string_app_cons. cbn [Re.strip_prefix]. rewrite Nat.eqb_refl. exact IH.
Qed.

Lemma strip_prefix_through (p body rest : string) :
  Re.strip_prefix p body = None ->
  (forall q1 c q2, p = q1 +:+ String c q2 -> Re.strip_prefix (String c q2) rest = None) ->
  Re.strip_prefix p (body +:+ rest) = None.
Proof.
  revert body. induction p as [|a p IH]; intros body Hb Hrest; [destruct body; discriminate Hb|].
  destruct body as [|b body].
  - change ("" +:+ rest) with rest. apply (Hrest "" a p). reflexivity.
  - rewrite string_app_cons. cbn [Re.strip_prefix] in Hb |- *.
    destruct (nat_of_ascii a =? nat_of_ascii b); [|reflexivity].
    apply IH; [exact Hb|]. intros q1 c q2 Hq. apply (Hrest (String a q1) c q2).
    rewrite Hq. reflexivity.
Qed.

(** The end of a fence does not start inside a text without backquote that
    is followed by the end of the fence. *)
Lemma no_fence_end_inside (c : ascii) (b rest : string) :
  PyStr.contains backquote (String c b) = false ->
  Re.strip_prefix (PyStr.nl +:+ "```") (String c b +:+ ((PyStr.nl +:+ "```") +:+ rest))
  = None.
Proof.
  intros H. apply contains_cons in H as [Hc Hb].
  rewrite string_app_cons.
  change ((PyStr.nl +:+ "```") +:+ rest) with (String (ascii_of_nat 10) ("```" +:+ rest)).
  change (PyStr.nl +:+ "```") with (String (ascii_of_nat 10) "```").
  cbn [Re.strip_prefix].
  destruct (nat_of_ascii (ascii_of_nat 10) =? nat_of_ascii c); [|reflexivity].
  destruct b as [|c' b].
  - reflexivity.
  - apply contains_cons in Hb as [Hc' _]. rewrite string_app_cons.
    match goal with
    | |- (if ?x =? ?y then _ else _) = None =>
        destruct (Nat.eqb_spec x y) as [E|E]; [|reflexivity]
    end.
    exfalso. apply Hc'. symmetry. exact E.
Qed.

Lemma no_plain_fence_inside (c : ascii) (b rest : string) :
  PyStr.contains backquote (String c b) = false ->
  Re.strip_prefix "```" (String c b +:+ rest) = None.
Proof.
  intros H. apply contains_cons in H as [Hc _].
  rewrite string_app_cons. apply strip_prefix_other. exact Hc.
Qed.

Lemma contains_suffix (ch : ascii) (b1 b2 : string) :
  PyStr.contains ch (b1 +:+ b2) = false -> PyStr.contains ch b2 = false.
Proof.
  induction b1 as [|c b1 IH]; [destruct b2; intros H; exact H|].
  rewrite string_app_cons. intros H. apply contains_cons in H as [_ H]. exact (IH H).
Qed.

(** X22: an answer that holds its JSON in a code block.  When the text
    before the first fence has no backquote and no opening character, and
    the block, opened by three backquotes, [json] and a line feed and closed
    by a line feed and three backquotes, holds no backquote, the text handed
    to [json.loads] is the content of the block, whatever follows it; when
    the block is empty, [json.loads] is handed [None] and raises
    [TypeError].  The same holds for a block opened by three backquotes
    alone, with the content up to the next three backquotes, when the
    content does not start with [json] and a line feed. *)
Theorem json_in_code_block (pattern : Re.regex) (opening closing : ascii)
    (pre body post : string) (json_loads : string -> outcome pyobj) :
  (pattern, opening, closing) ∈ json_patterns ->
  PyStr.contains backquote pre = false ->
  PyStr.contains opening pre = false ->
  PyStr.contains backquote body = false ->
  let unwrapped := if PyStr.truthy body then Some body else None in
  json_argument pattern
    (pre +:+ "```json" +:+ PyStr.nl +:+ body +:+ PyStr.nl +:+ "```" +:+ post)
  = unwrapped
  /\ (Re.strip_prefix ("json" +:+ PyStr.nl) body = None ->
      json_argument pattern (pre +:+ "```" +:+ body +:+ "```" +:+ post) = unwrapped)
  /\ parse_response pattern json_loads
       (pre +:+ "```json" +:+ PyStr.nl +:+ body +:+ PyStr.nl +:+ "```" +:+ post)
     = match body with
       | EmptyString =>
           Raise (Exc TypeError
                    "the JSON object must be str, bytes or bytearray, not NoneType")
       | _ => json_loads body
       end.
Proof.
  intros Hp Hpre_q Hpre_o Hbody. cbv zeta.
  apply json_patterns_inv in Hp as [-> Ho].
  assert (json_argument (json_pattern (String opening "") (String closing ""))
            (pre +:+ "```json" +:+ PyStr.nl +:+ body +:+ PyStr.nl +:+ "```" +:+ post)
          = if PyStr.truthy body then Some body else None) as Hfirst.
  { unfold json_argument. rewrite search_skip by assumption.
    rewrite (search_here _ _ [(1, body)]); [destruct body; reflexivity|].
    unfold json_pattern. rewrite matches_alt, matches_seq, matches_lit.
    change ("```json" +:+ PyStr.nl +:+ body +:+ PyStr.nl +:+ "```" +:+ post)
      with (("```json" +:+ PyStr.nl) +:+ (body +:+ PyStr.nl +:+ "```" +:+ post)).
    rewrite strip_prefix_app, matches_seq, matches_group.
    change (body +:+ PyStr.nl +:+ "```" +:+ post)
      with (body +:+ ((PyStr.nl +:+ "```") +:+ post)).
    rewrite matches_lazy.
    - change ((PyStr.nl +:+ "```") +:+ post)
        with (String (ascii_of_nat 10) ("```" +:+ post)) at 1.
      erewrite matches_lazy_here; [reflexivity|].
      rewrite matches_lit.
      change (String (ascii_of_nat 10) ("```" +:+ post))
        with ((PyStr.nl +:+ "```") +:+ post).
      rewrite strip_prefix_app, consumed_app. reflexivity.
    - intros b1 c b2 Hb. rewrite matches_lit.
      rewrite (no_fence_end_inside c b2 post); [reflexivity|].
      rewrite Hb in Hbody. exact (contains_suffix _ _ _ Hbody). }
  split; [exact Hfirst|]. split.
  - intros Hnotjson. unfold json_argument. rewrite search_skip by assumption.
    rewrite (search_here _ _ [(2, body)]); [destruct body; reflexivity|].
    unfold json_pattern. rewrite matches_alt, matches_seq, matches_lit.
    assert (Re.strip_prefix ("```json" +:+ PyStr.nl) ("```" +:+ body +:+ "```" +:+ post)
            = None) as ->.
    { change ("```json" +:+ PyStr.nl) with ("```" +:+ ("json" +:+ PyStr.nl)).
      change ("```" +:+ body +:+ "```" +:+ post)
        with ("```" +:+ (body +:+ String backquote ("``" +:+ post))).
      rewrite strip_prefix_app_both.
      apply strip_prefix_through; [exact Hnotjson|].
      intros q1 c q2 Hq. apply strip_prefix_other.
      change ("json" +:+ PyStr.nl) with (String "j" (String "s" (String "o" (String "n"
                (String (ascii_of_nat 10) "")))))%char in Hq.
      destruct q1 as [|x1 [|x2 [|x3 [|x4 [|x5 q1]]]]];
        cbn [String.append] in Hq; inversion Hq; subst; try discriminate.
      destruct q1; discriminate. }
    rewrite matches_alt, matches_seq, matches_lit.
    change ("```" +:+ body +:+ "```" +:+ post)
      with ("```" +:+ (body +:+ "```" +:+ post)).
    rewrite strip_prefix_app, matches_seq, matches_group, matches_lazy.
    + change ("```" +:+ post) with (String backquote ("``" +:+ post)) at 1.
      erewrite matches_lazy_here; [reflexivity|].
      rewrite matches_lit.
      change (String backquote ("``" +:+ post)) with ("```" +:+ post).
      rewrite strip_prefix_app, consumed_app. reflexivity.
    + intros b1 c b2 Hb. rewrite matches_lit.
      rewrite (no_plain_fence_inside c b2); [reflexivity|].
      rewrite Hb in Hbody. exact (contains_suffix _ _ _ Hbody).
  - unfold parse_response. rewrite Hfirst. destruct body; reflexivity.
Qed.

Lemma json_in_code_block_witness :
  json_argument json_object_pattern
    ("Here it is: " +:+ "```json" +:+ PyStr.nl +:+ "{}" +:+ PyStr.nl +:+ "```" +:+ " Done.")
  = Some "{}".
Proof.
  assert ((json_object_pattern, ascii_of_nat 123, ascii_of_nat 125) ∈ json_patterns)
    as Hp by (apply elem_of_cons; left; reflexivity).
  exact (proj1 (json_in_code_block json_object_pattern (ascii_of_nat 123)
                  (ascii_of_nat 125) "Here it is: " "{}" " Done."
                  (fun _ => Ok (PDict [])) Hp eq_refl eq_refl eq_refl)).
Defined.

(** X23: an answer that holds its JSON bare.  When the text before the
    first opening character ([{] for an analysis, [[] for suggestions) has
    neither backquote nor opening character, and the text after some closing
    character has no closing character, the text handed to [json.loads] runs
    from that first opening character to that last closing character,
    whatever lies between them: two objects in one answer are handed over as
    one text.  An answer with neither backquote nor opening character is
    handed over whole. *)
Theorem json_without_code_block (pattern : Re.regex) (opening closing : ascii)
    (pre mid post : string) :
  (pattern, opening, closing) ∈ json_patterns ->
  PyStr.contains backquote pre = false ->
  PyStr.contains opening pre = false ->
  PyStr.contains closing post = false ->
  json_argument pattern (pre +:+ String opening mid +:+ String closing post)
  = Some (String opening mid +:+ String closing "")
  /\ json_argument pattern pre = Some pre.
Proof.
  intros Hp Hpre_q Hpre_o Hpost.
  apply json_patterns_inv in Hp as [-> Ho]. split.
  - unfold json_argument. rewrite search_skip by assumption.
    rewrite (search_here _ _ [(3, String opening mid +:+ String closing "")]);
      [reflexivity|].
    unfold json_pattern. rewrite matches_alt, matches_seq, matches_lit.
    change ("```json" +:+ PyStr.nl) with (String backquote ("``json" +:+ PyStr.nl)).
    change (String opening mid +:+ String closing post)
      with (String opening (mid +:+ String closing post)).
    rewrite (strip_prefix_other backquote _ opening) by exact Ho.
    rewrite matches_alt, matches_seq, matches_lit.
    change "```" with (String backquote "``").
    rewrite (strip_prefix_other backquote _ opening) by exact Ho.
    rewrite matches_group, matches_seq, matches_lit.
    change (String opening (mid +:+ String closing post))
      with (String opening "" +:+ (mid +:+ String closing post)).
    rewrite strip_prefix_app. cbv beta iota. rewrite matches_seq.
    erewrite matches_greedy; [reflexivity | |].
    + intros p1 p2 Hp. rewrite matches_lit.
      rewrite Hp in Hpost. apply contains_suffix in Hpost.
      destruct p2 as [|c p2]; [reflexivity|].
      apply contains_cons in Hpost as [Hc _].
      rewrite (strip_prefix_other closing _ c) by exact Hc. reflexivity.
    + rewrite matches_lit.
      change (String closing post) with (String closing "" +:+ post) at 1.
      rewrite strip_prefix_app. do 2 f_equal. f_equal.
      change (String opening "" +:+ mid +:+ String closing post)
        with (String opening (mid +:+ String closing post)).
      replace (String opening (mid +:+ String closing post))
        with ((String opening mid +:+ String closing "") +:+ post).
      * apply consumed_app.
      * rewrite !string_app_cons. f_equal. rewrite string_app_assoc. reflexivity.
  - unfold json_argument.
    replace pre with (pre +:+ "") at 1
      by (clear; induction pre as [|x p IH]; [reflexivity|];
          rewrite string_app_cons, IH; reflexivity).
    rewrite search_skip by assumption. reflexivity.
Qed.

Lemma json_without_code_block_witness :
  json_argument json_object_pattern ("one {a} and two {b}" +:+ "!")
  = Some "{a} and two {b}"
  /\ json_argument json_object_pattern "one " = Some "one ".
Proof.
  assert ((json_object_pattern, ascii_of_nat 123, ascii_of_nat 125) ∈ json_patterns)
    as Hp by (apply elem_of_cons; left; reflexivity).
  exact (json_without_code_block json_object_pattern (ascii_of_nat 123)
           (ascii_of_nat 125) "one " "a} and two {b" "!"
           Hp eq_refl eq_refl eq_refl).
Defined.

(** ** The report *)

(** *** Sorting *)

Section Sorting.
Context {A : Type}.
Variable before : A -> A -> bool.

Lemma insert_sorted_perm (x : A) (l : list A) :
  ReportGenerator.insert_sorted before x l ≡ₚ x :: l.
Proof.
  induction l as [|y l IH]; [reflexivity|]. cbn [ReportGenerator.insert_sorted].
  destruct (before y x); [|reflexivity].
  rewrite IH. apply Permutation_swap.
Qed.

Lemma sorted_perm (l : list A) : ReportGenerator.sorted before l ≡ₚ l.
Proof.
  unfold ReportGenerator.sorted. induction l as [|x l IH]; [reflexivity|].
  cbn [foldr]. rewrite insert_sorted_perm, IH. reflexivity.
Qed.

(** The items that are not ordered with respect to one another keep
    their order: the sort is stable. *)
Lemma insert_sorted_filter (p : A -> bool) (x : A) (l : list A) :
  (forall y, before y x = true -> p x = true -> p y = false) ->
  List.filter p (ReportGenerator.insert_sorted before x l)
  = List.filter p (x :: l).
Proof.
  intros Hp. induction l as [|y l IH]; [reflexivity|].
  cbn [ReportGenerator.insert_sorted].
  destruct (before y x) eqn:E; [|reflexivity].
  cbn [List.filter] in IH |- *. rewrite IH.
  destruct (p x) eqn:Ex; [|reflexivity].
  rewrite (Hp y E eq_refl). reflexivity.
Qed.

Lemma sorted_filter (p : A -> bool) (l : list A) :
  (forall x y, before y x = true -> p x = true -> p y = false) ->
  List.filter p (ReportGenerator.sorted before l) = List.filter p l.
Proof.
  intros Hp. unfold ReportGenerator.sorted. induction l as [|x l IH]; [reflexivity|].
  cbn [foldr]. rewrite insert_sorted_filter by (apply Hp).
  cbn [List.filter]. rewrite IH. reflexivity.
Qed.

Variable le : A -> A -> Prop.
Hypothesis le_trans : forall x y z, le x y -> le y z -> le x z.
Hypothesis before_le : forall y x, before y x = true -> le y x.
Hypothesis not_before_le : forall y x, before y x = false -> le x y.

Lemma insert_sorted_sorted (x : A) (l : list A) :
  StronglySorted le l -> StronglySorted le (ReportGenerator.insert_sorted before x l).
Proof.
  induction 1 as [|y l Hl IH Hy]; [repeat constructor|].
  cbn [ReportGenerator.insert_sorted]. destruct (before y x) eqn:E.
  - constructor; [exact IH|].
    rewrite insert_sorted_perm. constructor; [apply before_le; exact E | exact Hy].
  - constructor; [constructor; assumption|].
    constructor; [apply not_before_le; exact E|].
    eapply Forall_impl; [exact Hy|]. intros z Hz.
    eapply le_trans; [apply not_before_le; exact E | exact Hz].
Qed.

Lemma sorted_sorted (l : list A) : StronglySorted le (ReportGenerator.sorted before l).
Proof.
  unfold ReportGenerator.sorted. induction l as [|x l IH]; [constructor|].
  cbn [foldr]. apply insert_sorted_sorted. exact IH.
Qed.

End Sorting.

(** *** The executive summary *)

Lemma fold_max_first {A} (f : A -> nat) (x : A) (post : list A) :
  Forall (fun y => f y <= f x) post ->
  fold_left (fun best y => if f best <? f y then y else best) post x = x.
Proof.
  induction 1 as [|y post Hy _ IH]; [reflexivity|]. cbn [fold_left].
  apply Nat.ltb_ge in Hy. rewrite Hy. exact IH.
Qed.

Lemma fold_max_reach {A} (f : A -> nat) (pre : list A) (x : A) (post : list A) :
  forall best,
    f best < f x ->
    Forall (fun y => f y < f x) pre -> Forall (fun y => f y <= f x) post ->
    fold_left (fun best y => if f best <? f y then y else best) (pre ++ x :: post) best
    = x.
Proof.
  induction pre as [|y pre IH]; intros best Hbest Hpre Hpost.
  - cbn [app fold_left]. apply Nat.ltb_lt in Hbest. rewrite Hbest.
    apply fold_max_first. exact Hpost.
  - inversion Hpre as [|? ? Hy Hpre']; subst. cbn [app fold_left].
    apply IH; [|exact Hpre' | exact Hpost].
    destruct (f best <? f y); assumption.
Qed.

Lemma py_max_by_first {A} (f : A -> nat) (pre : list A) (x : A) (post : list A) :
  Forall (fun y => f y < f x) pre -> Forall (fun y => f y <= f x) post ->
  py_max_by f (pre ++ x :: post) = Some x.
Proof.
  intros Hpre Hpost. destruct pre as [|y pre].
  - cbn. f_equal. apply fold_max_first. exact Hpost.
  - inversion Hpre as [|? ? Hy Hpre']; subst. cbn [app py_max_by]. f_equal.
    apply fold_max_reach; assumption.
Qed.

(** Every non-empty list has a first item where [f] is largest. *)
Lemma first_maximum {A} (f : A -> nat) (l : list A) :
  l <> [] ->
  exists pre x post,
    l = pre ++ x :: post
    /\ Forall (fun y => f y < f x) pre /\ Forall (fun y => f y <= f x) post.
Proof.
  induction l as [|y l IH]; [congruence|]. intros _.
  destruct l as [|z l].
  - exists [], y, []. repeat split; constructor.
  - destruct (IH ltac:(discriminate)) as (pre & x & post & Hl & Hpre & Hpost).
    destruct (Nat.lt_ge_cases (f y) (f x)) as [Hlt|Hge].
    + exists (y :: pre), x, post. rewrite Hl. split; [reflexivity|].
      split; [constructor; assumption | exact Hpost].
    + exists [], y, (z :: l). split; [reflexivity|]. split; [constructor|].
      rewrite Hl. apply Forall_app. split.
      * eapply Forall_impl; [exact Hpre|]. cbn. intros. lia.
      * constructor; [exact Hge|].
        eapply Forall_impl; [exact Hpost|]. cbn. intros. lia.
Qed.

(** X24: the figures of the executive summary.  The total is the sum of
    the sentiment counts; the two percentages are computed only when the
    total is positive, and are the integer 0 otherwise.  The top category is
    the first, in the order of the dict, of the categories with the largest
    count, reported with that count; without any category it is the text
    [None] with the count 0. *)
Theorem executive_summary_figures
    (sentiment_distribution category_distribution : list (string * nat)) :
  NoDup (fst <$> category_distribution) ->
  let summary :=
    ReportGenerator.executive_summary sentiment_distribution category_distribution in
  let total := ReportGenerator.sum_values sentiment_distribution in
  ReportGenerator.total_feedback summary = total
  /\ (total = 0 ->
      ReportGenerator.positive_pct summary = ReportGenerator.PercentZero
      /\ ReportGenerator.negative_pct summary = ReportGenerator.PercentZero)
  /\ (0 < total ->
      ReportGenerator.positive_pct summary
      = ReportGenerator.Percent
          (ReportGenerator.get sentiment_distribution "positive") total
      /\ ReportGenerator.negative_pct summary
         = ReportGenerator.Percent
             (ReportGenerator.get sentiment_distribution "negative") total)
  /\ match category_distribution with
     | [] =>
         ReportGenerator.top_category summary = "None"
         /\ ReportGenerator.top_category_count summary = 0
     | _ =>
         exists pre category count post,
           category_distribution = pre ++ (category, count) :: post
           /\ Forall (fun item => item.2 < count) pre
           /\ Forall (fun item => item.2 <= count) post
           /\ ReportGenerator.top_category summary = category
           /\ ReportGenerator.top_category_count summary = count
     end.
Proof.
  intros Hnd. cbv zeta. unfold ReportGenerator.executive_summary.
  cbn [ReportGenerator.total_feedback ReportGenerator.positive_pct
       ReportGenerator.negative_pct ReportGenerator.top_category
       ReportGenerator.top_category_count].
  split; [reflexivity|]. unfold ReportGenerator.guarded_percent. split; [|split].
  - intros ->. split; reflexivity.
  - intros Hpos. apply Nat.ltb_lt in Hpos. rewrite Hpos. split; reflexivity.
  - destruct category_distribution as [|item items]; [split; reflexivity|].
    destruct (first_maximum snd (item :: items))
      as (pre & [category count] & post & Hl & Hpre & Hpost); [discriminate|].
    exists pre, category, count, post. split; [exact Hl|].
    split; [exact Hpre|]. split; [exact Hpost|].
    assert (py_max_by snd (item :: items) = Some (category, count)) as ->
      by (rewrite Hl; apply py_max_by_first; assumption).
    cbn [fst]. split; [reflexivity|].
    unfold ReportGenerator.get.
    rewrite (dict_get_elem (item :: items) category count Hnd); [reflexivity|].
    rewrite Hl. apply elem_of_app. right. apply elem_of_cons. left. reflexivity.
Qed.

Lemma executive_summary_figures_witness :
  exists pre category count post,
    Examples.three_categories
    = pre ++ (category, count) :: post
    /\ Forall (fun item => item.2 < count) pre
    /\ Forall (fun item => item.2 <= count) post
    /\ ReportGenerator.top_category
         (ReportGenerator.executive_summary [("positive", 7)]
            Examples.three_categories) = category
    /\ ReportGenerator.top_category_count
         (ReportGenerator.executive_summary [("positive", 7)]
            Examples.three_categories) = count.
Proof.
  assert (NoDup (fst <$> Examples.three_categories))
    as Hnd by (refine (bool_decide_unpack _ _); vm_compute; exact I).
  exact (proj2 (proj2 (proj2
           (executive_summary_figures [("positive", 7)]
              Examples.three_categories Hnd)))).
Defined.

(** *** The sentiment table *)

Lemma get_cons (k : string) (v : nat) (d : list (string * nat)) (k' : string) :
  ReportGenerator.get ((k, v) :: d) k'
  = if String.eqb k k' then v else ReportGenerator.get d k'.
Proof. unfold ReportGenerator.get. cbn [dict_get]. destruct (String.eqb k k'); reflexivity. Qed.

Lemma get_absent (d : list (string * nat)) (k : string) :
  k ∉ fst <$> d -> ReportGenerator.get d k = 0.
Proof. intros H. unfold ReportGenerator.get. rewrite (dict_get_None d k H). reflexivity. Qed.

Lemma rows_total_split (d : list (string * nat)) :
  NoDup (fst <$> d) ->
  ReportGenerator.sum_values d = rows_total d + ReportGenerator.sum_values (without_row d).
Proof.
  induction d as [|[k v] d IH]; [reflexivity|]. cbn [fmap list_fmap fst].
  intros Hnd. apply NoDup_cons in Hnd as [Hk Hnd]. specialize (IH Hnd).
  unfold rows_total, without_row in *. rewrite !get_cons. cbn [List.filter fst].
  unfold ReportGenerator.sum_values in *.
  destruct (PyStr.mem k table_labels) eqn:Em; cbn [negb fmap list_fmap snd sum_list].
  - apply mem_elem_of in Em. unfold table_labels in Em.
    apply elem_of_cons in Em as [->|Em].
    { rewrite (get_absent d _ Hk) in IH.
      change (String.eqb "positive" "positive") with true.
      change (String.eqb "positive" "neutral") with false.
      change (String.eqb "positive" "negative") with false.
      cbv iota. change (id v) with v. lia. }
    apply elem_of_cons in Em as [->|Em].
    { rewrite (get_absent d _ Hk) in IH.
      change (String.eqb "neutral" "positive") with false.
      change (String.eqb "neutral" "neutral") with true.
      change (String.eqb "neutral" "negative") with false.
      cbv iota. change (id v) with v. lia. }
    apply elem_of_cons in Em as [->|Em].
    { rewrite (get_absent d _ Hk) in IH.
      change (String.eqb "negative" "positive") with false.
      change (String.eqb "negative" "neutral") with false.
      change (String.eqb "negative" "negative") with true.
      cbv iota. change (id v) with v. lia. }
    apply elem_of_nil in Em. destruct Em.
  - unfold PyStr.mem, table_labels in Em. cbn [existsb] in Em.
    apply orb_false_iff in Em as [E1 Em]. apply orb_false_iff in Em as [E2 Em].
    apply orb_false_iff in Em as [E3 _]. rewrite E1, E2, E3. change (id v) with v. lia.
Qed.

Lemma sum_values_positive (d : list (string * nat)) :
  Forall (fun item => 1 <= item.2) d ->
  (ReportGenerator.sum_values d = 0 <-> d = []).
Proof.
  intros H. destruct H as [|[k v] d Hv _]; [split; reflexivity|].
  unfold ReportGenerator.sum_values. cbn in *. split; [lia | discriminate].
Qed.

(** X25: the sentiment table of a run.  For the sentiment distribution of
    a run of [process_feedback], listed in any order, the rows of the table
    are computed without a division by zero as soon as one row was
    analysed.  The counts of the three rows add up to at most the total of
    the last row, and to the total exactly when the model used no label
    other than [positive], [neutral] and [negative]. *)
Theorem sentiment_table_of_a_run (cap : Capability) (df : DataFrame)
    (s c su sg : bool) (fmt : string) (h : history) (res : results) (h' : history)
    (items : list (string * nat)) :
  process_feedback cap df s c su sg fmt h = (Ok res, h') ->
  NoDup (fst <$> items) ->
  list_to_map items = sentiment_distribution res ->
  items <> [] ->
  let total := ReportGenerator.sum_values items in
  0 < total
  /\ ReportGenerator.sentiment_data items
     = Ok [[ReportGenerator.TText "Sentiment"; ReportGenerator.TText "Count";
            ReportGenerator.TText "Percentage"];
           [ReportGenerator.TText "Positive";
            ReportGenerator.TCount (ReportGenerator.get items "positive");
            ReportGenerator.TPercent
              (ReportGenerator.Percent (ReportGenerator.get items "positive") total)];
           [ReportGenerator.TText "Neutral";
            ReportGenerator.TCount (ReportGenerator.get items "neutral");
            ReportGenerator.TPercent
              (ReportGenerator.Percent (ReportGenerator.get items "neutral") total)];
           [ReportGenerator.TText "Negative";
            ReportGenerator.TCount (ReportGenerator.get items "negative");
            ReportGenerator.TPercent
              (ReportGenerator.Percent (ReportGenerator.get items "negative") total)];
           [ReportGenerator.TText "Total"; ReportGenerator.TCount total;
            ReportGenerator.TText "100.0%"]]
  /\ rows_total items <= total
  /\ (rows_total items = total <-> Forall (fun item => item.1 ∈ table_labels) items).
Proof.
  intros H Hnd Hitems Hne. cbv zeta.
  destruct (distributions_positive _ _ _ _ _ _ _ _ _ _ H) as [Hpos _].
  assert (Forall (fun item => 1 <= item.2) items) as Hall.
  { apply Forall_forall. intros [k n] Hin. cbn. apply (Hpos k).
    rewrite <- Hitems. apply elem_of_list_to_map_1; assumption. }
  assert (0 < ReportGenerator.sum_values items) as Htotal.
  { destruct (ReportGenerator.sum_values items) eqn:E; [|lia].
    apply (sum_values_positive items Hall) in E. contradiction. }
  split; [exact Htotal|]. split.
  - unfold ReportGenerator.sentiment_data, ReportGenerator.percent,
      ReportGenerator.guarded_percent.
    destruct (ReportGenerator.sum_values items) as [|n]; [lia|]. reflexivity.
  - pose proof (rows_total_split items Hnd) as Hsplit. split; [lia|].
    assert (Forall (fun item => 1 <= item.2) (without_row items)) as Hall'.
    { apply Forall_forall. intros item Hin.
      apply list_elem_of_In, List.filter_In in Hin as [Hin _].
      apply list_elem_of_In in Hin.
      exact (proj1 (Forall_forall _ _) Hall item Hin). }
    transitivity (without_row items = []).
    + rewrite <- (sum_values_positive _ Hall'). lia.
    + unfold without_row. clear. induction items as [|item items IH]; cbn [List.filter].
      * split; [constructor | reflexivity].
      * destruct (PyStr.mem item.1 table_labels) eqn:E; cbn [negb].
        -- rewrite IH. apply mem_elem_of in E. split.
           ++ intros Hf. constructor; assumption.
           ++ intros Hf. inversion Hf; assumption.
        -- split; [discriminate|]. intros Hf. inversion Hf as [|? ? Hin _]; subst.
           apply mem_elem_of in Hin. congruence.
Qed.

Lemma sentiment_table_of_a_run_witness :
  0 < ReportGenerator.sum_values [("positive", 1)]
  /\ rows_total [("positive", 1)] = ReportGenerator.sum_values [("positive", 1)].
Proof.
  destruct (process_feedback Examples.always_positive Examples.one_row
              true true false false "text" []) as [[res|e] h'] eqn:E;
    [|vm_compute in E; discriminate E].
  assert (NoDup (fst <$> [("positive", 1)])) as Hnd
    by (refine (bool_decide_unpack _ _); vm_compute; exact I).
  destruct (sentiment_table_of_a_run _ _ _ _ _ _ _ _ _ _ [("positive", 1)] E Hnd)
    as (Hpos & _ & _ & Hall).
  - vm_compute in E. inversion E; subst. vm_compute. reflexivity.
  - discriminate.
  - split; [exact Hpos|]. apply Hall. repeat constructor.
Defined.

(** *** The category table *)

(** X26: the rows of the category table.  After the heading there is one
    row per category of the distribution, by decreasing count, and the
    categories with the same count are in the order in which the dict holds
    them.  The percentage of a row is computed only when the total is
    positive. *)
Theorem category_table_rows (category_distribution : list (string * nat))
    (total_feedback : nat) :
  exists ordered,
    ReportGenerator.category_data category_distribution total_feedback
    = [ReportGenerator.TText "Category"; ReportGenerator.TText "Count";
       ReportGenerator.TText "Percentage"]
      :: ((fun item =>
             [ReportGenerator.TText (ReportGenerator.format_label item.1);
              ReportGenerator.TCount item.2;
              ReportGenerator.TPercent
                (if 0 <? total_feedback
                 then ReportGenerator.Percent item.2 total_feedback
                 else ReportGenerator.PercentZero)]) <$> ordered)
    /\ ordered ≡ₚ category_distribution
    /\ StronglySorted (fun a b => b.2 <= a.2) ordered
    /\ forall count,
         List.filter (fun item => item.2 =? count) ordered
         = List.filter (fun item => item.2 =? count) category_distribution.
Proof.
  exists (ReportGenerator.by_count_descending category_distribution).
  split; [reflexivity|]. unfold ReportGenerator.by_count_descending.
  split; [apply sorted_perm|]. split.
  - apply sorted_sorted.
    + intros x y z Hxy Hyz. lia.
    + intros y x Hb. apply Nat.ltb_lt in Hb. lia.
    + intros y x Hb. apply Nat.ltb_ge in Hb. exact Hb.
  - intros count. apply sorted_filter.
    intros x y Hb Hx. apply Nat.ltb_lt in Hb. apply Nat.eqb_eq in Hx.
    apply Nat.eqb_neq. lia.
Qed.

(** *** The sections of summaries and of suggestions *)

Lemma ascii_compare_lt_trans (a b c : ascii) :
  Ascii.compare a b = Lt -> Ascii.compare b c = Lt -> Ascii.compare a c = Lt.
Proof.
  unfold Ascii.compare. rewrite !N.compare_lt_iff. apply N.lt_trans.
Qed.

Lemma string_compare_lt_trans (x y z : string) :
  String.compare x y = Lt -> String.compare y z = Lt -> String.compare x z = Lt.
Proof.
  revert y z. induction x as [|a x IH]; intros [|b y] [|c z]; cbn; try congruence.
  destruct (Ascii.compare a b) eqn:Eab; try discriminate;
    destruct (Ascii.compare b c) eqn:Ebc; try discriminate; intros Hxy Hyz.
  - apply Ascii.compare_eq_iff in Eab, Ebc. subst.
    assert (Ascii.compare c c = Eq) as -> by (unfold Ascii.compare; apply N.compare_refl).
    eapply IH; eassumption.
  - apply Ascii.compare_eq_iff in Eab. subst. rewrite Ebc. reflexivity.
  - apply Ascii.compare_eq_iff in Ebc. subst. rewrite Eab. reflexivity.
  - rewrite (ascii_compare_lt_trans _ _ _ Eab Ebc). reflexivity.
Qed.

Lemma key_le_trans (x y z : string) : key_le x y -> key_le y z -> key_le x z.
Proof.
  unfold key_le, String.ltb. intros Hxy Hyz.
  destruct (String.compare z x) eqn:Ezx; try reflexivity. exfalso.
  destruct (String.compare y x) eqn:Eyx; try discriminate Hxy.
  - apply String.compare_eq_iff in Eyx. subst. rewrite Ezx in Hyz. discriminate.
  - rewrite String.compare_antisym in Eyx.
    destruct (String.compare x y) eqn:Exy; try discriminate Eyx.
    rewrite (string_compare_lt_trans _ _ _ Ezx Exy) in Hyz. discriminate.
Qed.

Lemma ltb_key_le (y x : string) : String.ltb y x = true -> key_le y x.
Proof.
  unfold key_le, String.ltb. intros H.
  destruct (String.compare y x) eqn:E; try discriminate H.
  rewrite (String.compare_antisym x y), E. reflexivity.
Qed.

Lemma by_key_sorted {V} (d : list (string * V)) :
  StronglySorted (fun a b => key_le a.1 b.1) (ReportGenerator.by_key d)
  /\ ReportGenerator.by_key d ≡ₚ d.
Proof.
  unfold ReportGenerator.by_key. split; [|apply sorted_perm].
  apply sorted_sorted.
  - intros x y z. apply key_le_trans.
  - intros y x. apply ltb_key_le.
  - intros y x Hb. exact Hb.
Qed.

(** X27: the sections of category summaries.  Without any summary the
    report says that none is available.  Otherwise there is one section per
    category whose summary is not empty, headed by the formatted category
    and holding the summary, and the sections are in the order of the
    category names. *)
Theorem summary_sections_ordered (category_summaries : list (string * string)) :
  match category_summaries with
  | [] => ReportGenerator.summary_sections category_summaries = None
  | _ =>
      exists ordered,
        ReportGenerator.summary_sections category_summaries
        = Some ((fun item => (ReportGenerator.format_label item.1, item.2))
                <$> ordered)
        /\ ordered ≡ₚ List.filter (fun item => PyStr.truthy item.2) category_summaries
        /\ StronglySorted (fun a b => key_le a.1 b.1) ordered
        /\ Forall (fun item => item.2 <> "") ordered
  end.
Proof.
  destruct category_summaries as [|item items]; [reflexivity|].
  destruct (by_key_sorted (item :: items)) as [Hsorted Hperm].
  exists (List.filter (fun item => PyStr.truthy item.2)
            (ReportGenerator.by_key (item :: items))).
  split; [reflexivity|]. split; [|split].
  - clear Hsorted. revert Hperm.
    generalize (ReportGenerator.by_key (item :: items)) (item :: items).
    intros l1 l2 Hp. induction Hp as [|x l l' _ IH|x y l|l l' l'' _ IH1 _ IH2].
    + reflexivity.
    + cbn [List.filter]. destruct (PyStr.truthy x.2); [rewrite IH|]; [reflexivity | exact IH].
    + cbn [List.filter]. destruct (PyStr.truthy x.2), (PyStr.truthy y.2);
        try reflexivity. apply Permutation_swap.
    + etransitivity; eassumption.
  - clear Hperm.
    induction Hsorted as [|x l Hl IH Hx]; cbn [List.filter]; [constructor|].
    destruct (PyStr.truthy x.2); [|exact IH].
    constructor; [exact IH|].
    apply Forall_forall. intros y Hy.
    apply list_elem_of_In, List.filter_In in Hy as [Hy _].
    apply list_elem_of_In in Hy. exact (proj1 (Forall_forall _ _) Hx y Hy).
  - apply Forall_forall. intros y Hy.
    apply list_elem_of_In, List.filter_In in Hy as [_ Hy].
    apply truthy_nonempty. exact Hy.
Qed.




